(** * UnFoldAI front end: session controller, artifact version store and
      mention resolver.

    A shallow embedding of the state-handling code of
    [src/components/ChatInterface.tsx] and [src/components/ArtifactCanvas.tsx],
    with the properties of the specification proved (or refuted) over
    it.

    Conventions of the embedding.
    - A JavaScript [number] that the code only uses as an integer (a
      version number, an index, a caret position, a millisecond clock)
      is a [Z]; the sentinel [-1] stays [-1].
    - An optional field ([x?: T]) or a nullable state cell
      ([T | null]) is an [option T]; [None] is [undefined]/[null].
    - A string is a [string], read as a sequence of UTF-16 code units
      below 256 (the Latin-1 range); the character operations
      ([substring], [lastIndexOf], [includes], [toLowerCase], [trim])
      are written out below for that range.
    - A React state cell is a field of a state record; a handler is a
      function from the state (and the values its closure captured) to
      the next state and the effects it emits; an [await] splits a
      handler into the part before and the part after it.
    - The clock ([Date.now()], [new Date().toISOString()]) and the
      random suffix of a minted conversation id are inputs ([Env]). *)

From Stdlib Require Import ZArith QArith List String Ascii Bool Lia.
From Stdlib Require Import Sorting.Sorted Sorting.Permutation.
From stdpp Require Import base option list strings pretty gmap.

Set Warnings "-register-all".
Local Open Scope Z_scope.

(** ** Data model ([types/index.ts]) *)

Inductive Role := user | assistant.

Record ResearchTask := mkResearchTask {
  task_task : string;
  task_id : option Z
}.

Record ResearchProgress := mkResearchProgress {
  rp_current_step : Z;
  rp_total_steps : Z;
  rp_label : string;
  rp_visual : string;
  rp_tasks : option (list ResearchTask);
  rp_duration : option Q
}.

Record ChatMessage := mkChatMessage {
  msg_id : string;
  msg_role : Role;
  msg_content : string;
  msg_timestamp : string;
  msg_isResearching : option bool;
  msg_researchProgress : option ResearchProgress
}.

(** Section content: [string | string[] | Record<string, any>], as a
    tagged union. *)
Inductive Content :=
| CText (s : string)
| CList (items : list Content)
| CMap (entries : list (string * Content)).

(** A section.  The title is a [string] in the type; it is optional
    here because the spread [{...newSections[index], content}] over a
    missing element builds a section object without one. *)
Record PlanSection := mkPlanSection {
  sec_title : option string;
  sec_content : Content
}.

(** A JavaScript array: a slot is [Some x], or [None] for a hole left
    by a write past the end (it reads as [undefined]). *)
Abbreviation JsArray A := (list (option A)).

(** [history?: any[]] holds snapshots that the code reads as
    [AccountPlan]s ([snapshot as AccountPlan]). *)
Inductive AccountPlan := mkAccountPlan {
  plan_id : string;
  plan_userId : string;
  plan_company : string;
  plan_goal : string;
  plan_title : option string;
  plan_createdAt : string;
  plan_updatedAt : string;
  plan_version : Z;
  plan_sections : JsArray PlanSection;
  plan_history : option (list AccountPlan)
}.

Record AttachedFile := mkAttachedFile {
  file_id : string;
  file_filename : string;
  (* [(file as any).name]: a field outside the interface that the code
     falls back to *)
  file_name : option string
}.

Record User := mkUser {
  user_id : string;
  user_name : string;
  user_email : string
}.

(** ** JavaScript helpers *)

(** [a || b] on optional objects: an object is always truthy. *)
Definition js_or {A : Type} (a b : option A) : option A :=
  match a with
  | Some x => Some x
  | None => b
  end.

(** Truthiness of a string: the empty string is falsy. *)
Definition str_truthy (s : string) : bool :=
  match s with
  | EmptyString => false
  | String _ _ => true
  end.

(** Truthiness of [string | null]. *)
Definition optstr_truthy (s : option string) : bool :=
  match s with
  | Some x => str_truthy x
  | None => false
  end.

(** The white space and line terminators that [String.prototype.trim]
    strips, among the code units below 256: tab, line feed, vertical
    tab, form feed, carriage return, space and the no-break space
    (U+00A0). *)
Definition is_js_whitespace (c : ascii) : bool :=
  let n := nat_of_ascii c in
  ((9 <=? n) && (n <=? 13))%nat || (n =? 32)%nat || (n =? 160)%nat.

(** [s.trim()] is truthy: some character of [s] is not white space. *)
Fixpoint trim_truthy (s : string) : bool :=
  match s with
  | EmptyString => false
  | String c t => negb (is_js_whitespace c) || trim_truthy t
  end.

(** [Date.now().toString()]. *)
Definition Date_toString (now : Z) : string := pretty now.

(** The inputs of a handler run that are not part of the component:
    [Date.now()], [new Date().toISOString()] and
    [Math.random().toString(36).substr(2, 9)]. *)
Record Env := mkEnv {
  env_now : Z;
  env_nowISO : string;
  env_rand : string
}.

(** [`new-${Date.now()}-${Math.random().toString(36).substr(2, 9)}`] *)
Definition mintConversationId (env : Env) : string :=
  "new-" +:+ Date_toString (env_now env) +:+ "-" +:+ env_rand env.

(** ** Session controller ([ChatInterface]) *)

(** The React state of the component that the handlers below read or
    write ([useState] cells, and the [latestProgressRef] ref). *)
Record ChatState := mkChatState {
  st_messages : list ChatMessage;
  st_inputValue : string;
  st_isResearching : bool;
  st_researchProgress : option ResearchProgress;
  st_researchStartTime : Z;
  st_proposedPlan : option (list ResearchTask);
  st_activeResearchPlan : option (list ResearchTask);
  st_currentPlan : option AccountPlan;
  st_tempConversationId : string;
  st_attachedFiles : list AttachedFile;
  st_availableFiles : list AttachedFile;
  st_mentionQuery : option string;
  st_mentionIndex : Z;
  st_latestProgressRef : option ResearchProgress
}.

(** The setters: [setX(v)] is [setX (fun _ => v)], [setX(prev => f prev)]
    is [setX f]; both act on the live state. *)
Definition setMessages (f : list ChatMessage -> list ChatMessage) (s : ChatState) :=
  mkChatState (f (st_messages s)) (st_inputValue s) (st_isResearching s)
    (st_researchProgress s) (st_researchStartTime s) (st_proposedPlan s)
    (st_activeResearchPlan s) (st_currentPlan s) (st_tempConversationId s)
    (st_attachedFiles s) (st_availableFiles s) (st_mentionQuery s)
    (st_mentionIndex s) (st_latestProgressRef s).
Definition setInputValue (v : string) (s : ChatState) :=
  mkChatState (st_messages s) v (st_isResearching s)
    (st_researchProgress s) (st_researchStartTime s) (st_proposedPlan s)
    (st_activeResearchPlan s) (st_currentPlan s) (st_tempConversationId s)
    (st_attachedFiles s) (st_availableFiles s) (st_mentionQuery s)
    (st_mentionIndex s) (st_latestProgressRef s).
Definition setIsResearching (v : bool) (s : ChatState) :=
  mkChatState (st_messages s) (st_inputValue s) v
    (st_researchProgress s) (st_researchStartTime s) (st_proposedPlan s)
    (st_activeResearchPlan s) (st_currentPlan s) (st_tempConversationId s)
    (st_attachedFiles s) (st_availableFiles s) (st_mentionQuery s)
    (st_mentionIndex s) (st_latestProgressRef s).
Definition setResearchProgress (v : option ResearchProgress) (s : ChatState) :=
  mkChatState (st_messages s) (st_inputValue s) (st_isResearching s)
    v (st_researchStartTime s) (st_proposedPlan s)
    (st_activeResearchPlan s) (st_currentPlan s) (st_tempConversationId s)
    (st_attachedFiles s) (st_availableFiles s) (st_mentionQuery s)
    (st_mentionIndex s) (st_latestProgressRef s).
Definition setResearchStartTime (v : Z) (s : ChatState) :=
  mkChatState (st_messages s) (st_inputValue s) (st_isResearching s)
    (st_researchProgress s) v (st_proposedPlan s)
    (st_activeResearchPlan s) (st_currentPlan s) (st_tempConversationId s)
    (st_attachedFiles s) (st_availableFiles s) (st_mentionQuery s)
    (st_mentionIndex s) (st_latestProgressRef s).
Definition setProposedPlan (v : option (list ResearchTask)) (s : ChatState) :=
  mkChatState (st_messages s) (st_inputValue s) (st_isResearching s)
    (st_researchProgress s) (st_researchStartTime s) v
    (st_activeResearchPlan s) (st_currentPlan s) (st_tempConversationId s)
    (st_attachedFiles s) (st_availableFiles s) (st_mentionQuery s)
    (st_mentionIndex s) (st_latestProgressRef s).
Definition setActiveResearchPlan (v : option (list ResearchTask)) (s : ChatState) :=
  mkChatState (st_messages s) (st_inputValue s) (st_isResearching s)
    (st_researchProgress s) (st_researchStartTime s) (st_proposedPlan s)
    v (st_currentPlan s) (st_tempConversationId s)
    (st_attachedFiles s) (st_availableFiles s) (st_mentionQuery s)
    (st_mentionIndex s) (st_latestProgressRef s).
Definition setCurrentPlan (v : option AccountPlan) (s : ChatState) :=
  mkChatState (st_messages s) (st_inputValue s) (st_isResearching s)
    (st_researchProgress s) (st_researchStartTime s) (st_proposedPlan s)
    (st_activeResearchPlan s) v (st_tempConversationId s)
    (st_attachedFiles s) (st_availableFiles s) (st_mentionQuery s)
    (st_mentionIndex s) (st_latestProgressRef s).
Definition setTempConversationId (v : string) (s : ChatState) :=
  mkChatState (st_messages s) (st_inputValue s) (st_isResearching s)
    (st_researchProgress s) (st_researchStartTime s) (st_proposedPlan s)
    (st_activeResearchPlan s) (st_currentPlan s) v
    (st_attachedFiles s) (st_availableFiles s) (st_mentionQuery s)
    (st_mentionIndex s) (st_latestProgressRef s).
Definition setAttachedFiles (f : list AttachedFile -> list AttachedFile) (s : ChatState) :=
  mkChatState (st_messages s) (st_inputValue s) (st_isResearching s)
    (st_researchProgress s) (st_researchStartTime s) (st_proposedPlan s)
    (st_activeResearchPlan s) (st_currentPlan s) (st_tempConversationId s)
    (f (st_attachedFiles s)) (st_availableFiles s) (st_mentionQuery s)
    (st_mentionIndex s) (st_latestProgressRef s).
Definition setAvailableFiles (v : list AttachedFile) (s : ChatState) :=
  mkChatState (st_messages s) (st_inputValue s) (st_isResearching s)
    (st_researchProgress s) (st_researchStartTime s) (st_proposedPlan s)
    (st_activeResearchPlan s) (st_currentPlan s) (st_tempConversationId s)
    (st_attachedFiles s) v (st_mentionQuery s)
    (st_mentionIndex s) (st_latestProgressRef s).
Definition setMentionQuery (v : option string) (s : ChatState) :=
  mkChatState (st_messages s) (st_inputValue s) (st_isResearching s)
    (st_researchProgress s) (st_researchStartTime s) (st_proposedPlan s)
    (st_activeResearchPlan s) (st_currentPlan s) (st_tempConversationId s)
    (st_attachedFiles s) (st_availableFiles s) v
    (st_mentionIndex s) (st_latestProgressRef s).
Definition setMentionIndex (v : Z) (s : ChatState) :=
  mkChatState (st_messages s) (st_inputValue s) (st_isResearching s)
    (st_researchProgress s) (st_researchStartTime s) (st_proposedPlan s)
    (st_activeResearchPlan s) (st_currentPlan s) (st_tempConversationId s)
    (st_attachedFiles s) (st_availableFiles s) (st_mentionQuery s)
    v (st_latestProgressRef s).
Definition setLatestProgressRef (v : option ResearchProgress) (s : ChatState) :=
  mkChatState (st_messages s) (st_inputValue s) (st_isResearching s)
    (st_researchProgress s) (st_researchStartTime s) (st_proposedPlan s)
    (st_activeResearchPlan s) (st_currentPlan s) (st_tempConversationId s)
    (st_attachedFiles s) (st_availableFiles s) (st_mentionQuery s)
    (st_mentionIndex s) v.

(** A render of the component: the props and the state snapshot that
    the handlers created in that render close over.  A handler reads
    [selectedPlanId], [currentUser], [inputValue], ... from its render
    and writes through the setters to the live state. *)
Record Render := mkRender {
  r_selectedPlanId : option string;
  r_currentUser : option User;
  r_onPlanCreated : bool;   (* the optional callback prop is provided *)
  r_onPlanUpdated : bool;
  r_state : ChatState
}.

(** *** The send cycle ([handleSendMessage]) *)

(** The argument of [apiClient.sendChatMessage]. *)
Record SendRequest := mkSendRequest {
  req_userId : string;
  req_planId : option string;
  req_message : string;
  req_conversationId : option string;
  req_fileIds : list string
}.

(** The fields of the response that the handler reads. *)
Record SendResponse := mkSendResponse {
  resp_assistantMessages : option (list ChatMessage);
  resp_updatedPlan : option AccountPlan;
  resp_researchStatus : string;
  resp_progress : option ResearchProgress;
  resp_researchPlan : option (list ResearchTask)
}.

(** What a handler does besides writing state. *)
Inductive Effect :=
| SavePlan (p : AccountPlan)        (* storageService.savePlan(p) *)
| PlanUpdated                       (* onPlanUpdated() *)
| PlanCreated (planId : string)     (* onPlanCreated(planId) *)
| Reload                            (* window.location.reload() *)
| Dispatch (req : SendRequest)       (* apiClient.sendChatMessage(req) *)
| ScheduleContinuation (delay : Z) (closure : Render).
                                    (* setTimeout(() => handleSendMessage("[CONTINUE_RESEARCH]", true), delay) *)

Definition CONTINUE_RESEARCH : string := "[CONTINUE_RESEARCH]".

(** [new Map(prev.map(m => [m.id, m.researchProgress]))]: the entries
    are set in order, a later entry overrides an earlier one with the
    same key. *)
Definition progressMap (prev : list ChatMessage)
  : gmap string (option ResearchProgress) :=
  foldl (fun m msg => <[msg_id msg := msg_researchProgress msg]> m) ∅ prev.

(** [progressMap.get(id)]: [undefined] for a missing key and for a key
    bound to [undefined]. *)
Definition progressMap_get (m : gmap string (option ResearchProgress))
    (k : string) : option ResearchProgress :=
  match m !! k with
  | Some v => v
  | None => None
  end.

(** [{...msg, researchProgress: p}] *)
Definition withResearchProgress (p : option ResearchProgress) (msg : ChatMessage)
  : ChatMessage :=
  mkChatMessage (msg_id msg) (msg_role msg) (msg_content msg)
    (msg_timestamp msg) (msg_isResearching msg) p.

(** The updater passed to [setMessages] on a response with messages. *)
Definition mergeMessages (assistantMessages prev : list ChatMessage)
  : list ChatMessage :=
  let pm := progressMap prev in
  map (fun msg =>
         withResearchProgress
           (js_or (progressMap_get pm (msg_id msg)) (msg_researchProgress msg))
           msg)
      assistantMessages.

(** The reconciliation step of the handler:
    [if (response.assistantMessages && response.assistantMessages.length > 0)
       setMessages(prev => ...)]. *)
Definition reconcile (assistantMessages : option (list ChatMessage))
    (st : ChatState) : ChatState :=
  match assistantMessages with
  | Some (m :: l) => setMessages (mergeMessages (m :: l)) st
  | Some [] | None => st
  end.

(** The user message built at the top of the handler. *)
Definition userMessage (env : Env) (messageContent : string) : ChatMessage :=
  mkChatMessage (Date_toString (env_now env)) user messageContent
    (env_nowISO env) None None.

(** [overrideMessage || inputValue] *)
Definition messageContent (cl : Render) (overrideMessage : option string) : string :=
  match overrideMessage with
  | Some s => if str_truthy s then s else st_inputValue (r_state cl)
  | None => st_inputValue (r_state cl)
  end.

(** The optimistic update of a visible send. *)
Definition optimisticUpdate (cl : Render) (env : Env) (um : ChatMessage)
    (st : ChatState) : ChatState :=
  let st := setMessages (fun prev => prev ++ [um]) st in
  let st := setInputValue "" st in
  let st := setAttachedFiles (fun _ => []) st in
  let st := setResearchProgress None st in
  let st := setLatestProgressRef None st in
  let st := match st_proposedPlan (r_state cl) with
            | Some p => setActiveResearchPlan (Some p) st
            | None => st
            end in
  let st := setProposedPlan None st in
  setResearchStartTime (env_now env) st.

(** The handler up to its [await]: [None] when the guard returns, else
    the state written so far and the request dispatched. *)
Definition handleSendMessage_begin (cl : Render) (env : Env)
    (overrideMessage : option string) (isHidden : bool) (st : ChatState)
  : option (ChatState * SendRequest) :=
  let content := messageContent cl overrideMessage in
  match r_currentUser cl with
  | None => None
  | Some currentUser =>
    if negb (trim_truthy content) then None else
    let um := userMessage env content in
    let currentAttachedFiles := st_attachedFiles (r_state cl) in
    let st := if isHidden then st else optimisticUpdate cl env um st in
    let st := setIsResearching true st in
    let tempId := st_tempConversationId (r_state cl) in
    let mint := negb (optstr_truthy (r_selectedPlanId cl)) && negb (str_truthy tempId) in
    let activeConversationId := if mint then mintConversationId env else tempId in
    let st := if mint then setTempConversationId activeConversationId st else st in
    Some (st,
          mkSendRequest (user_id currentUser) (r_selectedPlanId cl)
            (msg_content um)
            (if optstr_truthy (r_selectedPlanId cl) then None
             else Some activeConversationId)
            (map file_id currentAttachedFiles))
  end.

(** The updater that attaches the completion marker to the last
    message.  On an empty transcript [lastMsg] is [undefined] and
    reading [lastMsg.role] throws: [None]. *)
Definition attachCompletion (finalProgress : ResearchProgress) (duration : Q)
    (prev : list ChatMessage) : option (list ChatMessage) :=
  match last prev with
  | None => None
  | Some lastMsg =>
    match msg_role lastMsg with
    | assistant =>
      Some (removelast prev ++
            [withResearchProgress
               (Some (mkResearchProgress
                        (rp_current_step finalProgress) (rp_total_steps finalProgress)
                        (rp_label finalProgress) (rp_visual finalProgress)
                        (rp_tasks finalProgress) (Some duration)))
               lastMsg])
    | user => Some prev
    end
  end.

Definition isResearchingStatus (status : string) : bool :=
  String.eqb status "researching".

(** The handler after its [await] resolved.  [None] when the
    completion updater throws (see [attachCompletion]).  A throwing
    [storageService.savePlan] is outside the model. *)
Definition handleSendMessage_success (cl : Render) (env : Env)
    (response : SendResponse) (st : ChatState)
  : option (ChatState * list Effect) :=
  let st := reconcile (resp_assistantMessages response) st in
  let '(st, planEffects) :=
    match resp_updatedPlan response with
    | Some p =>
      (setCurrentPlan (Some p) st,
       [SavePlan p]
       ++ (if r_onPlanUpdated cl then [PlanUpdated] else [])
       ++ (if negb (optstr_truthy (r_selectedPlanId cl)) && str_truthy (plan_id p)
           then (if r_onPlanCreated cl then [PlanCreated (plan_id p)] else [Reload])
           else []))
    | None => (st, [])
    end in
  let researching := isResearchingStatus (resp_researchStatus response) in
  let st := setIsResearching researching st in
  let st := match resp_progress response with
            | Some p => setLatestProgressRef (Some p) (setResearchProgress (Some p) st)
            | None => st
            end in
  let finalProgress := js_or (resp_progress response) (st_latestProgressRef st) in
  let completed :=
    match finalProgress with
    | Some fp =>
      if st_isResearching (r_state cl) && negb researching then
        let duration := Qmake (env_now env - st_researchStartTime (r_state cl)) 1000 in
        match attachCompletion fp duration (st_messages st) with
        | Some msgs => Some (setMessages (fun _ => msgs) st)
        | None => None
        end
      else Some st
    | None => Some st
    end in
  match completed with
  | None => None
  | Some st =>
    let st := match resp_researchPlan response with
              | Some rp => setProposedPlan (Some rp) st
              | None => st
              end in
    Some (st,
          planEffects
          ++ (if researching then [ScheduleContinuation 100 cl]
              else if r_onPlanUpdated cl then [PlanUpdated] else []))
  end.

(** The synthetic assistant message of the [catch] block. *)
Definition errorMessage (env : Env) : ChatMessage :=
  mkChatMessage (Date_toString (env_now env)) assistant
    "Sorry, I encountered an error processing your request. Please ensure the backend is running."
    (env_nowISO env) None None.

(** The [catch] block. *)
Definition handleSendMessage_failure (env : Env) (st : ChatState) : ChatState :=
  let st := setIsResearching false st in
  let st := setResearchProgress None st in
  setMessages (fun prev => prev ++ [errorMessage env]) st.

(** How the dispatched request ends. *)
Inductive DispatchOutcome :=
| Resolved (response : SendResponse)
| Rejected.

(** One run of the handler with nothing else interleaved: [env] is
    read before the [await], [env'] after it. *)
Definition handleSendMessage (cl : Render) (env env' : Env)
    (overrideMessage : option string) (isHidden : bool)
    (outcome : DispatchOutcome) (st : ChatState)
  : option (ChatState * list Effect) :=
  match handleSendMessage_begin cl env overrideMessage isHidden st with
  | None => Some (st, [])
  | Some (st1, req) =>
    match outcome with
    | Resolved response =>
      match handleSendMessage_success cl env' response st1 with
      | Some (st2, effects) => Some (st2, Dispatch req :: effects)
      | None => None
      end
    | Rejected => Some (handleSendMessage_failure env' st1, [Dispatch req])
    end
  end.

(** The callback of the timer set by [ScheduleContinuation], up to its
    [await]: the handler is the one of the render that scheduled it. *)
Definition fireContinuation (closure : Render) (env : Env) (st : ChatState)
  : option (ChatState * SendRequest) :=
  handleSendMessage_begin closure env (Some CONTINUE_RESEARCH) true st.

(** *** Local plan store ([storageService]) *)

(** The parsed content of the [app_plans] entry of local storage. *)
Definition PlanStore := list AccountPlan.

Definition getPlansForUser (userId : string) (plans : PlanStore) : list AccountPlan :=
  List.filter (fun p => String.eqb (plan_userId p) userId) plans.

(** [plans.find(p => p.id === planId)] *)
Definition findPlan (planId : string) (plans : list AccountPlan) : option AccountPlan :=
  List.find (fun p => String.eqb (plan_id p) planId) plans.

(** [plans[existingIndex] = plan], else [plans.push(plan)]. *)
Fixpoint savePlan (plan : AccountPlan) (plans : PlanStore) : PlanStore :=
  match plans with
  | [] => [plan]
  | p :: rest =>
    if String.eqb (plan_id p) (plan_id plan) then plan :: rest
    else p :: savePlan plan rest
  end.

(** *** Session (re)initialisation (the effect on [selectedPlanId], [currentUser]) *)

(** The two contents of the message seeded for a bound plan. *)
Definition welcomeBackContent (company : string) : string :=
  "Welcome back! Ready to dive deeper into **" +:+ company +:+
  "**? I'm here to help refine your account plan or research any new developments.".

Definition welcomeFreshContent : string :=
  "Welcome! I'm your intelligent research assistant. Let's create a comprehensive account plan together - just tell me which company you'd like to explore.".

(** The message seeded when the history of a bound plan is empty or
    could not be loaded; [plan] is the result of the local lookup. *)
Definition welcomeMessage (plan : option AccountPlan) (env : Env) : ChatMessage :=
  mkChatMessage "welcome" assistant
    (match plan with
     | Some p => welcomeBackContent (plan_company p)
     | None => welcomeFreshContent
     end)
    (env_nowISO env) None None.

(** The message seeded for an unbound session. *)
Definition welcomeNewMessage (env : Env) : ChatMessage :=
  mkChatMessage "welcome-new" assistant
    "Hi there! I'm excited to help you build a winning account plan. Which company has caught your interest? Let's uncover what makes them tick and create a strategy that gives you an edge."
    (env_nowISO env) None None.

(** What [apiClient.getChatHistory] resolves to. *)
Record ChatHistory := mkChatHistory {
  hist_messages : list ChatMessage;
  hist_attachedFiles : option (list AttachedFile)
}.

Inductive HistoryOutcome :=
| HistoryLoaded (data : ChatHistory)
| HistoryFailed.

(** "Reset all state when switching between plans". *)
Definition resetSession (st : ChatState) : ChatState :=
  let st := setMessages (fun _ => []) st in
  let st := setIsResearching false st in
  let st := setResearchProgress None st in
  let st := setProposedPlan None st in
  let st := setActiveResearchPlan None st in
  setLatestProgressRef None st.

(** The synchronous part of the effect.  The second component is
    [Some plan] when a history fetch was started ([plan] being what the
    local lookup found), [None] when the session is unbound. *)
Definition bindingEffect_begin (selectedPlanId : option string)
    (currentUser : option User) (store : PlanStore) (env : Env)
    (st : ChatState) : ChatState * option (option AccountPlan) :=
  let st := resetSession st in
  match selectedPlanId, currentUser with
  | Some planId, Some u =>
    if str_truthy planId then
      let plans := getPlansForUser (user_id u) store in
      let plan := findPlan planId plans in
      let st := setCurrentPlan plan st in
      let st := setTempConversationId "" st in
      (st, Some plan)
    else
      let st := setCurrentPlan None st in
      let st := setAvailableFiles [] st in
      let st := setTempConversationId (mintConversationId env) st in
      (setMessages (fun _ => [welcomeNewMessage env]) st, None)
  | _, _ =>
    let st := setCurrentPlan None st in
    let st := setAvailableFiles [] st in
    let st := setTempConversationId (mintConversationId env) st in
    (setMessages (fun _ => [welcomeNewMessage env]) st, None)
  end.

(** The [then] and [catch] callbacks of the history fetch. *)
Definition bindingEffect_resolve (plan : option AccountPlan) (env : Env)
    (outcome : HistoryOutcome) (st : ChatState) : ChatState :=
  match outcome with
  | HistoryLoaded data =>
    let st := match hist_messages data with
              | _ :: _ => setMessages (fun _ => hist_messages data) st
              | [] => setMessages (fun _ => [welcomeMessage plan env]) st
              end in
    setAvailableFiles (default [] (hist_attachedFiles data)) st
  | HistoryFailed =>
    let st := setMessages (fun _ => [welcomeMessage plan env]) st in
    setAvailableFiles [] st
  end.

(** A switch of the binding with nothing else interleaved. *)
Definition switchBinding (selectedPlanId : option string)
    (currentUser : option User) (store : PlanStore) (env env' : Env)
    (outcome : HistoryOutcome) (st : ChatState) : ChatState :=
  match bindingEffect_begin selectedPlanId currentUser store env st with
  | (st1, Some plan) => bindingEffect_resolve plan env' outcome st1
  | (st1, None) => st1
  end.

(** The remote history is empty: it loaded without messages, or it
    could not be loaded ("absent/unreachable is treated as empty"). *)
Definition historyEmpty (outcome : HistoryOutcome) : bool :=
  match outcome with
  | HistoryLoaded data =>
    match hist_messages data with [] => true | _ :: _ => false end
  | HistoryFailed => true
  end.

(** *** Mention and attachment resolver *)

Definition str_len (s : string) : Z := Z.of_nat (String.length s).

(** An index argument clamped to [0 .. len], as [substring] does. *)
Definition clampIndex (n len : Z) : Z := Z.max 0 (Z.min n len).

(** [s.substring(start, end)], and [s.substring(start)] for [None]:
    both ends are clamped and swapped when out of order. *)
Definition js_substring (s : string) (start : Z) (end_ : option Z) : string :=
  let len := str_len s in
  let a := clampIndex start len in
  let b := match end_ with
           | Some e => clampIndex e len
           | None => len
           end in
  let lo := Z.min a b in
  let hi := Z.max a b in
  String.substring (Z.to_nat lo) (Z.to_nat (hi - lo)) s.

Fixpoint lastIndexOf_from (c : ascii) (s : string) (i found : Z) : Z :=
  match s with
  | EmptyString => found
  | String x t => lastIndexOf_from c t (i + 1) (if Ascii.eqb x c then i else found)
  end.

(** [s.lastIndexOf(c)] for a one-character search string. *)
Definition js_lastIndexOf (c : ascii) (s : string) : Z :=
  lastIndexOf_from c s 0 (-1).

(** [hay.includes(needle)] *)
Fixpoint js_includes (needle hay : string) : bool :=
  String.prefix needle hay ||
  match hay with
  | EmptyString => false
  | String _ t => js_includes needle t
  end.

(** The lower-case mapping of a code unit below 256: the letters A-Z
    and the letters U+00C0-U+00DE (the multiplication sign U+00D7
    apart) move up by 32; every other code unit is its own lower
    case. *)
Definition ascii_toLowerCase (c : ascii) : ascii :=
  let n := nat_of_ascii c in
  if ((65 <=? n) && (n <=? 90))%nat
     || ((192 <=? n) && (n <=? 222) && negb (n =? 215))%nat
  then ascii_of_nat (n + 32) else c.

(** [s.toLowerCase()], code unit by code unit. *)
Fixpoint js_toLowerCase (s : string) : string :=
  match s with
  | EmptyString => EmptyString
  | String c t => String (ascii_toLowerCase c) (js_toLowerCase t)
  end.

(** The [onChange] handler of the text area: [val] is
    [e.target.value], [selectionStart] the caret. *)
Definition handleInputChange (val : string) (selectionStart : Z)
    (st : ChatState) : ChatState :=
  let st := setInputValue val st in
  let lastAt := js_lastIndexOf "@" val in
  let tracked :=
    if lastAt =? -1 then None
    else if selectionStart >? lastAt then
      let query := js_substring val (lastAt + 1) (Some selectionStart) in
      if negb (js_includes " " query) then Some (query, lastAt) else None
    else None in
  match tracked with
  | Some (query, lastAt) => setMentionIndex lastAt (setMentionQuery (Some query) st)
  | None => setMentionIndex (-1) (setMentionQuery None st)
  end.

Definition sameFileId (a b : AttachedFile) : bool :=
  String.eqb (file_id a) (file_id b).

(** [f.filename || (f as any).name || fallback] *)
Definition fileDisplayName (fallback : string) (f : AttachedFile) : string :=
  if str_truthy (file_filename f) then file_filename f
  else match file_name f with
       | Some n => if str_truthy n then n else fallback
       | None => fallback
       end.

(** "Combine available files and currently attached files,
    deduplicated": the [forEach] pushes an attached file unless the
    list built so far holds its id. *)
Definition allFiles (availableFiles attachedFiles : list AttachedFile)
  : list AttachedFile :=
  fold_left
    (fun acc f => if existsb (fun af => sameFileId af f) acc then acc else acc ++ [f])
    attachedFiles availableFiles.

(** The entries of the suggestion menu of a render; the menu is only
    rendered while [mentionQuery] is not [null]. *)
Definition mentionCandidates (st : ChatState) : list AttachedFile :=
  match st_mentionQuery st with
  | None => []
  | Some query =>
    List.filter
      (fun f => js_includes (js_toLowerCase query)
                  (js_toLowerCase (fileDisplayName "" f)))
      (allFiles (st_availableFiles st) (st_attachedFiles st))
  end.

(** The click on a suggestion.  The handler is the one of the render
    on screen, so what it reads is the current state. *)
Definition handleMentionSelect (file : AttachedFile) (st : ChatState)
  : ChatState :=
  if st_mentionIndex st =? -1 then st else
  let fname := fileDisplayName "file" file in
  let inputValue := st_inputValue st in
  let mentionIndex := st_mentionIndex st in
  let before := js_substring inputValue 0 (Some mentionIndex) in
  let queryLength := match st_mentionQuery st with
                     | Some q => str_len q
                     | None => 0
                     end in
  let after := js_substring inputValue (mentionIndex + queryLength + 1) None in
  let attached := existsb (fun f => sameFileId f file) (st_attachedFiles st) in
  let st := setInputValue (before +:+ "@" +:+ fname +:+ " " +:+ after) st in
  let st := setMentionQuery None st in
  let st := setMentionIndex (-1) st in
  if attached then st
  else setAttachedFiles (fun prev => prev ++ [file]) st.

(** ** Artifact version store ([ArtifactCanvas]) *)

Record CanvasState := mkCanvasState {
  cv_plan : option AccountPlan;
  cv_displayPlan : option AccountPlan;
  cv_isEditing : bool;
  cv_editState : option AccountPlan;
  cv_historyIndex : Z;          (* -1 means current *)
  cv_showVersionPanel : bool
}.

Definition setPlan (v : option AccountPlan) (s : CanvasState) :=
  mkCanvasState v (cv_displayPlan s) (cv_isEditing s) (cv_editState s)
    (cv_historyIndex s) (cv_showVersionPanel s).
Definition setDisplayPlan (v : option AccountPlan) (s : CanvasState) :=
  mkCanvasState (cv_plan s) v (cv_isEditing s) (cv_editState s)
    (cv_historyIndex s) (cv_showVersionPanel s).
Definition setIsEditing (v : bool) (s : CanvasState) :=
  mkCanvasState (cv_plan s) (cv_displayPlan s) v (cv_editState s)
    (cv_historyIndex s) (cv_showVersionPanel s).
Definition setEditState (v : option AccountPlan) (s : CanvasState) :=
  mkCanvasState (cv_plan s) (cv_displayPlan s) (cv_isEditing s) v
    (cv_historyIndex s) (cv_showVersionPanel s).
Definition setHistoryIndex (v : Z) (s : CanvasState) :=
  mkCanvasState (cv_plan s) (cv_displayPlan s) (cv_isEditing s) (cv_editState s)
    v (cv_showVersionPanel s).
Definition setShowVersionPanel (v : bool) (s : CanvasState) :=
  mkCanvasState (cv_plan s) (cv_displayPlan s) (cv_isEditing s) (cv_editState s)
    (cv_historyIndex s) v.

(** *** Version listing ([availableVersions]) *)

Record VersionEntry := mkVersionEntry {
  actualVersion : Z;
  displayVersion : Z;
  updatedAt : string;
  isCurrent : bool
}.

(** A [Map] keyed by version number: the entries in insertion order. *)
Definition VersionMap := list (Z * AccountPlan).

(** [versionMap.set(k, v)]: an existing key keeps its place and takes
    the new value, a new key goes to the end. *)
Fixpoint versionMap_set (k : Z) (v : AccountPlan) (m : VersionMap) : VersionMap :=
  match m with
  | [] => [(k, v)]
  | (k', v') :: rest =>
    if k' =? k then (k', v) :: rest else (k', v') :: versionMap_set k v rest
  end.

(** [versionMap.get(k)] *)
Definition versionMap_get (k : Z) (m : VersionMap) : option AccountPlan :=
  snd <$> List.find (fun e => fst e =? k) m.

(** [Array.from(versionMap.values())] *)
Definition versionMap_values (m : VersionMap) : list AccountPlan := map snd m.

(** The comparator [(a, b) => a.version - b.version]. *)
Definition compareVersion (a b : AccountPlan) : Z := plan_version a - plan_version b.

(** [unique.sort(compareVersion)].  The sort of an array is stable; an
    insertion sort that puts an element before the first one it does
    not exceed is. *)
Fixpoint insertByVersion (p : AccountPlan) (l : list AccountPlan) : list AccountPlan :=
  match l with
  | [] => [p]
  | q :: rest =>
    if compareVersion p q <=? 0 then p :: q :: rest
    else q :: insertByVersion p rest
  end.

Fixpoint sortByVersion (l : list AccountPlan) : list AccountPlan :=
  match l with
  | [] => []
  | p :: rest => insertByVersion p (sortByVersion rest)
  end.

(** "Map to display format (No renumbering)". *)
Definition toVersionEntry (plan p : AccountPlan) : VersionEntry :=
  mkVersionEntry (plan_version p) (plan_version p) (plan_updatedAt p)
    (plan_version p =? plan_version plan).

(** "Gather all candidates (history + current)". *)
Definition candidates (plan : AccountPlan) : list AccountPlan :=
  default [] (plan_history plan) ++ [plan].

(** "Deduplicate by version number (simple map)": the map after the
    [forEach] that sets every candidate under its version. *)
Definition versionMap_of (l : list AccountPlan) : VersionMap :=
  fold_left (fun m p => versionMap_set (plan_version p) p m) l [].

Definition availableVersions (plan : option AccountPlan) : list VersionEntry :=
  match plan with
  | None => []
  | Some plan =>
    let versionMap := versionMap_of (candidates plan) in
    let unique := versionMap_values versionMap in
    map (toVersionEntry plan) (sortByVersion unique)
  end.

(** The last candidate with version [k], if any: the entry that wins
    the tie. *)
Fixpoint lastByVersion (k : Z) (l : list AccountPlan) : option AccountPlan :=
  match l with
  | [] => None
  | p :: rest =>
    match lastByVersion k rest with
    | Some q => Some q
    | None => if plan_version p =? k then Some p else None
    end
  end.

(** The listing as the specification words it: of the candidates with
    one version number only the last is kept, the rest is sorted
    ascending and the entry of the live version is marked. *)
Fixpoint dedupLaterWins (l : list AccountPlan) : list AccountPlan :=
  match l with
  | [] => []
  | p :: rest =>
    if existsb (fun q => plan_version q =? plan_version p) rest
    then dedupLaterWins rest
    else p :: dedupLaterWins rest
  end.

Definition versionListing_spec (history : list AccountPlan) (live : AccountPlan)
  : list VersionEntry :=
  map (fun p => mkVersionEntry (plan_version p) (plan_version p) (plan_updatedAt p)
                  (plan_version p =? plan_version live))
      (sortByVersion (dedupLaterWins (history ++ [live]))).

(** *** View pointer *)

(** The effect on [historyIndex], [plan] ("Handle History Navigation"). *)
Definition historyNavigationEffect (st : CanvasState) : CanvasState :=
  match cv_plan st with
  | None => st
  | Some plan =>
    let historyIndex := cv_historyIndex st in
    if (historyIndex =? -1) || (historyIndex >=? plan_version plan) then
      setDisplayPlan (Some plan) st
    else
      match plan_history plan with
      | Some (h :: hs) =>
        match List.find (fun h' => plan_version h' =? historyIndex) (h :: hs) with
        | Some snapshot => setDisplayPlan (Some snapshot) st
        | None => setDisplayPlan (Some plan) st
        end
      | Some [] | None => st
      end
  end.

(** The click on the entry of version [val] in the version panel.  The
    panel is not rendered without a plan. *)
Definition selectVersion (val : Z) (st : CanvasState) : CanvasState :=
  match cv_plan st with
  | None => st
  | Some plan =>
    let st := setHistoryIndex (if val =? plan_version plan then -1 else val) st in
    setShowVersionPanel false st
  end.

(** *** Editing *)

(** How [apiClient.updatePlan] (and the local save after it) ends. *)
Inductive PersistOutcome :=
| Persisted
| PersistFailed.

(** A run of [handleSaveEdit]: the state it leaves, the request it sent
    ([planId], document), the local plan store and the alerts shown. *)
Record SaveResult := mkSaveResult {
  sr_state : CanvasState;
  sr_request : option (string * AccountPlan);
  sr_store : PlanStore;
  sr_alerts : list string
}.

Definition handleSaveEdit (outcome : PersistOutcome) (store : PlanStore)
    (st : CanvasState) : SaveResult :=
  match cv_editState st, cv_plan st with
  | Some editState, Some plan =>
    (* Optimistic update *)
    let st := setPlan (Some editState) st in
    let st := setDisplayPlan (Some editState) st in
    let st := setIsEditing false st in
    let request := Some (plan_id plan, editState) in
    match outcome with
    | Persisted => mkSaveResult st request (savePlan editState store) []
    | PersistFailed => mkSaveResult st request store ["Failed to save changes"]
    end
  | _, _ => mkSaveResult st None store []
  end.

(** [arr[index]]: a hole and an index past the end read as
    [undefined]. *)
Definition js_array_get {A : Type} (arr : JsArray A) (index : nat) : option A :=
  match arr !! index with
  | Some slot => slot
  | None => None
  end.

(** [arr[index] = x]: a write past the end extends the array and
    leaves holes before the new element. *)
Definition js_array_set {A : Type} (index : nat) (x : A) (arr : JsArray A)
  : JsArray A :=
  if (index <? length arr)%nat then <[index := Some x]> arr
  else arr ++ replicate (index - length arr) None ++ [Some x].

(** [{ ...editState, sections }] *)
Definition withSections (sections : JsArray PlanSection) (p : AccountPlan)
  : AccountPlan :=
  mkAccountPlan (plan_id p) (plan_userId p) (plan_company p) (plan_goal p)
    (plan_title p) (plan_createdAt p) (plan_updatedAt p) (plan_version p)
    sections (plan_history p).

(** [{ ...newSections[index], content: newContent }]: spreading
    [undefined] contributes no field. *)
Definition withContent (newContent : Content) (old : option PlanSection)
  : PlanSection :=
  mkPlanSection (match old with
                 | Some s => sec_title s
                 | None => None
                 end)
                newContent.

(** [index] is the position of a rendered section (the [idx] of
    [sections.map]), a natural number. *)
Definition updateSectionContent (index : nat) (newContent : Content)
    (st : CanvasState) : CanvasState :=
  match cv_editState st with
  | None => st
  | Some editState =>
    let newSections := plan_sections editState in
    let newSections :=
      js_array_set index (withContent newContent (js_array_get newSections index))
        newSections in
    setEditState (Some (withSections newSections editState)) st
  end.

(** ** The rest of the front end *)

(** *** [storageService], continued *)

(** [plans.filter(p => p.id !== planId)].  An absent [app_plans] entry
    reads as the empty list, on which this is the empty list too. *)
Definition deletePlan (planId : string) (plans : PlanStore) : PlanStore :=
  List.filter (fun p => negb (String.eqb (plan_id p) planId)) plans.

(** [originalPlan.title ? `Copy of ${title}` : `Copy of ${company}`] *)
Definition copyTitle (originalPlan : AccountPlan) : string :=
  match plan_title originalPlan with
  | Some t =>
    if str_truthy t then "Copy of " +:+ t
    else "Copy of " +:+ plan_company originalPlan
  | None => "Copy of " +:+ plan_company originalPlan
  end.

(** ["plan-" + Date.now() + "-" + Math.random().toString(36).substr(2, 5)];
    [env_rand] is the random suffix. *)
Definition duplicateId (env : Env) : string :=
  "plan-" +:+ Date_toString (env_now env) +:+ "-" +:+ env_rand env.

(** The store after the call and what the call returns ([None] for
    [null]). *)
Definition duplicatePlan (planId : string) (env : Env) (plans : PlanStore)
  : PlanStore * option AccountPlan :=
  match findPlan planId plans with
  | None => (plans, None)
  | Some originalPlan =>
    let newPlan :=
      mkAccountPlan (duplicateId env) (plan_userId originalPlan)
        (plan_company originalPlan) (plan_goal originalPlan)
        (Some (copyTitle originalPlan)) (env_nowISO env) (env_nowISO env) 1
        (plan_sections originalPlan) (plan_history originalPlan) in
    (plans ++ [newPlan], Some newPlan)
  end.

(** *** The plan list ([Sidebar]) *)

Record SidebarState := mkSidebarState {
  sb_plans : list AccountPlan;
  sb_activeMenuId : option string;
  sb_planToDelete : option (string * string)   (* id, name *)
}.

(** [selectedPlanId === id] *)
Definition isSelected (selectedPlanId : option string) (id : string) : bool :=
  match selectedPlanId with
  | Some s => String.eqb s id
  | None => false
  end.

(** The state and the store after the call, and whether
    [onSelectPlan(null)] was called. *)
Definition confirmDelete (selectedPlanId : option string) (store : PlanStore)
    (st : SidebarState) : SidebarState * PlanStore * bool :=
  match sb_planToDelete st with
  | None => (st, store, false)
  | Some (id, _) =>
    (mkSidebarState
       (List.filter (fun p => negb (String.eqb (plan_id p) id)) (sb_plans st))
       (sb_activeMenuId st) None,
     deletePlan id store,
     isSelected selectedPlanId id)
  end.

(** *** Attachments ([ChatInterface]) *)

Definition removeFile (fileId : string) (st : ChatState) : ChatState :=
  setAttachedFiles
    (List.filter (fun f => negb (String.eqb (file_id f) fileId))) st.

(** How [apiClient.uploadFile] ends for one file. *)
Inductive UploadResult :=
| Uploaded (id filename : string)
| UploadFailed.

(** The loop of [uploadFiles] over the outcomes of the uploads, in the
    order of the files: a failure leaves the loop.  The [isUploading]
    flag is not part of [ChatState]. *)
Fixpoint uploadFiles (results : list UploadResult) (st : ChatState) : ChatState :=
  match results with
  | [] => st
  | Uploaded id filename :: rest =>
    uploadFiles rest
      (setAttachedFiles (fun prev => prev ++ [mkAttachedFile id filename None]) st)
  | UploadFailed :: _ => st
  end.

(** The files attached by a run of [uploadFiles]. *)
Fixpoint uploadedFiles (results : list UploadResult) : list AttachedFile :=
  match results with
  | Uploaded id filename :: rest => mkAttachedFile id filename None :: uploadedFiles rest
  | UploadFailed :: _ | [] => []
  end.

(** [s] holds the character [c]. *)
Fixpoint hasChar (c : ascii) (s : string) : bool :=
  match s with
  | EmptyString => false
  | String x t => Ascii.eqb x c || hasChar c t
  end.

(** *** Progress display ([ResearchStepList]) *)

Inductive TaskStatus := pending | current | completed.

(** The status shown for the task at [idx]. *)
Definition taskStatus (progress : option ResearchProgress) (idx : Z) : TaskStatus :=
  match progress with
  | Some p =>
    let currentStepIndex := rp_current_step p - 1 in
    if idx <? currentStepIndex then completed
    else if idx =? currentStepIndex then current
    else pending
  | None => if idx =? 0 then current else pending
  end.

(** The statuses of [n] displayed tasks, in order. *)
Definition taskStatuses (progress : option ResearchProgress) (n : nat)
  : list TaskStatus :=
  map (fun idx => taskStatus progress (Z.of_nat idx)) (seq 0 n).

(** *** Editing, continued ([ArtifactCanvas], [ContentEditor]) *)

Definition handleCancelEdit (st : CanvasState) : CanvasState :=
  let st := setIsEditing false st in
  setEditState None st.

(** A run of [updateSectionContent] calls, in order. *)
Definition applyEdits (edits : list (nat * Content)) (st : CanvasState)
  : CanvasState :=
  fold_left (fun s e => updateSectionContent (fst e) (snd e) s) edits st.

(** [content.filter((_, idx) => idx !== i)] *)
Definition removeListItem (i : nat) (content : list Content) : list Content :=
  map snd
    (List.filter (fun e => negb (fst e =? i)%nat)
       (combine (seq 0 (length content)) content)).

(** [[...content, "New Item"]] *)
Definition addListItem (content : list Content) : list Content :=
  content ++ [CText "New Item"].



(** *** The effects of a resolved dispatch, by part *)

(** What the "Update Plan if changed" block emits. *)
Definition planEffects (cl : Render) (updatedPlan : option AccountPlan)
  : list Effect :=
  match updatedPlan with
  | Some p =>
    [SavePlan p]
    ++ (if r_onPlanUpdated cl then [PlanUpdated] else [])
    ++ (if negb (optstr_truthy (r_selectedPlanId cl)) && str_truthy (plan_id p)
        then (if r_onPlanCreated cl then [PlanCreated (plan_id p)] else [Reload])
        else [])
  | None => []
  end.

(** What the "Auto-continue if researching" block emits. *)
Definition statusEffects (cl : Render) (status : string) : list Effect :=
  if isResearchingStatus status then [ScheduleContinuation 100 cl]
  else if r_onPlanUpdated cl then [PlanUpdated] else [].

(** The completion marker is due: the render was researching, the
    response reports another status, and a progress record is at
    hand. *)
Definition completionDue (cl : Render) (response : SendResponse)
    (st1 : ChatState) : option ResearchProgress :=
  if st_isResearching (r_state cl)
     && negb (isResearchingStatus (resp_researchStatus response))
  then js_or (resp_progress response) (st_latestProgressRef st1)
  else None.

(** ** Statements of the specification, as propositions *)

(** The session binding of a render: the selected plan id and the
    ephemeral conversation id. *)
Definition bindingOf (selectedPlanId : option string) (st : ChatState)
  : option string * string :=
  (selectedPlanId, st_tempConversationId st).

(** The guard that the specification asks of a continuation: fired
    from the render [closure] while the component shows [live] under
    the plan id [activePlanId], it does nothing (no state written, no
    request dispatched) when the binding has changed. *)
Definition continuation_is_guarded : Prop :=
  forall (closure : Render) (env : Env) (activePlanId : option string)
         (live : ChatState),
    bindingOf (r_selectedPlanId closure) (r_state closure)
      <> bindingOf activePlanId live ->
    fireContinuation closure env live = None.

(** A plan id is bound: [selectedPlanId] is truthy. *)
Definition planIdBound (selectedPlanId : option string) : bool :=
  optstr_truthy selectedPlanId.

(** The statement that a resolved dispatch whose response carries no
    messages leaves the transcript as it was when the response
    arrived. *)
Definition response_without_messages_keeps_transcript : Prop :=
  forall (cl : Render) (env env' : Env) (overrideMessage : option string)
         (isHidden : bool) (response : SendResponse)
         (st st1 st2 : ChatState) (req : SendRequest) (effects : list Effect),
    resp_assistantMessages response = None \/
    resp_assistantMessages response = Some [] ->
    handleSendMessage_begin cl env overrideMessage isHidden st = Some (st1, req) ->
    handleSendMessage_success cl env' response st1 = Some (st2, effects) ->
    st_messages st2 = st_messages st1.

(** ** Concrete inputs used by the examples *)

(** The reconciliation example: a local message [m1] carrying a
    progress record with duration 42, and the authoritative copy of
    [m1] without one. *)
Definition progress42 : ResearchProgress :=
  mkResearchProgress 3 3 "Done" "" None (Some (Qmake 42 1)).

Definition local_m1 : ChatMessage :=
  mkChatMessage "m1" assistant "Findings" "2025-01-01T00:00:00.000Z" None
    (Some progress42).

Definition auth_m1 : ChatMessage :=
  mkChatMessage "m1" assistant "Findings" "2025-01-01T00:00:00.000Z" None None.

(** An authoritative copy of [m1] that has a progress record of its
    own, other than the local one. *)
Definition serverProgress : ResearchProgress :=
  mkResearchProgress 5 4 "Summarising" "" None None.

Definition server_m1 : ChatMessage :=
  mkChatMessage "m1" assistant "Findings" "2025-01-01T00:00:00.000Z" None
    (Some serverProgress).

Definition emptyChatState : ChatState :=
  mkChatState [] "" false None 0 None None None "" [] [] None (-1) None.

Definition alice : User := mkUser "user-123" "alice" "alice@example.com".

Definition env1 : Env := mkEnv 1700000000000 "2023-11-14T22:13:20.000Z" "k3j9x2m1a".
Definition env2 : Env := mkEnv 1700000000900 "2023-11-14T22:13:20.900Z" "q8w7e6r5t".

(** A session bound to plan [p1] that shows one assistant message; the
    user typed [hello]. *)
Definition boundState : ChatState :=
  mkChatState [local_m1] "hello" false None 0 None None None "" [] [] None (-1) None.

Definition boundRender : Render :=
  mkRender (Some "p1") (Some alice) true true boundState.

(** A response that carries no message list, and the response of the
    service for plan [p1], with its transcript. *)
Definition bareResponse : SendResponse :=
  mkSendResponse None None "idle" None None.

Definition p1Response : SendResponse :=
  mkSendResponse (Some [auth_m1]) None "idle" None None.

(** The component after the user switched from plan [p1] to plan [p2],
    whose remote history is empty. *)
Definition emptyHistory : HistoryOutcome := HistoryLoaded (mkChatHistory [] None).

Definition switchedState : ChatState :=
  switchBinding (Some "p2") (Some alice) [] env1 env1 emptyHistory boundState.

(** Plan [p1] of [alice], as the local store holds it. *)
Definition acmePlan : AccountPlan :=
  mkAccountPlan "p1" "user-123" "Acme" "Grow the account" None
    "2025-01-01T00:00:00.000Z" "2025-01-05T00:00:00.000Z" 5
    [Some (mkPlanSection (Some "Overview") (CText "Acme makes anvils."));
     Some (mkPlanSection (Some "Risks") (CList [CText "Coyotes"]))]
    None.

(** The files of the mention example. *)
Definition reportPdf : AttachedFile := mkAttachedFile "1" "report.pdf" None.
Definition notesTxt : AttachedFile := mkAttachedFile "2" "notes.txt" None.
Definition budgetPdf : AttachedFile := mkAttachedFile "3" "Budget.PDF" None.

(** A session in which both files are available and none is attached. *)
Definition mentionState : ChatState :=
  setAvailableFiles [reportPdf; notesTxt] emptyChatState.

(** The canvas showing [acmePlan] (live version 5), and the same
    canvas in edit mode with an edit buffer that renames the plan. *)
Definition canvasState : CanvasState :=
  mkCanvasState (Some acmePlan) (Some acmePlan) false None (-1) true.

Definition editedPlan : AccountPlan :=
  mkAccountPlan "p1" "user-123" "Acme" "Grow the account" (Some "Acme 2025")
    "2025-01-01T00:00:00.000Z" "2025-01-05T00:00:00.000Z" 5
    [Some (mkPlanSection (Some "Overview") (CText "Acme makes anvils and rockets."));
     Some (mkPlanSection (Some "Risks") (CList [CText "Coyotes"]))]
    None.

Definition editingState : CanvasState :=
  mkCanvasState (Some acmePlan) (Some acmePlan) true (Some editedPlan) (-1) false.

(** The version example: snapshots of versions 1, 3 and 5 and a live
    document at version 5, saved later than the snapshot of version 5. *)
Definition snapshotOf (version : Z) (savedAt : string) : AccountPlan :=
  mkAccountPlan "p1" "user-123" "Acme" "Grow the account" None
    "2025-01-01T00:00:00.000Z" savedAt version [] None.

Definition versionedPlan : AccountPlan :=
  mkAccountPlan "p1" "user-123" "Acme" "Grow the account" None
    "2025-01-01T00:00:00.000Z" "2025-01-06T00:00:00.000Z" 5 []
    (Some [snapshotOf 1 "2025-01-01T00:00:00.000Z";
           snapshotOf 3 "2025-01-03T00:00:00.000Z";
           snapshotOf 5 "2025-01-05T00:00:00.000Z"]).

(** A local store with two plans of [alice] and one of another user. *)
Definition otherPlan : AccountPlan :=
  mkAccountPlan "p9" "user-999" "Globex" "Win the account" (Some "Globex plan")
    "2025-02-01T00:00:00.000Z" "2025-02-02T00:00:00.000Z" 2 [] None.

Definition smallStore : PlanStore := [acmePlan; otherPlan].

(** A render of an unbound session in which [alice] attached a file. *)
Definition unboundState : ChatState :=
  mkChatState [welcomeNewMessage env1] "Research Acme" false None 0
    (Some [mkResearchTask "Find revenue" None]) None None "" [reportPdf] []
    None (-1) None.

Definition unboundRender : Render :=
  mkRender None (Some alice) true true unboundState.

(** A render taken while research was running since [env1], showing
    an assistant message last; and the response that ends the run. *)
Definition researchingState : ChatState :=
  mkChatState [userMessage env1 "Research Acme"; auth_m1] "" true None
    1700000000000 None None None "" [] [] None (-1) None.

Definition researchingRender : Render :=
  mkRender (Some "p1") (Some alice) true true researchingState.

Definition stepProgress : ResearchProgress :=
  mkResearchProgress 3 3 "Done" "" None None.

Definition doneResponse : SendResponse :=
  mkSendResponse None None "done" (Some stepProgress) None.

Definition createdResponse : SendResponse :=
  mkSendResponse None (Some acmePlan) "researching" None None.

(** A remote history with two messages and one file. *)
Definition p1History : HistoryOutcome :=
  HistoryLoaded (mkChatHistory [userMessage env1 "Research Acme"; auth_m1]
                   (Some [reportPdf])).

(** * Properties *)

(** ** Reconciliation of the transcript *)

Section Reconciliation.

Implicit Types (prev auth : list ChatMessage) (m a : ChatMessage).

Lemma map_lookup {A B : Type} (f : A -> B) (l : list A) (i : nat) :
  map f l !! i = f <$> (l !! i).
Proof.
  revert i; induction l as [|x l IH]; intros [|i]; simpl; auto.
Qed.

Let step := fun (pm : gmap string (option ResearchProgress)) m =>
              <[msg_id m := msg_researchProgress m]> pm.

(** Entries with other keys do not change what a key is bound to. *)
Lemma foldl_set_other (l : list ChatMessage) pm (k : string) :
  (forall m, m ∈ l -> msg_id m <> k) ->
  foldl step pm l !! k = pm !! k.
Proof.
  revert pm; induction l as [|x l IH]; intros pm Hl; simpl; [done|].
  rewrite IH.
  - unfold step. apply lookup_insert_ne. apply Hl. left.
  - intros m Hm. apply Hl. by right.
Qed.

(** The map holds, for an id, the progress of the last local message
    with that id. *)
Lemma progressMap_get_last prev l1 m l2 :
  prev = l1 ++ m :: l2 ->
  (forall m', m' ∈ l2 -> msg_id m' <> msg_id m) ->
  progressMap_get (progressMap prev) (msg_id m) = msg_researchProgress m.
Proof.
  intros -> Hl2. unfold progressMap_get, progressMap.
  rewrite foldl_app. simpl.
  fold step. rewrite (foldl_set_other l2 _ (msg_id m) Hl2).
  unfold step. by rewrite lookup_insert_eq.
Qed.

Lemma progressMap_get_absent prev (k : string) :
  (forall m, m ∈ prev -> msg_id m <> k) ->
  progressMap_get (progressMap prev) k = None.
Proof.
  intros H. unfold progressMap_get, progressMap. fold step.
  by rewrite (foldl_set_other prev ∅ k H), lookup_empty.
Qed.

(** With distinct local ids every local message is the last one of
    its id. *)
Lemma NoDup_ids_split prev m :
  NoDup (map msg_id prev) -> m ∈ prev ->
  exists l1 l2, prev = l1 ++ m :: l2 /\
                forall m', m' ∈ l2 -> msg_id m' <> msg_id m.
Proof.
  intros Hnd Hin.
  apply list_elem_of_split in Hin as (l1 & l2 & ->).
  exists l1, l2. split; [done|].
  intros m' Hm' Heq.
  rewrite map_app in Hnd. simpl in Hnd.
  apply NoDup_app in Hnd as (_ & _ & Hnd).
  apply NoDup_cons in Hnd as [Hnotin _].
  apply Hnotin. rewrite <- Heq.
  apply list_elem_of_In, in_map, list_elem_of_In, Hm'.
Qed.

End Reconciliation.

(** What a reconciliation (a response with a non-empty message list)
    makes of the transcript: one message per authoritative message,
    equal to it in every field but [researchProgress]. That field is
    the progress of the last local message with the same id when that
    message has one, whether or not the authoritative copy has one of
    its own, and the progress of the authoritative copy otherwise; a
    message whose id no local message has is the authoritative copy as
    it came. *)
Lemma reconcile_merged_progress (st : ChatState) (auth : list ChatMessage) :
  auth <> [] ->
  let merged := st_messages (reconcile (Some auth) st) in
  length merged = length auth /\
  (forall (i : nat) (a : ChatMessage),
      auth !! i = Some a ->
      (forall l1 m l2,
          st_messages st = l1 ++ m :: l2 ->
          msg_id m = msg_id a ->
          (forall m', m' ∈ l2 -> msg_id m' <> msg_id a) ->
          merged !! i
          = Some (withResearchProgress
                    (js_or (msg_researchProgress m) (msg_researchProgress a)) a)) /\
      ((forall m, m ∈ st_messages st -> msg_id m <> msg_id a) ->
       merged !! i = Some a)).
Proof.
  intros Hne merged.
  assert (Hm : merged = mergeMessages auth (st_messages st)).
  { subst merged. destruct auth as [|a0 auth]; [done|]. reflexivity. }
  split.
  - rewrite Hm. unfold mergeMessages. apply length_map.
  - intros i a Hi.
    assert (Hlookup : merged !! i
              = Some (withResearchProgress
                        (js_or (progressMap_get (progressMap (st_messages st)) (msg_id a))
                               (msg_researchProgress a)) a)).
    { rewrite Hm. unfold mergeMessages. rewrite map_lookup, Hi. reflexivity. }
    split.
    + intros l1 m l2 Hsplit Hid Hl2. rewrite Hlookup. rewrite <- Hid in *.
      by rewrite (progressMap_get_last _ l1 m l2 Hsplit Hl2).
    + intros Hnew. rewrite Hlookup, progressMap_get_absent by exact Hnew.
      by destruct a.
Qed.

(** C1, at the input where the code departs from it. The local
    transcript holds [m1] with the progress record of duration 42.
    Against an authoritative [m1] without a progress record the merge
    keeps the local record, as stated. Against an authoritative [m1]
    that has a progress record of its own the copy does not lack the
    field, so the transcript should become the authoritative list as
    it came (the comment above the merge reads "Preserve
    researchProgress from local state if backend doesn't have it");
    the merge tests the local record first, and the message it returns
    carries the local record in place of the authoritative one. *)
Theorem C1_local_progress_overrides_authoritative :
  let st := setMessages (fun _ => [local_m1]) emptyChatState in
  st_messages (reconcile (Some [auth_m1]) st) = [local_m1] /\
  msg_researchProgress server_m1 = Some serverProgress /\
  map msg_researchProgress (st_messages (reconcile (Some [server_m1]) st))
  = [Some progress42] /\
  st_messages (reconcile (Some [server_m1]) st) = [local_m1] /\
  st_messages (reconcile (Some [server_m1]) st) <> [server_m1].
Proof.
  intros st. split; [reflexivity|]. split; [reflexivity|].
  split; [reflexivity|]. split; [reflexivity|]. discriminate.
Qed.

(** ** The send cycle *)

Section SendCycle.

Variables (cl : Render) (env env' : Env).

(** What the part before the [await] does to the transcript. *)
Lemma begin_messages overrideMessage isHidden st st1 req :
  handleSendMessage_begin cl env overrideMessage isHidden st = Some (st1, req) ->
  st_messages st1 =
    if isHidden then st_messages st
    else st_messages st ++ [userMessage env (messageContent cl overrideMessage)].
Proof.
  unfold handleSendMessage_begin.
  destruct (r_currentUser cl) as [u|]; [|discriminate].
  destruct (negb (trim_truthy _)); [discriminate|].
  intros [= <- _].
  destruct isHidden, (negb (optstr_truthy _) && negb (str_truthy _)); simpl;
    try reflexivity;
    unfold optimisticUpdate; destruct (st_proposedPlan (r_state cl)); reflexivity.
Qed.

End SendCycle.

Section SuccessPath.

Variables (cl : Render) (env' : Env) (response : SendResponse).

Lemma reconcile_frame st1 :
  let st0 := reconcile (resp_assistantMessages response) st1 in
  st_proposedPlan st0 = st_proposedPlan st1 /\
  st_researchProgress st0 = st_researchProgress st1 /\
  st_latestProgressRef st0 = st_latestProgressRef st1 /\
  st_currentPlan st0 = st_currentPlan st1.
Proof. by destruct (resp_assistantMessages response) as [[|m l]|]. Qed.

(** The resolved dispatch, field by field: what the state holds
    afterwards, what is emitted, and the transcript in terms of the
    completion marker. *)
Lemma success_inv st1 st2 effects :
  handleSendMessage_success cl env' response st1 = Some (st2, effects) ->
  effects = planEffects cl (resp_updatedPlan response)
            ++ statusEffects cl (resp_researchStatus response) /\
  st_isResearching st2 = isResearchingStatus (resp_researchStatus response) /\
  st_proposedPlan st2 = js_or (resp_researchPlan response) (st_proposedPlan st1) /\
  st_researchProgress st2 = js_or (resp_progress response) (st_researchProgress st1) /\
  st_latestProgressRef st2
  = js_or (resp_progress response) (st_latestProgressRef st1) /\
  st_currentPlan st2 = js_or (resp_updatedPlan response) (st_currentPlan st1) /\
  match completionDue cl response st1 with
  | Some fp =>
    attachCompletion fp
      (Qmake (env_now env' - st_researchStartTime (r_state cl)) 1000)
      (st_messages (reconcile (resp_assistantMessages response) st1))
    = Some (st_messages st2)
  | None =>
    st_messages st2 = st_messages (reconcile (resp_assistantMessages response) st1)
  end.
Proof.
  unfold handleSendMessage_success, planEffects, statusEffects, completionDue.
  destruct (reconcile_frame st1) as (Hprop & Hprog & Hlatest & Hplan).
  revert Hprop Hprog Hlatest Hplan.
  generalize (reconcile (resp_assistantMessages response) st1). intros st0.
  intros Hprop Hprog Hlatest Hplan.
  destruct (resp_updatedPlan response) as [plan|];
    destruct (resp_progress response) as [progress|]; simpl;
    rewrite <- ?Hlatest;
    try destruct (st_latestProgressRef st0) as [latest|] eqn:Elatest; simpl;
    destruct (st_isResearching (r_state cl)
              && negb (isResearchingStatus (resp_researchStatus response)));
    simpl;
    try (destruct (attachCompletion _ _ (st_messages st0)) as [msgs|];
         [|discriminate]);
    destruct (resp_researchPlan response) as [proposal|];
    intros [= <- <-]; simpl; rewrite <- ?Hprop, <- ?Hprog, <- ?Hplan, ?Elatest;
    by repeat split.
Qed.

End SuccessPath.

Section Completion.

Variables (cl : Render) (env' : Env) (response : SendResponse).

Lemma attachCompletion_None fp d (prev : list ChatMessage) :
  attachCompletion fp d prev = None <-> prev = [].
Proof.
  unfold attachCompletion. destruct (last prev) as [m|] eqn:Hlast.
  - split; [by destruct (msg_role m)|]. intros ->. discriminate Hlast.
  - apply last_None in Hlast. by subst.
Qed.

Lemma attachCompletion_snoc fp d (init : list ChatMessage) m :
  attachCompletion fp d (init ++ [m])
  = Some (init ++ [match msg_role m with
                   | assistant =>
                     withResearchProgress
                       (Some (mkResearchProgress
                                (rp_current_step fp) (rp_total_steps fp)
                                (rp_label fp) (rp_visual fp) (rp_tasks fp) (Some d)))
                       m
                   | user => m
                   end]).
Proof.
  unfold attachCompletion. rewrite last_snoc, removelast_last.
  by destruct (msg_role m).
Qed.

(** The handler throws exactly when the marker is due on an empty
    transcript. *)
Lemma success_None st1 :
  handleSendMessage_success cl env' response st1 = None
  <-> (exists fp, completionDue cl response st1 = Some fp)
      /\ st_messages (reconcile (resp_assistantMessages response) st1) = [].
Proof.
  unfold handleSendMessage_success, completionDue.
  destruct (reconcile_frame response st1) as (_ & _ & Hlatest & _).
  revert Hlatest.
  generalize (reconcile (resp_assistantMessages response) st1). intros st0 Hlatest.
  rewrite <- Hlatest.
  destruct (resp_updatedPlan response) as [plan|];
    destruct (resp_progress response) as [progress|]; simpl;
    try destruct (st_latestProgressRef st0) as [latest|]; simpl;
    destruct (st_isResearching (r_state cl)
              && negb (isResearchingStatus (resp_researchStatus response)));
    simpl;
    try (destruct (attachCompletion _ _ (st_messages st0)) as [msgs|] eqn:Hattach;
         [|apply attachCompletion_None in Hattach]);
    try (split; [discriminate|intros [[fp Hfp] _]; discriminate Hfp]);
    try (split; [intros _; split; [by eexists|exact Hattach]|done]);
    try (split; [discriminate|]; intros [_ Hempty];
         rewrite Hempty in Hattach; discriminate Hattach).
Qed.

End Completion.

(** C10, as the code has it. A resolved dispatch whose response has
    no message list, or an empty one, replaces nothing: the
    reconciliation step is the identity on the state. After a visible
    send, and whenever the research-completed marker is not due, the
    transcript at the end of the handler is what it was when the
    response arrived (after a visible send: the earlier messages
    followed by the optimistic user message). When the marker is due
    the last message, if it is an assistant message, takes the final
    progress record with the elapsed time; every message before it,
    and a last user message, stay as they were. *)
Theorem C10_response_without_messages_replaces_nothing :
  forall (cl : Render) (env env' : Env) (overrideMessage : option string)
         (isHidden : bool) (response : SendResponse) (st st1 : ChatState)
         (req : SendRequest),
    resp_assistantMessages response = None \/
    resp_assistantMessages response = Some [] ->
    handleSendMessage_begin cl env overrideMessage isHidden st = Some (st1, req) ->
    (forall st0, reconcile (resp_assistantMessages response) st0 = st0) /\
    (isHidden = false \/ completionDue cl response st1 = None ->
     exists st2 effects,
       handleSendMessage_success cl env' response st1 = Some (st2, effects) /\
       st_messages st2 = st_messages st1 /\
       (isHidden = false ->
        st_messages st2 =
          st_messages st ++ [userMessage env (messageContent cl overrideMessage)])) /\
    (forall (fp : ResearchProgress) (init : list ChatMessage) (m : ChatMessage),
        completionDue cl response st1 = Some fp ->
        st_messages st1 = init ++ [m] ->
        exists st2 effects,
          handleSendMessage_success cl env' response st1 = Some (st2, effects) /\
          st_messages st2
          = init ++ [match msg_role m with
                     | assistant =>
                       withResearchProgress
                         (Some (mkResearchProgress
                                  (rp_current_step fp) (rp_total_steps fp)
                                  (rp_label fp) (rp_visual fp) (rp_tasks fp)
                                  (Some (Qmake (env_now env'
                                                - st_researchStartTime (r_state cl))
                                               1000))))
                         m
                     | user => m
                     end]).
Proof.
  intros cl env env' overrideMessage isHidden response st st1 req Hnomsg Hbegin.
  assert (Hrec : forall st0, reconcile (resp_assistantMessages response) st0 = st0)
    by (intros st0; destruct Hnomsg as [-> | ->]; reflexivity).
  split; [exact Hrec|]. split.
  - intros Hcase.
    destruct (handleSendMessage_success cl env' response st1)
      as [[st2 effects]|] eqn:Hsucc.
    + exists st2, effects. split; [reflexivity|].
      destruct (success_inv _ _ _ _ _ _ Hsucc) as (_ & _ & _ & _ & _ & _ & Hmarker).
      rewrite Hrec in Hmarker.
      assert (Hsame : st_messages st2 = st_messages st1).
      { destruct (completionDue cl response st1) as [fp|]; [|exact Hmarker].
        destruct Hcase as [-> | Hdue]; [|discriminate Hdue].
        rewrite (begin_messages _ _ _ _ _ _ _ Hbegin) in Hmarker |- *.
        rewrite attachCompletion_snoc in Hmarker. simpl in Hmarker.
        by injection Hmarker as <-. }
      split; [exact Hsame|].
      intros ->. rewrite Hsame. exact (begin_messages _ _ _ _ _ _ _ Hbegin).
    + apply success_None in Hsucc as [[fp Hfp] Hempty]. rewrite Hrec in Hempty.
      destruct Hcase as [-> | Hdue]; [|by rewrite Hdue in Hfp].
      rewrite (begin_messages _ _ _ _ _ _ _ Hbegin) in Hempty.
      by destruct (st_messages st).
  - intros fp init m Hdue Hmsgs.
    destruct (handleSendMessage_success cl env' response st1)
      as [[st2 effects]|] eqn:Hsucc.
    + exists st2, effects. split; [reflexivity|].
      destruct (success_inv _ _ _ _ _ _ Hsucc) as (_ & _ & _ & _ & _ & _ & Hmarker).
      rewrite Hdue, Hrec, Hmsgs, attachCompletion_snoc in Hmarker.
      by injection Hmarker as <-.
    + apply success_None in Hsucc as [_ Hempty].
      rewrite Hrec, Hmsgs in Hempty. by destruct init.
Qed.

Lemma C10_witness :
  (resp_assistantMessages bareResponse = None \/
   resp_assistantMessages bareResponse = Some []) /\
  exists st1 req st2 effects,
    handleSendMessage_begin boundRender env1 None false boundState = Some (st1, req) /\
    handleSendMessage_success boundRender env2 bareResponse st1 = Some (st2, effects) /\
    st_messages st2 = [local_m1; userMessage env1 "hello"].
Proof.
  split; [by left|].
  destruct (handleSendMessage_begin boundRender env1 None false boundState)
    as [[st1 req]|] eqn:Hbegin; [|discriminate].
  destruct (C10_response_without_messages_replaces_nothing
              boundRender env1 env2 None false bareResponse boundState st1 req
              (or_introl eq_refl) Hbegin) as (_ & Hkeep & _).
  destruct (Hkeep (or_introl eq_refl)) as (st2 & effects & Hsucc & _ & Hall).
  exists st1, req, st2, effects. repeat split; [exact Hsucc|].
  exact (Hall eq_refl).
Defined.

(** C10, as the specification has it, fails. The hidden continuation
    of a running research is answered with the final status, a
    progress record and no message list: nothing is replaced, and yet
    the last message of the transcript, an assistant message, is
    rewritten to carry the completion record. *)
Lemma C10_counterexample :
  resp_assistantMessages doneResponse = None /\
  (exists st1 req st2 effects,
      handleSendMessage_begin researchingRender env1 (Some CONTINUE_RESEARCH) true
        researchingState = Some (st1, req) /\
      st_messages st1 = [userMessage env1 "Research Acme"; auth_m1] /\
      handleSendMessage_success researchingRender env2 doneResponse st1
      = Some (st2, effects) /\
      st_messages st2
      = [userMessage env1 "Research Acme";
         withResearchProgress
           (Some (mkResearchProgress 3 3 "Done" "" None (Some (Qmake 900 1000))))
           auth_m1] /\
      st_messages st2 <> st_messages st1) /\
  ~ response_without_messages_keeps_transcript.
Proof.
  split; [reflexivity|]. split.
  - eexists _, _, _, _. split; [reflexivity|]. split; [reflexivity|].
    split; [reflexivity|]. split; [reflexivity|]. discriminate.
  - intros Hkeep.
    specialize (Hkeep researchingRender env1 env2 (Some CONTINUE_RESEARCH) true
                  doneResponse researchingState _ _ _ _
                  (or_introl eq_refl) eq_refl eq_refl).
    discriminate Hkeep.
Qed.

(** C6. A dispatch that is rejected ends the cycle in the [catch]
    block: research status back to idle, progress display discarded,
    one synthetic assistant message appended; nothing is removed from
    the transcript, so the optimistic user message of a visible send
    is still there, directly before the error message. *)
Theorem C6_failure_path_keeps_user_message :
  forall (cl : Render) (env env' : Env) (overrideMessage : option string)
         (isHidden : bool) (st st1 : ChatState) (req : SendRequest),
    handleSendMessage_begin cl env overrideMessage isHidden st = Some (st1, req) ->
    exists st2,
      handleSendMessage cl env env' overrideMessage isHidden Rejected st
        = Some (st2, [Dispatch req]) /\
      st_isResearching st2 = false /\
      st_researchProgress st2 = None /\
      st_messages st2 = st_messages st1 ++ [errorMessage env'] /\
      msg_role (errorMessage env') = assistant /\
      (forall m, m ∈ st_messages st1 -> m ∈ st_messages st2) /\
      (isHidden = false ->
       st_messages st2 =
         st_messages st
         ++ [userMessage env (messageContent cl overrideMessage); errorMessage env']).
Proof.
  intros cl env env' overrideMessage isHidden st st1 req Hbegin.
  exists (handleSendMessage_failure env' st1).
  split; [unfold handleSendMessage; by rewrite Hbegin|].
  repeat split.
  - intros m Hm. simpl. apply elem_of_app. by left.
  - intros ->. simpl. rewrite (begin_messages _ _ _ _ _ _ _ Hbegin).
    by rewrite <- app_assoc.
Qed.

Lemma C6_witness :
  exists st1 req st2,
    handleSendMessage_begin boundRender env1 None false boundState = Some (st1, req) /\
    handleSendMessage boundRender env1 env2 None false Rejected boundState
      = Some (st2, [Dispatch req]) /\
    st_isResearching st2 = false /\
    st_researchProgress st2 = None /\
    st_messages st2 = [local_m1; userMessage env1 "hello"; errorMessage env2].
Proof.
  destruct (handleSendMessage_begin boundRender env1 None false boundState)
    as [[st1 req]|] eqn:Hbegin; [|discriminate].
  destruct (C6_failure_path_keeps_user_message
              boundRender env1 env2 None false boundState st1 req Hbegin)
    as (st2 & Hrun & Hidle & Hprog & _ & _ & _ & Hall).
  exists st1, req, st2. repeat split; try assumption.
  exact (Hall eq_refl).
Defined.

(** ** Auto-continuation *)

(** A response that reports [researching] schedules a continuation that
    runs the handler of the same render. *)
Lemma success_schedules_continuation cl env' response st1 st2 effects :
  handleSendMessage_success cl env' response st1 = Some (st2, effects) ->
  isResearchingStatus (resp_researchStatus response) = true ->
  ScheduleContinuation 100 cl ∈ effects.
Proof.
  unfold handleSendMessage_success. intros H Hres. rewrite Hres in H.
  destruct (resp_updatedPlan response); simpl in H;
    rewrite andb_false_r in H;
    destruct (js_or _ _); injection H as _ <-;
    rewrite ?elem_of_cons, ?elem_of_app, ?elem_of_cons; tauto.
Qed.

(** C2, as the code has it. The continuation has no guard: when it
    fires it runs the handler of the render that scheduled it, whatever
    the component shows by then. It marks the session as researching
    and dispatches the sentinel under the plan id of that render; when
    that render had no plan id bound, under its conversation id, or,
    that id being empty, under an id minted at that moment and stored
    in the state. Nothing else is written, and the transcript is not
    touched at that point. *)
Theorem C2_continuation_dispatches_under_captured_binding :
  forall (closure : Render) (env : Env) (live : ChatState) (u : User),
    r_currentUser closure = Some u ->
    exists st' req,
      fireContinuation closure env live = Some (st', req) /\
      req_userId req = user_id u /\
      req_planId req = r_selectedPlanId closure /\
      req_message req = CONTINUE_RESEARCH /\
      (optstr_truthy (r_selectedPlanId closure) = true ->
       req_conversationId req = None /\
       st' = setIsResearching true live) /\
      (optstr_truthy (r_selectedPlanId closure) = false ->
       str_truthy (st_tempConversationId (r_state closure)) = true ->
       req_conversationId req = Some (st_tempConversationId (r_state closure)) /\
       st' = setIsResearching true live) /\
      (optstr_truthy (r_selectedPlanId closure) = false ->
       str_truthy (st_tempConversationId (r_state closure)) = false ->
       req_conversationId req = Some (mintConversationId env) /\
       st' = setTempConversationId (mintConversationId env)
               (setIsResearching true live)) /\
      st_isResearching st' = true /\
      st_messages st' = st_messages live.
Proof.
  intros closure env live u Hu.
  unfold fireContinuation, handleSendMessage_begin. rewrite Hu.
  unfold messageContent, CONTINUE_RESEARCH. simpl.
  eexists _, _. split; [reflexivity|]. simpl.
  split; [reflexivity|]. split; [reflexivity|]. split; [reflexivity|].
  split; [|split; [|split; [|split]]].
  - by intros ->.
  - by intros -> ->.
  - by intros -> ->.
  - by destruct (negb _ && negb _).
  - by destruct (negb _ && negb _).
Qed.

Lemma C2_witness :
  r_currentUser boundRender = Some alice /\
  r_currentUser unboundRender = Some alice /\
  (exists st' req,
      fireContinuation boundRender env2 switchedState = Some (st', req) /\
      req_planId req = Some "p1" /\
      req_conversationId req = None /\
      st_isResearching st' = true) /\
  (exists st' req,
      fireContinuation unboundRender env2 switchedState = Some (st', req) /\
      req_planId req = None /\
      req_conversationId req = Some (mintConversationId env2) /\
      st_tempConversationId st' = mintConversationId env2).
Proof.
  split; [reflexivity|]. split; [reflexivity|]. split.
  - destruct (C2_continuation_dispatches_under_captured_binding
                boundRender env2 switchedState alice eq_refl)
      as (st' & req & Hfire & _ & Hplan & _ & Hbound & _ & _ & Hres & _).
    exists st', req. destruct (Hbound eq_refl) as [Hconv _]. by repeat split.
  - destruct (C2_continuation_dispatches_under_captured_binding
                unboundRender env2 switchedState alice eq_refl)
      as (st' & req & Hfire & _ & Hplan & _ & _ & _ & Hmint & _).
    exists st', req. destruct (Hmint eq_refl eq_refl) as [Hconv ->].
    by repeat split.
Defined.

(** C2, as the specification has it, fails. The continuation scheduled
    under plan [p1] fires after the switch to plan [p2]: it still sets
    the research status of the component, idle since the switch, and
    still dispatches, for plan [p1]; when the service answers, the
    transcript shown under [p2] becomes the one of [p1]. *)
Lemma C2_counterexample :
  bindingOf (r_selectedPlanId boundRender) (r_state boundRender)
    <> bindingOf (Some "p2") switchedState /\
  st_isResearching switchedState = false /\
  st_messages switchedState = [welcomeMessage None env1] /\
  (exists st' req st'' effects,
      fireContinuation boundRender env2 switchedState = Some (st', req) /\
      st_isResearching st' = true /\
      req_planId req = Some "p1" /\
      req_message req = CONTINUE_RESEARCH /\
      handleSendMessage_success boundRender env2 p1Response st' = Some (st'', effects) /\
      st_messages st'' = [auth_m1]) /\
  ~ continuation_is_guarded.
Proof.
  assert (Hne : bindingOf (r_selectedPlanId boundRender) (r_state boundRender)
                <> bindingOf (Some "p2") switchedState) by discriminate.
  split; [exact Hne|]. split; [reflexivity|]. split; [reflexivity|]. split.
  - eexists _, _, _, _. split; [reflexivity|]. repeat split.
  - intros Hguard.
    specialize (Hguard boundRender env2 (Some "p2") switchedState Hne).
    discriminate Hguard.
Qed.

(** ** Session (re)initialisation *)

(** C7. A switch that finds the remote history empty, or that fetches
    none because the session is unbound, leaves exactly one welcome
    message. With a signed-in user, which of the two welcome messages
    it is depends on the new binding only through whether a plan id is
    bound: the [welcome] message for a bound plan id, the
    [welcome-new] message for an unbound session, whatever the plan
    id, the user, the local store, the clock, the earlier state and
    the way the history came out empty. (Within the [welcome] message
    the text names the company when the local lookup finds the plan.)
    An unbound session also mints a fresh conversation id. *)
Theorem C7_switch_seeds_one_welcome_message :
  forall (selectedPlanId : option string) (currentUser : option User)
         (store : PlanStore) (env env' : Env) (outcome : HistoryOutcome)
         (st : ChatState),
    historyEmpty outcome = true ->
    let st' := switchBinding selectedPlanId currentUser store env env' outcome st in
    (exists w, st_messages st' = [w] /\ msg_role w = assistant) /\
    (forall u,
        currentUser = Some u ->
        map msg_id (st_messages st')
        = [if planIdBound selectedPlanId then "welcome" else "welcome-new"] /\
        (forall (selectedPlanId2 : option string) (u2 : User) (store2 : PlanStore)
                (env2 env2' : Env) (outcome2 : HistoryOutcome) (st2 : ChatState),
            historyEmpty outcome2 = true ->
            planIdBound selectedPlanId2 = planIdBound selectedPlanId ->
            map msg_id
                (st_messages (switchBinding selectedPlanId2 (Some u2) store2
                                env2 env2' outcome2 st2))
            = map msg_id (st_messages st'))) /\
    (forall planId u,
        selectedPlanId = Some planId -> planIdBound selectedPlanId = true ->
        currentUser = Some u ->
        let plan := findPlan planId (getPlansForUser (user_id u) store) in
        st_messages st' = [welcomeMessage plan env'] /\
        msg_id (welcomeMessage plan env') = "welcome" /\
        (forall p, plan = Some p ->
                   msg_content (welcomeMessage plan env')
                   = welcomeBackContent (plan_company p)) /\
        (plan = None ->
         msg_content (welcomeMessage plan env') = welcomeFreshContent)) /\
    (planIdBound selectedPlanId = false \/ currentUser = None ->
     st_messages st' = [welcomeNewMessage env] /\
     msg_id (welcomeNewMessage env) = "welcome-new" /\
     st_tempConversationId st' = mintConversationId env).
Proof.
  intros selectedPlanId currentUser store env env' outcome st Hempty st'.
  assert (Hids : forall sel u0 store0 env0 env0' outcome0 st0,
             historyEmpty outcome0 = true ->
             map msg_id (st_messages (switchBinding sel (Some u0) store0
                                        env0 env0' outcome0 st0))
             = [if planIdBound sel then "welcome" else "welcome-new"]).
  { intros sel u0 store0 env0 env0' outcome0 st0 Hempty0.
    unfold switchBinding, bindingEffect_begin, planIdBound.
    destruct sel as [planId|]; simpl; [|reflexivity].
    destruct (str_truthy planId); [|reflexivity].
    destruct outcome0 as [[[|m ms] files]|];
      [reflexivity | discriminate Hempty0 | reflexivity]. }
  assert (Hresolve : forall plan st1,
             st_messages (bindingEffect_resolve plan env' outcome st1)
             = [welcomeMessage plan env']).
  { intros plan st1. destruct outcome as [[[|m ms] files]|];
      [reflexivity | discriminate Hempty | reflexivity]. }
  assert (Hunbound : planIdBound selectedPlanId = false \/ currentUser = None ->
            st_messages st' = [welcomeNewMessage env] /\
            st_tempConversationId st' = mintConversationId env).
  { subst st'. unfold switchBinding, bindingEffect_begin, planIdBound.
    intros [Hf | ->].
    - destruct selectedPlanId as [planId|]; simpl in Hf;
        [rewrite Hf|]; by destruct currentUser.
    - by destruct selectedPlanId. }
  assert (Hbound : forall planId u,
            selectedPlanId = Some planId -> planIdBound selectedPlanId = true ->
            currentUser = Some u ->
            st_messages st'
            = [welcomeMessage (findPlan planId (getPlansForUser (user_id u) store)) env']).
  { intros planId u -> Hb ->. subst st'.
    unfold switchBinding, bindingEffect_begin. simpl in Hb. rewrite Hb.
    apply Hresolve. }
  split; [|split; [|split]].
  - destruct (planIdBound selectedPlanId) eqn:Hb.
    + destruct selectedPlanId as [planId|]; [|discriminate].
      destruct currentUser as [u|].
      * rewrite (Hbound planId u eq_refl eq_refl eq_refl). by eexists.
      * destruct Hunbound as [-> _]; [by right|]. by eexists.
    + destruct Hunbound as [-> _]; [by left|]. by eexists.
  - intros u Hu. subst st'. rewrite Hu.
    split; [exact (Hids _ _ _ _ _ _ _ Hempty)|].
    intros selectedPlanId2 u2 store2 env2 env2' outcome2 st2 Hempty2 Hsame.
    rewrite (Hids _ _ _ _ _ _ _ Hempty), (Hids _ _ _ _ _ _ _ Hempty2).
    by rewrite Hsame.
  - intros planId u Hsel Hb Hu plan.
    split; [exact (Hbound planId u Hsel Hb Hu)|].
    split; [reflexivity|].
    split; [intros p Hp | intros Hp]; by rewrite Hp.
  - intros Hcase. destruct (Hunbound Hcase) as [Hmsgs Hconv]. by repeat split.
Qed.

Lemma C7_witness :
  historyEmpty emptyHistory = true /\
  st_messages (switchBinding (Some "p1") (Some alice) [acmePlan] env1 env2
                 emptyHistory boundState)
  = [mkChatMessage "welcome" assistant
       "Welcome back! Ready to dive deeper into **Acme**? I'm here to help refine your account plan or research any new developments."
       "2023-11-14T22:13:20.900Z" None None] /\
  map msg_id
      (st_messages (switchBinding (Some "p7") (Some alice) [] env2 env1
                      HistoryFailed unboundState))
  = ["welcome"] /\
  map msg_id
      (st_messages (switchBinding None (Some alice) [acmePlan] env1 env2
                      emptyHistory boundState))
  = ["welcome-new"].
Proof.
  split; [reflexivity|].
  destruct (C7_switch_seeds_one_welcome_message
              (Some "p1") (Some alice) [acmePlan] env1 env2 emptyHistory boundState
              eq_refl) as (_ & Hvariant & Hbound & _).
  destruct (Hbound "p1" alice eq_refl eq_refl eq_refl) as [Hmsgs _].
  destruct (Hvariant alice eq_refl) as [Hid Hsolely].
  split; [exact Hmsgs|]. split.
  - rewrite (Hsolely (Some "p7") alice [] env2 env1 HistoryFailed unboundState
               eq_refl eq_refl).
    exact Hid.
  - destruct (C7_switch_seeds_one_welcome_message
                None (Some alice) [acmePlan] env1 env2 emptyHistory boundState
                eq_refl) as (_ & Hnew & _).
    exact (proj1 (Hnew alice eq_refl)).
Defined.

(** ** Mention resolution *)

Section Substring.

Lemma string_length_app (a b : string) :
  String.length (a +:+ b) = (String.length a + String.length b)%nat.
Proof. induction a as [|c a IH]; simpl; [reflexivity|by rewrite IH]. Qed.

Lemma substring_all (s : string) :
  String.substring 0 (String.length s) s = s.
Proof. induction s as [|c s IH]; simpl; [reflexivity|by rewrite IH]. Qed.

Lemma substring_prefix (a b : string) :
  String.substring 0 (String.length a) (a +:+ b) = a.
Proof.
  induction a as [|c a IH]; simpl; [by destruct b|by rewrite IH].
Qed.

Lemma substring_skip (a b : string) (n : nat) :
  String.substring (String.length a) n (a +:+ b) = String.substring 0 n b.
Proof. induction a as [|c a IH]; simpl; [reflexivity|exact IH]. Qed.

(** [(a + b).substring(0, a.length)] is [a]. *)
Lemma js_substring_prefix (a b : string) :
  js_substring (a +:+ b) 0 (Some (str_len a)) = a.
Proof.
  unfold js_substring, clampIndex, str_len. rewrite string_length_app.
  replace (Z.max 0 (Z.min 0 _)) with 0 by lia.
  replace (Z.max 0 (Z.min (Z.of_nat (String.length a)) _))
    with (Z.of_nat (String.length a)) by lia.
  replace (Z.min 0 _) with 0 by lia.
  replace (Z.max 0 (Z.of_nat (String.length a)) - 0)
    with (Z.of_nat (String.length a)) by lia.
  rewrite Nat2Z.id. apply substring_prefix.
Qed.

(** [(a + b).substring(a.length)] is [b]. *)
Lemma js_substring_suffix (a b : string) :
  js_substring (a +:+ b) (str_len a) None = b.
Proof.
  unfold js_substring, clampIndex, str_len. rewrite string_length_app.
  set (la := String.length a). set (lb := String.length b).
  replace (Z.max 0 (Z.min (Z.of_nat la) (Z.of_nat (la + lb))))
    with (Z.of_nat la) by lia.
  replace (Z.min (Z.of_nat la) (Z.of_nat (la + lb))) with (Z.of_nat la) by lia.
  replace (Z.max (Z.of_nat la) (Z.of_nat (la + lb)) - Z.of_nat la)
    with (Z.of_nat lb) by lia.
  rewrite !Nat2Z.id. subst la lb. rewrite substring_skip. apply substring_all.
Qed.

End Substring.

Lemma string_app_assoc (a b c : string) : (a +:+ b) +:+ c = a +:+ (b +:+ c).
Proof.
  induction a as [|x a IH]; [reflexivity|].
  change (String x ((a +:+ b) +:+ c) = String x (a +:+ (b +:+ c))).
  by rewrite IH.
Qed.

(** C9. Selecting a candidate while a token is open splices the
    canonical file name in place of the partial token, closes the
    suggestion state, and adds the file to the pending attachments
    unless one with its id is there already. On the example of the
    specification: typing [see @rep] with the caret at the end, with
    [report.pdf] and [notes.txt] available, opens the token [rep] at
    index 4 and offers exactly [report.pdf]; selecting it gives the
    input [see @report.pdf ] and the pending attachment with id 1. *)
Theorem C9_mention_select_splices_and_attaches :
  (forall (st : ChatState) (file : AttachedFile) (pre query post : string),
      st_inputValue st = pre +:+ "@" +:+ query +:+ post ->
      st_mentionIndex st = str_len pre ->
      st_mentionQuery st = Some query ->
      let st' := handleMentionSelect file st in
      st_inputValue st' = pre +:+ "@" +:+ fileDisplayName "file" file +:+ " " +:+ post /\
      st_mentionQuery st' = None /\
      st_mentionIndex st' = -1 /\
      mentionCandidates st' = [] /\
      st_attachedFiles st' =
        (if existsb (fun f => sameFileId f file) (st_attachedFiles st)
         then st_attachedFiles st
         else st_attachedFiles st ++ [file]) /\
      (exists f, f ∈ st_attachedFiles st' /\ file_id f = file_id file)) /\
  (let typed := handleInputChange "see @rep" 8 mentionState in
   let chosen := handleMentionSelect reportPdf typed in
   st_mentionQuery typed = Some "rep" /\
   st_mentionIndex typed = 4 /\
   mentionCandidates typed = [reportPdf] /\
   st_inputValue chosen = "see @report.pdf " /\
   map file_id (st_attachedFiles chosen) = ["1"] /\
   st_mentionQuery chosen = None /\
   st_mentionIndex chosen = -1 /\
   handleMentionSelect reportPdf chosen = chosen /\
   st_attachedFiles
     (handleMentionSelect reportPdf
        (handleInputChange "see @report.pdf @rep" 20 chosen))
   = [reportPdf]).
Proof.
  split.
  - intros st file pre query post Hinput Hindex Hquery st'.
    assert (Hopen : (st_mentionIndex st =? -1) = false).
    { apply Z.eqb_neq. rewrite Hindex. unfold str_len. lia. }
    assert (Hbefore : js_substring (st_inputValue st) 0 (Some (st_mentionIndex st)) = pre).
    { rewrite Hinput, Hindex. apply js_substring_prefix. }
    assert (Hafter : js_substring (st_inputValue st)
                       (st_mentionIndex st + str_len query + 1) None = post).
    { rewrite Hinput, Hindex.
      replace (pre +:+ "@" +:+ query +:+ post)
        with ((pre +:+ "@" +:+ query) +:+ post)
        by (rewrite !string_app_assoc; reflexivity).
      replace (str_len pre + str_len query + 1) with (str_len (pre +:+ "@" +:+ query)).
      - apply js_substring_suffix.
      - unfold str_len. rewrite !string_length_app. simpl. lia. }
    subst st'. unfold handleMentionSelect. rewrite Hopen, Hquery, Hbefore, Hafter.
    destruct (existsb (fun f => sameFileId f file) (st_attachedFiles st)) eqn:Hattached;
      simpl; repeat split.
    + apply existsb_exists in Hattached as (f & Hin & Hsame).
      exists f. split; [by apply list_elem_of_In|].
      by apply String.eqb_eq.
    + exists file. split; [|reflexivity]. apply elem_of_app. right. left.
  - vm_compute. repeat split.
Qed.

Lemma C9_witness :
  let typed := handleInputChange "see @rep" 8 mentionState in
  st_inputValue typed = "see " +:+ "@" +:+ "rep" +:+ "" /\
  st_mentionIndex typed = str_len "see " /\
  st_mentionQuery typed = Some "rep" /\
  st_inputValue (handleMentionSelect reportPdf typed) = "see @report.pdf " /\
  st_attachedFiles (handleMentionSelect reportPdf typed) = [reportPdf].
Proof.
  intros typed.
  assert (Hinput : st_inputValue typed = "see " +:+ "@" +:+ "rep" +:+ "") by reflexivity.
  assert (Hindex : st_mentionIndex typed = str_len "see ") by reflexivity.
  assert (Hquery : st_mentionQuery typed = Some "rep") by reflexivity.
  destruct C9_mention_select_splices_and_attaches as [Hselect _].
  destruct (Hselect typed reportPdf "see " "rep" "" Hinput Hindex Hquery)
    as (Hvalue & _ & _ & _ & Hfiles & _).
  repeat split; assumption.
Defined.

(** ** View pointer *)

(** C4. Selecting the entry whose version is the live version stores
    the sentinel: the state is the one that selecting [-1] produces,
    cell by cell, and the view then shows the live document. *)
Theorem C4_select_live_version_normalizes_to_current :
  forall (st : CanvasState) (plan : AccountPlan),
    cv_plan st = Some plan ->
    selectVersion (plan_version plan) st = selectVersion (-1) st /\
    selectVersion (plan_version plan) st
      = setShowVersionPanel false (setHistoryIndex (-1) st) /\
    cv_historyIndex (selectVersion (plan_version plan) st) = -1 /\
    cv_displayPlan (historyNavigationEffect (selectVersion (plan_version plan) st))
      = Some plan.
Proof.
  intros st plan Hplan. unfold selectVersion. rewrite Hplan, Z.eqb_refl.
  repeat split.
  - by destruct (-1 =? plan_version plan).
  - unfold historyNavigationEffect. simpl. by rewrite Hplan.
Qed.

Lemma C4_witness :
  cv_plan canvasState = Some acmePlan /\
  plan_version acmePlan = 5 /\
  selectVersion 5 canvasState = selectVersion (-1) canvasState /\
  cv_historyIndex (selectVersion 5 canvasState) = -1.
Proof.
  destruct (C4_select_live_version_normalizes_to_current canvasState acmePlan eq_refl)
    as (Hsame & _ & Hpointer & _).
  repeat split; assumption.
Defined.

(** ** Editing *)

(** C5. Committing the edit buffer makes it the live document and the
    displayed one, as it is, and leaves edit mode; the buffer is sent
    to the remote service under the id of the plan. When persisting
    fails an alert is raised and neither the state nor the local store
    is touched again: the replacement stays. *)
Theorem C5_commit_is_optimistic_and_not_rolled_back :
  forall (outcome : PersistOutcome) (store : PlanStore) (st : CanvasState)
         (editState plan : AccountPlan),
    cv_editState st = Some editState ->
    cv_plan st = Some plan ->
    let r := handleSaveEdit outcome store st in
    cv_plan (sr_state r) = Some editState /\
    cv_displayPlan (sr_state r) = Some editState /\
    cv_isEditing (sr_state r) = false /\
    sr_request r = Some (plan_id plan, editState) /\
    sr_state r = sr_state (handleSaveEdit Persisted store st) /\
    (outcome = PersistFailed ->
     sr_alerts r = ["Failed to save changes"] /\ sr_store r = store) /\
    (outcome = Persisted ->
     sr_alerts r = [] /\ sr_store r = savePlan editState store) /\
    (cv_historyIndex st = -1 ->
     cv_displayPlan (historyNavigationEffect (sr_state r)) = Some editState).
Proof.
  intros outcome store st editState plan Hedit Hplan r. subst r.
  unfold handleSaveEdit. rewrite Hedit, Hplan.
  destruct outcome; simpl; repeat split; try discriminate;
    intros Hcurrent; unfold historyNavigationEffect; simpl; by rewrite Hcurrent.
Qed.

Lemma C5_witness :
  cv_editState editingState = Some editedPlan /\
  cv_plan editingState = Some acmePlan /\
  cv_plan (sr_state (handleSaveEdit PersistFailed [acmePlan] editingState))
    = Some editedPlan /\
  sr_alerts (handleSaveEdit PersistFailed [acmePlan] editingState)
    = ["Failed to save changes"].
Proof.
  destruct (C5_commit_is_optimistic_and_not_rolled_back
              PersistFailed [acmePlan] editingState editedPlan acmePlan
              eq_refl eq_refl) as (Hlive & _ & _ & _ & _ & Hfail & _).
  destruct (Hfail eq_refl) as [Halert _].
  repeat split; assumption.
Defined.

Section ArrayWrite.

Context {A : Type}.
Implicit Types (arr : JsArray A) (x : A).

(** A write leaves every other index as it reads. *)
Lemma js_array_get_set_other arr (index j : nat) x :
  j <> index ->
  js_array_get (js_array_set index x arr) j = js_array_get arr j.
Proof.
  intros Hne. unfold js_array_get, js_array_set.
  destruct (index <? length arr)%nat eqn:Hin.
  - by rewrite list_lookup_insert_ne.
  - apply Nat.ltb_ge in Hin.
    destruct (decide (j < length arr)%nat) as [Hj|Hj].
    + by rewrite lookup_app_l.
    + rewrite (lookup_ge_None_2 arr j) by lia.
      rewrite lookup_app_r by lia.
      destruct (decide (j - length arr < index - length arr)%nat) as [Hhole|Hpast].
      * rewrite lookup_app_l by (by rewrite length_replicate).
        rewrite lookup_replicate_2; [reflexivity|exact Hhole].
      * rewrite lookup_app_r by (rewrite length_replicate; lia).
        rewrite length_replicate.
        destruct (j - length arr - (index - length arr))%nat as [|k] eqn:Hk;
          [lia|reflexivity].
Qed.

(** The written index reads as the written element. *)
Lemma js_array_get_set_same arr (index : nat) x :
  js_array_get (js_array_set index x arr) index = Some x.
Proof.
  unfold js_array_get, js_array_set.
  destruct (index <? length arr)%nat eqn:Hin.
  - apply Nat.ltb_lt in Hin. by rewrite list_lookup_insert_eq.
  - apply Nat.ltb_ge in Hin.
    rewrite lookup_app_r by lia.
    rewrite lookup_app_r by (rewrite length_replicate; lia).
    rewrite length_replicate.
    by replace (index - length arr - (index - length arr))%nat with 0%nat by lia.
Qed.

(** A write within the array keeps its length. *)
Lemma js_array_set_length arr (index : nat) x :
  (index < length arr)%nat -> length (js_array_set index x arr) = length arr.
Proof.
  intros Hin. unfold js_array_set.
  apply Nat.ltb_lt in Hin. rewrite Hin. apply length_insert.
Qed.

End ArrayWrite.

(** C8. Replacing the content of the section at an index builds an
    edit buffer that reads as before at every other index and in every
    top-level field; the section written keeps its title and takes the
    new content, and no other cell of the state changes. *)
Theorem C8_updateSectionContent_frame :
  forall (st : CanvasState) (editState : AccountPlan) (index : nat)
         (newContent : Content),
    cv_editState st = Some editState ->
    exists editState',
      cv_editState (updateSectionContent index newContent st) = Some editState' /\
      (forall j, j <> index ->
                 js_array_get (plan_sections editState') j
                 = js_array_get (plan_sections editState) j) /\
      js_array_get (plan_sections editState') index
        = Some (withContent newContent (js_array_get (plan_sections editState) index)) /\
      (forall s, js_array_get (plan_sections editState) index = Some s ->
                 js_array_get (plan_sections editState') index
                 = Some (mkPlanSection (sec_title s) newContent) /\
                 length (plan_sections editState') = length (plan_sections editState)) /\
      plan_id editState' = plan_id editState /\
      plan_userId editState' = plan_userId editState /\
      plan_company editState' = plan_company editState /\
      plan_goal editState' = plan_goal editState /\
      plan_title editState' = plan_title editState /\
      plan_createdAt editState' = plan_createdAt editState /\
      plan_updatedAt editState' = plan_updatedAt editState /\
      plan_version editState' = plan_version editState /\
      plan_history editState' = plan_history editState /\
      updateSectionContent index newContent st = setEditState (Some editState') st.
Proof.
  intros st editState index newContent Hedit.
  unfold updateSectionContent. rewrite Hedit.
  eexists. split; [reflexivity|]. simpl.
  split; [intros j Hj; by apply js_array_get_set_other|].
  split; [apply js_array_get_set_same|].
  split; [|by repeat split].
  intros s Hs. rewrite Hs. split; [apply js_array_get_set_same|].
  apply js_array_set_length.
  unfold js_array_get in Hs.
  destruct (plan_sections editState !! index) eqn:Hlookup; [|discriminate].
  by apply lookup_lt_Some in Hlookup.
Qed.

Lemma C8_witness :
  cv_editState editingState = Some editedPlan /\
  cv_editState (updateSectionContent 1 (CText "None known.") editingState)
  = Some (mkAccountPlan "p1" "user-123" "Acme" "Grow the account" (Some "Acme 2025")
            "2025-01-01T00:00:00.000Z" "2025-01-05T00:00:00.000Z" 5
            [Some (mkPlanSection (Some "Overview") (CText "Acme makes anvils and rockets."));
             Some (mkPlanSection (Some "Risks") (CText "None known."))]
            None).
Proof.
  split; [reflexivity|].
  destruct (C8_updateSectionContent_frame editingState editedPlan 1
              (CText "None known.") eq_refl) as (editState' & Hbuf & _).
  rewrite Hbuf. f_equal.
  vm_compute in Hbuf. by injection Hbuf as <-.
Defined.

(** ** Version listing *)

Section VersionMap.

Implicit Types (m : VersionMap) (l : list AccountPlan) (p q : AccountPlan) (k : Z).

Lemma versionMap_get_set k k' p m :
  versionMap_get k (versionMap_set k' p m)
  = if k' =? k then Some p else versionMap_get k m.
Proof.
  unfold versionMap_get.
  induction m as [|[k0 v0] m IH]; simpl.
  - by destruct (k' =? k).
  - destruct (k0 =? k') eqn:E0; simpl.
    + apply Z.eqb_eq in E0 as ->. by destruct (k' =? k).
    + destruct (k0 =? k) eqn:E1; simpl.
      * apply Z.eqb_eq in E1 as ->. by rewrite (Z.eqb_sym k' k), E0.
      * exact IH.
Qed.

Lemma versionMap_set_keys k p m :
  map fst (versionMap_set k p m)
  = if existsb (fun e => fst e =? k) m then map fst m else map fst m ++ [k].
Proof.
  induction m as [|[k0 v0] m IH]; simpl; [reflexivity|].
  destruct (k0 =? k) eqn:E0; simpl; [reflexivity|].
  rewrite IH. by destruct (existsb _ m).
Qed.

Lemma versionMap_set_NoDup k p m :
  NoDup (map fst m) -> NoDup (map fst (versionMap_set k p m)).
Proof.
  intros Hnd. rewrite versionMap_set_keys.
  destruct (existsb _ m) eqn:E; [exact Hnd|].
  apply NoDup_app. split; [exact Hnd|]. split; [|apply NoDup_singleton].
  intros k0 Hk0 Hin. apply list_elem_of_singleton in Hin as ->.
  apply list_elem_of_In, in_map_iff in Hk0 as ([k1 v1] & Hfst & Hin).
  simpl in Hfst. subst k1.
  apply not_true_iff_false in E. apply E, existsb_exists.
  exists (k, v1). split; [exact Hin|]. apply Z.eqb_refl.
Qed.

(** With distinct keys, membership is lookup. *)
Lemma versionMap_elem_get k p m :
  NoDup (map fst m) ->
  (k, p) ∈ m <-> versionMap_get k m = Some p.
Proof.
  unfold versionMap_get.
  induction m as [|[k0 v0] m IH]; simpl; intros Hnd.
  - split; [intros H; by apply elem_of_nil in H|discriminate].
  - apply NoDup_cons in Hnd as [Hnotin Hnd].
    rewrite elem_of_cons, (IH Hnd).
    destruct (k0 =? k) eqn:E0; simpl.
    + apply Z.eqb_eq in E0 as ->. split.
      * intros [[= ->]|Hfind]; [reflexivity|].
        exfalso. apply Hnotin.
        destruct (List.find _ m) as [[k1 v1]|] eqn:Hf; [|discriminate].
        apply find_some in Hf as [Hin Hk1]. simpl in Hk1.
        apply Z.eqb_eq in Hk1 as ->.
        apply list_elem_of_In, in_map_iff. by exists (k, v1).
      * intros [= ->]. by left.
    + split; [intros [[= -> _]|Hfind]|by right]; [|exact Hfind].
      by rewrite Z.eqb_refl in E0.
Qed.

Lemma lastByVersion_snoc k l p :
  lastByVersion k (l ++ [p])
  = if plan_version p =? k then Some p else lastByVersion k l.
Proof.
  induction l as [|q l IH]; simpl; [by destruct (plan_version p =? k)|].
  rewrite IH. by destruct (plan_version p =? k).
Qed.

Lemma versionMap_of_snoc l p :
  versionMap_of (l ++ [p]) = versionMap_set (plan_version p) p (versionMap_of l).
Proof. unfold versionMap_of. by rewrite fold_left_app. Qed.

(** The map binds a version to the last candidate that has it. *)
Lemma versionMap_of_get k l :
  versionMap_get k (versionMap_of l) = lastByVersion k l.
Proof.
  induction l as [|p l IH] using rev_ind; [reflexivity|].
  by rewrite versionMap_of_snoc, versionMap_get_set, lastByVersion_snoc, IH.
Qed.

Lemma versionMap_of_NoDup l : NoDup (map fst (versionMap_of l)).
Proof.
  induction l as [|p l IH] using rev_ind; [apply NoDup_nil_2|].
  rewrite versionMap_of_snoc. by apply versionMap_set_NoDup.
Qed.

Lemma lastByVersion_Some k l p :
  lastByVersion k l = Some p -> plan_version p = k /\ p ∈ l.
Proof.
  induction l as [|q l IH]; simpl; [discriminate|].
  destruct (lastByVersion k l) as [r|].
  - intros [= ->]. destruct (IH eq_refl) as [Hk Hin]. split; [exact Hk|by right].
  - destruct (plan_version q =? k) eqn:E; [|discriminate].
    intros [= ->]. apply Z.eqb_eq in E. split; [exact E|left].
Qed.

Lemma lastByVersion_None k l :
  lastByVersion k l = None <-> existsb (fun q => plan_version q =? k) l = false.
Proof.
  induction l as [|q l IH]; simpl; [done|].
  destruct (lastByVersion k l) as [r|].
  - split; [discriminate|]. intros H. apply orb_false_elim in H as [_ H].
    by apply IH in H.
  - destruct (plan_version q =? k); simpl; [done|]. split; [|done].
    intros _. by apply IH.
Qed.

(** The values of the map are the candidates that win their tie. *)
Lemma versionMap_of_values l p :
  p ∈ versionMap_values (versionMap_of l)
  <-> lastByVersion (plan_version p) l = Some p.
Proof.
  unfold versionMap_values. split.
  - intros Hin.
    apply list_elem_of_In, in_map_iff in Hin as ([k v] & Hsnd & Hin).
    simpl in Hsnd. subst v.
    apply list_elem_of_In, versionMap_elem_get in Hin; [|apply versionMap_of_NoDup].
    rewrite versionMap_of_get in Hin.
    destruct (lastByVersion_Some _ _ _ Hin) as [<- _]. exact Hin.
  - intros Hlast. rewrite <- versionMap_of_get in Hlast.
    apply versionMap_elem_get in Hlast; [|apply versionMap_of_NoDup].
    apply list_elem_of_In, in_map_iff. exists (plan_version p, p).
    split; [reflexivity|by apply list_elem_of_In].
Qed.

(** Each key of the map is the version of its value. *)
Lemma versionMap_of_keys l :
  map fst (versionMap_of l) = map plan_version (versionMap_values (versionMap_of l)).
Proof.
  unfold versionMap_values. rewrite map_map. apply map_ext_in.
  intros [k v] Hin. simpl.
  apply list_elem_of_In, versionMap_elem_get in Hin; [|apply versionMap_of_NoDup].
  rewrite versionMap_of_get in Hin.
  by destruct (lastByVersion_Some _ _ _ Hin) as [-> _].
Qed.

Lemma versionMap_of_values_NoDup l :
  NoDup (map plan_version (versionMap_values (versionMap_of l))).
Proof. rewrite <- versionMap_of_keys. apply versionMap_of_NoDup. Qed.

End VersionMap.

Section Dedup.

Implicit Types (l : list AccountPlan) (p q : AccountPlan).

(** The candidates kept are those that win their tie. *)
Lemma dedupLaterWins_elem l p :
  p ∈ dedupLaterWins l <-> lastByVersion (plan_version p) l = Some p.
Proof.
  induction l as [|q l IH]; simpl.
  - split; [intros H; by apply elem_of_nil in H|discriminate].
  - destruct (existsb (fun r => plan_version r =? plan_version q) l) eqn:Hlater.
    + rewrite IH.
      destruct (lastByVersion (plan_version p) l) as [r|] eqn:Hlast; [done|].
      destruct (plan_version q =? plan_version p) eqn:E; [|done].
      apply Z.eqb_eq in E. rewrite <- E in Hlast.
      apply lastByVersion_None in Hlast. congruence.
    + rewrite elem_of_cons, IH.
      destruct (lastByVersion (plan_version p) l) as [r|] eqn:Hlast.
      * split; [intros [->|H]; [|exact H]|by right].
        apply lastByVersion_None in Hlater. congruence.
      * destruct (plan_version q =? plan_version p) eqn:E.
        -- split; [intros [->|H]; [reflexivity|discriminate]|].
           intros [= ->]. by left.
        -- split; [intros [->|H]; [|discriminate]|discriminate].
           by rewrite Z.eqb_refl in E.
Qed.

Lemma dedupLaterWins_subset l p : p ∈ dedupLaterWins l -> p ∈ l.
Proof.
  intros H. apply dedupLaterWins_elem in H.
  by destruct (lastByVersion_Some _ _ _ H).
Qed.

Lemma dedupLaterWins_NoDup l : NoDup (map plan_version (dedupLaterWins l)).
Proof.
  induction l as [|q l IH]; simpl; [apply NoDup_nil_2|].
  destruct (existsb (fun r => plan_version r =? plan_version q) l) eqn:Hlater;
    [exact IH|].
  simpl. apply NoDup_cons. split; [|exact IH].
  intros Hin. apply list_elem_of_In, in_map_iff in Hin as (r & Hkey & Hr).
  apply list_elem_of_In, dedupLaterWins_subset, list_elem_of_In in Hr.
  apply not_true_iff_false in Hlater. apply Hlater, existsb_exists.
  exists r. split; [exact Hr|]. by apply Z.eqb_eq.
Qed.

(** The last candidate is always kept. *)
Lemma lastByVersion_last l p :
  lastByVersion (plan_version p) (l ++ [p]) = Some p.
Proof. by rewrite lastByVersion_snoc, Z.eqb_refl. Qed.

End Dedup.

Section SortByVersion.

Implicit Types (l : list AccountPlan) (p q : AccountPlan).

Let ltv := fun p q => plan_version p < plan_version q.

Lemma insertByVersion_comm p q l :
  plan_version p <> plan_version q ->
  insertByVersion p (insertByVersion q l) = insertByVersion q (insertByVersion p l).
Proof.
  intros Hne. unfold compareVersion.
  induction l as [|r l IH]; simpl; unfold compareVersion.
  - destruct (plan_version p - plan_version q <=? 0) eqn:E1,
             (plan_version q - plan_version p <=? 0) eqn:E2;
      try reflexivity; lia.
  - destruct (plan_version q - plan_version r <=? 0) eqn:Eq,
             (plan_version p - plan_version r <=? 0) eqn:Ep;
      simpl; unfold compareVersion; rewrite ?Eq, ?Ep;
      try (destruct (plan_version p - plan_version q <=? 0) eqn:E1,
                    (plan_version q - plan_version p <=? 0) eqn:E2;
           try reflexivity; lia).
    by rewrite IH.
Qed.

Lemma insertByVersion_Permutation p l :
  Permutation (insertByVersion p l) (p :: l).
Proof.
  induction l as [|q l IH]; simpl; [reflexivity|].
  destruct (compareVersion p q <=? 0); [reflexivity|].
  rewrite IH. apply perm_swap.
Qed.

Lemma sortByVersion_Permutation l : Permutation (sortByVersion l) l.
Proof.
  induction l as [|p l IH]; simpl; [reflexivity|].
  rewrite insertByVersion_Permutation. by apply perm_skip.
Qed.

(** On candidates with distinct versions the result of the sort does
    not depend on the order they come in. *)
Lemma sortByVersion_perm l l' :
  Permutation l l' -> NoDup (map plan_version l) ->
  sortByVersion l = sortByVersion l'.
Proof.
  induction 1 as [|x l l' Hperm IH|x y l|l l' l'' H1 IH1 H2 IH2]; intros Hnd.
  - reflexivity.
  - simpl in *. apply NoDup_cons in Hnd as [_ Hnd]. by rewrite IH.
  - simpl in *. apply NoDup_cons in Hnd as [Hy _].
    apply insertByVersion_comm. intros Heq. apply Hy. rewrite Heq. left.
  - rewrite IH1 by exact Hnd. apply IH2.
    by rewrite <- (Permutation_map plan_version H1).
Qed.

Lemma insertByVersion_sorted p l :
  StronglySorted ltv l -> plan_version p ∉ map plan_version l ->
  StronglySorted ltv (insertByVersion p l).
Proof.
  induction 1 as [|q l Hsorted IH Hall]; intros Hfresh; simpl.
  - repeat constructor.
  - apply not_elem_of_cons in Hfresh as [Hne Hfresh].
    destruct (compareVersion p q <=? 0) eqn:E; unfold compareVersion in E.
    + constructor; [by constructor|].
      assert (Hpq : ltv p q) by (unfold ltv; lia).
      constructor; [exact Hpq|].
      eapply Forall_impl; [exact Hall|]. unfold ltv in *. simpl. intros; lia.
    + constructor; [by apply IH|].
      rewrite insertByVersion_Permutation.
      constructor; [unfold ltv; lia|exact Hall].
Qed.

Lemma sortByVersion_sorted l :
  NoDup (map plan_version l) -> StronglySorted ltv (sortByVersion l).
Proof.
  induction l as [|p l IH]; simpl; intros Hnd; [constructor|].
  apply NoDup_cons in Hnd as [Hfresh Hnd].
  apply insertByVersion_sorted; [by apply IH|].
  by rewrite (Permutation_map plan_version (sortByVersion_Permutation l)).
Qed.

Lemma filter_version_fresh l (k : Z) :
  k ∉ map plan_version l ->
  List.filter (fun q => plan_version q =? k) l = [].
Proof.
  induction l as [|q l IH]; simpl; intros Hfresh; [reflexivity|].
  apply not_elem_of_cons in Hfresh as [Hne Hfresh].
  destruct (plan_version q =? k) eqn:E; [apply Z.eqb_eq in E; congruence|].
  by apply IH.
Qed.

(** Among plans with distinct versions, one version selects one plan. *)
Lemma filter_version_unique l p :
  NoDup (map plan_version l) -> p ∈ l ->
  List.filter (fun q => plan_version q =? plan_version p) l = [p].
Proof.
  induction l as [|q l IH]; simpl; intros Hnd Hin.
  - by apply elem_of_nil in Hin.
  - apply NoDup_cons in Hnd as [Hfresh Hnd].
    apply elem_of_cons in Hin as [->|Hin].
    + rewrite Z.eqb_refl. f_equal. by apply filter_version_fresh.
    + destruct (plan_version q =? plan_version p) eqn:E.
      * exfalso. apply Hfresh. apply Z.eqb_eq in E. rewrite E.
        apply list_elem_of_In, in_map, list_elem_of_In, Hin.
      * by apply IH.
Qed.

End SortByVersion.

Section Listing.

Variable plan : AccountPlan.

Let unique := versionMap_values (versionMap_of (candidates plan)).

Lemma unique_dedup_Permutation :
  Permutation unique (dedupLaterWins (candidates plan)).
Proof.
  apply NoDup_Permutation.
  - apply (NoDup_fmap_1 plan_version), versionMap_of_values_NoDup.
  - apply (NoDup_fmap_1 plan_version), dedupLaterWins_NoDup.
  - intros p. subst unique.
    by rewrite versionMap_of_values, dedupLaterWins_elem.
Qed.

Lemma sorted_unique_NoDup : NoDup (map plan_version (sortByVersion unique)).
Proof.
  rewrite (Permutation_map plan_version (sortByVersion_Permutation unique)).
  apply versionMap_of_values_NoDup.
Qed.

Lemma sorted_unique_elem p :
  p ∈ sortByVersion unique
  <-> lastByVersion (plan_version p) (candidates plan) = Some p.
Proof.
  rewrite (sortByVersion_Permutation unique). apply versionMap_of_values.
Qed.

Lemma live_in_sorted_unique : plan ∈ sortByVersion unique.
Proof. apply sorted_unique_elem. unfold candidates. apply lastByVersion_last. Qed.

Lemma availableVersions_unfold :
  availableVersions (Some plan) = map (toVersionEntry plan) (sortByVersion unique).
Proof. reflexivity. Qed.

End Listing.

Lemma StronglySorted_map {A B : Type} (R : B -> B -> Prop) (f : A -> B) (l : list A) :
  StronglySorted (fun x y => R (f x) (f y)) l -> StronglySorted R (map f l).
Proof.
  induction 1 as [|x l Hs IH Hall]; simpl; constructor; [exact IH|].
  apply Forall_forall. intros y Hy.
  apply list_elem_of_In, in_map_iff in Hy as (z & <- & Hz).
  rewrite Forall_forall in Hall. by apply Hall, list_elem_of_In.
Qed.

Lemma filter_map_comm {A B : Type} (f : A -> B) (g : B -> bool) (l : list A) :
  List.filter g (map f l) = map f (List.filter (fun x => g (f x)) l).
Proof.
  induction l as [|x l IH]; simpl; [reflexivity|].
  destruct (g (f x)); simpl; by rewrite IH.
Qed.

(** C3. The version listing is the one the specification describes:
    of the history followed by the live document, the candidates that
    win the tie on their version number (the last one with it), in
    ascending order of version, the entry of the live version marked
    current. Hence every version of a candidate is listed once, the
    live document stands for its own version, and exactly that entry
    is marked. For snapshots of versions 1, 3 and 5 and a live
    document at version 5 the listing has three entries, 1, 3 and 5,
    the last one marked and taken from the live document. *)
Theorem C3_version_listing :
  (forall (plan : AccountPlan),
      let history := default [] (plan_history plan) in
      let listing := availableVersions (Some plan) in
      listing = versionListing_spec history plan /\
      (forall e, e ∈ listing <->
                 exists p, lastByVersion (actualVersion e) (history ++ [plan]) = Some p /\
                           e = toVersionEntry plan p) /\
      (forall q, q ∈ history ++ [plan] ->
                 exists e, e ∈ listing /\ actualVersion e = plan_version q) /\
      StronglySorted Z.lt (map actualVersion listing) /\
      (forall e, e ∈ listing ->
                 (isCurrent e = true <-> actualVersion e = plan_version plan)) /\
      List.filter isCurrent listing
      = [mkVersionEntry (plan_version plan) (plan_version plan)
           (plan_updatedAt plan) true]) /\
  availableVersions (Some versionedPlan)
  = [mkVersionEntry 1 1 "2025-01-01T00:00:00.000Z" false;
     mkVersionEntry 3 3 "2025-01-03T00:00:00.000Z" false;
     mkVersionEntry 5 5 "2025-01-06T00:00:00.000Z" true].
Proof.
  split; [|reflexivity].
  intros plan history listing.
  assert (Hlisting : listing
                     = map (toVersionEntry plan)
                         (sortByVersion
                            (versionMap_values (versionMap_of (candidates plan)))))
    by reflexivity.
  assert (Helem : forall e, e ∈ listing <->
             exists p, lastByVersion (actualVersion e) (history ++ [plan]) = Some p /\
                       e = toVersionEntry plan p).
  { intros e. rewrite Hlisting. split.
    - intros He. apply list_elem_of_In, in_map_iff in He as (p & <- & Hp).
      exists p. split; [|reflexivity].
      by apply list_elem_of_In, sorted_unique_elem in Hp.
    - intros (p & Hlast & ->). simpl in Hlast.
      apply list_elem_of_In, in_map, list_elem_of_In.
      by apply sorted_unique_elem. }
  split; [|split; [exact Helem|split; [|split; [|split]]]].
  - rewrite Hlisting. unfold versionListing_spec.
    rewrite (sortByVersion_perm _ _ (unique_dedup_Permutation plan)
               (versionMap_of_values_NoDup _)).
    reflexivity.
  - intros q Hq.
    destruct (lastByVersion (plan_version q) (history ++ [plan])) as [p|] eqn:Hlast.
    + exists (toVersionEntry plan p). split.
      * apply Helem. exists p. split; [|reflexivity]. simpl.
        by destruct (lastByVersion_Some _ _ _ Hlast) as [-> _].
      * simpl. by destruct (lastByVersion_Some _ _ _ Hlast).
    + exfalso. apply lastByVersion_None in Hlast.
      apply not_true_iff_false in Hlast. apply Hlast, existsb_exists.
      exists q. split; [by apply list_elem_of_In|apply Z.eqb_refl].
  - rewrite Hlisting, map_map. simpl.
    apply (StronglySorted_map Z.lt plan_version).
    apply sortByVersion_sorted, versionMap_of_values_NoDup.
  - intros e He. apply Helem in He as (p & _ & ->). simpl. apply Z.eqb_eq.
  - rewrite Hlisting, filter_map_comm. simpl.
    rewrite (filter_version_unique _ plan (sorted_unique_NoDup plan)
               (live_in_sorted_unique plan)).
    simpl. unfold toVersionEntry. by rewrite Z.eqb_refl.
Qed.


(** * Further properties of the code *)

(** ** Local plan store *)

Section PlanStoreFacts.

Implicit Types (store : PlanStore) (p q : AccountPlan) (id : string).

Lemma findPlan_None id store :
  findPlan id store = None <-> forall q, q ∈ store -> plan_id q <> id.
Proof.
  unfold findPlan. induction store as [|q store IH]; simpl.
  - split; [intros _ q Hq; by apply elem_of_nil in Hq|done].
  - destruct (String.eqb_spec (plan_id q) id) as [Heq|Hne].
    + split; [discriminate|]. intros H. exfalso. apply (H q); [left|exact Heq].
    + rewrite IH. split.
      * intros H r Hr. apply elem_of_cons in Hr as [->|Hr]; [exact Hne|by apply H].
      * intros H r Hr. apply H. by right.
Qed.

Lemma savePlan_ids p store :
  map plan_id (savePlan p store)
  = if existsb (fun q => String.eqb (plan_id q) (plan_id p)) store
    then map plan_id store
    else map plan_id store ++ [plan_id p].
Proof.
  induction store as [|q store IH]; simpl; [reflexivity|].
  destruct (String.eqb_spec (plan_id q) (plan_id p)) as [Heq|Hne]; simpl.
  - by rewrite Heq.
  - rewrite IH. by destruct (existsb _ store).
Qed.

Lemma savePlan_fresh p store :
  findPlan (plan_id p) store = None -> savePlan p store = store ++ [p].
Proof.
  induction store as [|q store IH]; simpl; [reflexivity|].
  unfold findPlan. simpl.
  destruct (String.eqb (plan_id q) (plan_id p)); [discriminate|].
  intros H. by rewrite IH.
Qed.

Lemma deletePlan_absent id store :
  findPlan id store = None -> deletePlan id store = store.
Proof.
  unfold findPlan, deletePlan. induction store as [|q store IH]; simpl; [reflexivity|].
  destruct (String.eqb (plan_id q) id); simpl; [discriminate|].
  intros H. by rewrite IH.
Qed.

Lemma findPlan_deletePlan planId id store :
  findPlan id (deletePlan planId store)
  = if String.eqb id planId then None else findPlan id store.
Proof.
  unfold findPlan, deletePlan. induction store as [|q store IH]; simpl.
  - by destruct (String.eqb id planId).
  - destruct (String.eqb_spec (plan_id q) planId) as [Hq|Hq]; simpl.
    + rewrite IH. destruct (String.eqb_spec id planId) as [Hi|Hi]; [reflexivity|].
      destruct (String.eqb_spec (plan_id q) id); [congruence|reflexivity].
    + destruct (String.eqb_spec (plan_id q) id) as [Hqi|Hqi]; [|exact IH].
      destruct (String.eqb_spec id planId); [congruence|reflexivity].
Qed.

Lemma findPlan_app_found id store rest p :
  findPlan id store = Some p -> findPlan id (store ++ rest) = Some p.
Proof.
  unfold findPlan. induction store as [|q store IH]; simpl; [discriminate|].
  by destruct (String.eqb (plan_id q) id).
Qed.

Lemma findPlan_Some id store p :
  findPlan id store = Some p -> p ∈ store /\ plan_id p = id.
Proof.
  unfold findPlan. intros H. apply find_some in H as [Hin Hid].
  split; [by apply list_elem_of_In|by apply String.eqb_eq].
Qed.

End PlanStoreFacts.

(** X1. Saving a plan and looking its id up gives the plan back, and
    the lookup of any other id is what it was. *)
Theorem X1_savePlan_then_findPlan :
  forall (p : AccountPlan) (store : PlanStore) (id : string),
    findPlan id (savePlan p store)
    = if String.eqb (plan_id p) id then Some p else findPlan id store.
Proof.
  intros p store id. unfold findPlan.
  induction store as [|q store IH]; simpl.
  - by destruct (String.eqb (plan_id p) id).
  - destruct (String.eqb_spec (plan_id q) (plan_id p)) as [Heq|Hne]; simpl.
    + rewrite Heq. by destruct (String.eqb (plan_id p) id).
    + destruct (String.eqb_spec (plan_id q) id) as [Hq|Hq]; [|exact IH].
      destruct (String.eqb_spec (plan_id p) id) as [Hp|Hp]; [congruence|reflexivity].
Qed.

(** X2. [savePlan] is an upsert: an id already stored keeps its place
    and the store its length, a new id goes to the end; distinct ids
    stay distinct, and saving twice is saving once, the later plan
    winning. *)
Theorem X2_savePlan_is_upsert :
  forall (p p' : AccountPlan) (store : PlanStore),
    (findPlan (plan_id p) store <> None ->
     map plan_id (savePlan p store) = map plan_id store) /\
    (findPlan (plan_id p) store = None -> savePlan p store = store ++ [p]) /\
    (NoDup (map plan_id store) -> NoDup (map plan_id (savePlan p store))) /\
    (plan_id p' = plan_id p ->
     savePlan p' (savePlan p store) = savePlan p' store).
Proof.
  intros p p' store. repeat split.
  - intros Hfound. rewrite savePlan_ids.
    destruct (existsb _ store) eqn:E; [reflexivity|].
    exfalso. apply Hfound, findPlan_None. intros q Hq Heq.
    apply not_true_iff_false in E. apply E, existsb_exists.
    exists q. split; [by apply list_elem_of_In|by apply String.eqb_eq].
  - apply savePlan_fresh.
  - intros Hnd. rewrite savePlan_ids.
    destruct (existsb _ store) eqn:E; [exact Hnd|].
    apply NoDup_app. split; [exact Hnd|]. split; [|apply NoDup_singleton].
    intros id Hid Hin. apply list_elem_of_singleton in Hin as ->.
    apply list_elem_of_In, in_map_iff in Hid as (q & Hq & Hin).
    apply not_true_iff_false in E. apply E, existsb_exists.
    exists q. split; [exact Hin|by apply String.eqb_eq].
  - intros Hid. induction store as [|q store IH]; simpl.
    + by rewrite Hid, String.eqb_refl.
    + destruct (String.eqb_spec (plan_id q) (plan_id p)) as [Heq|Hne]; simpl.
      * by rewrite Hid, Heq, String.eqb_refl.
      * rewrite Hid. destruct (String.eqb_spec (plan_id q) (plan_id p)); [done|].
        by rewrite IH.
Qed.

Lemma X2_witness :
  plan_id editedPlan = plan_id acmePlan /\
  findPlan (plan_id acmePlan) smallStore <> None /\
  NoDup (map plan_id smallStore) /\
  savePlan editedPlan (savePlan acmePlan smallStore) = [editedPlan; otherPlan].
Proof.
  destruct (X2_savePlan_is_upsert acmePlan editedPlan smallStore)
    as (_ & _ & _ & Htwice).
  split; [reflexivity|]. split; [discriminate|]. split.
  - apply NoDup_cons. split; [|apply NoDup_singleton].
    intros H. apply list_elem_of_singleton in H. discriminate H.
  - by rewrite (Htwice eq_refl).
Defined.

(** X3. After [deletePlan] no plan has the deleted id, every other
    id looks up as before, and the plans left keep their order. *)
Theorem X3_deletePlan_removes_only_that_id :
  forall (planId id : string) (store : PlanStore),
    findPlan id (deletePlan planId store)
    = (if String.eqb id planId then None else findPlan id store) /\
    (forall q, q ∈ deletePlan planId store <-> q ∈ store /\ plan_id q <> planId) /\
    sublist (deletePlan planId store) store.
Proof.
  intros planId id store. split; [apply findPlan_deletePlan|].
  unfold deletePlan. split.
  - intros q. rewrite !list_elem_of_In, filter_In, negb_true_iff, String.eqb_neq.
    reflexivity.
  - induction store as [|q store IH]; simpl; [constructor|].
    destruct (negb _); by constructor.
Qed.

(** X4. Deleting a plan that was saved under a new id gives the store
    back as it was. *)
Theorem X4_delete_undoes_save_of_new_id :
  forall (p : AccountPlan) (store : PlanStore),
    findPlan (plan_id p) store = None ->
    deletePlan (plan_id p) (savePlan p store) = store.
Proof.
  intros p store Hfresh. rewrite (savePlan_fresh _ _ Hfresh).
  unfold deletePlan. rewrite List.filter_app. simpl.
  rewrite String.eqb_refl. simpl. rewrite app_nil_r.
  by apply deletePlan_absent.
Qed.

Lemma X4_witness :
  findPlan (plan_id acmePlan) [otherPlan] = None /\
  deletePlan "p1" (savePlan acmePlan [otherPlan]) = [otherPlan].
Proof.
  split; [reflexivity|].
  exact (X4_delete_undoes_save_of_new_id acmePlan [otherPlan] eq_refl).
Defined.

(** X5. Duplicating an id that is not stored returns nothing and
    leaves the store alone. Duplicating a stored plan appends one
    plan: a copy of the first plan with that id under a new id, at
    version 1, titled "Copy of" the title (or the company when there
    is no title), stamped with the current time, with the owner,
    sections and history of the original; the original is unchanged
    and the copy shows up among its owner's plans. *)
Theorem X5_duplicatePlan_appends_a_copy :
  forall (planId : string) (env : Env) (store : PlanStore),
    (findPlan planId store = None ->
     duplicatePlan planId env store = (store, None)) /\
    (forall originalPlan,
        findPlan planId store = Some originalPlan ->
        exists newPlan,
          duplicatePlan planId env store = (store ++ [newPlan], Some newPlan) /\
          plan_id newPlan = duplicateId env /\
          plan_version newPlan = 1 /\
          plan_title newPlan = Some (copyTitle originalPlan) /\
          plan_createdAt newPlan = env_nowISO env /\
          plan_updatedAt newPlan = env_nowISO env /\
          plan_userId newPlan = plan_userId originalPlan /\
          plan_company newPlan = plan_company originalPlan /\
          plan_goal newPlan = plan_goal originalPlan /\
          plan_sections newPlan = plan_sections originalPlan /\
          plan_history newPlan = plan_history originalPlan /\
          findPlan planId (store ++ [newPlan]) = Some originalPlan /\
          getPlansForUser (plan_userId originalPlan) (store ++ [newPlan])
          = getPlansForUser (plan_userId originalPlan) store ++ [newPlan]).
Proof.
  intros planId env store. unfold duplicatePlan. split.
  - by intros ->.
  - intros originalPlan Hfound. rewrite Hfound.
    eexists. split; [reflexivity|]. simpl. repeat split.
    + by apply findPlan_app_found.
    + unfold getPlansForUser. rewrite List.filter_app. simpl.
      by rewrite String.eqb_refl.
Qed.

Lemma X5_witness :
  findPlan "p1" smallStore = Some acmePlan /\
  findPlan "p7" smallStore = None /\
  duplicatePlan "p7" env1 smallStore = (smallStore, None) /\
  exists newPlan,
    duplicatePlan "p1" env1 smallStore = (smallStore ++ [newPlan], Some newPlan) /\
    plan_title newPlan = Some "Copy of Acme" /\
    plan_version newPlan = 1.
Proof.
  destruct (X5_duplicatePlan_appends_a_copy "p7" env1 smallStore) as [Hmissing _].
  destruct (X5_duplicatePlan_appends_a_copy "p1" env1 smallStore) as [_ Hfound].
  destruct (Hfound acmePlan eq_refl) as (newPlan & Hdup & _ & Hversion & Htitle & _).
  split; [reflexivity|]. split; [reflexivity|]. split; [exact (Hmissing eq_refl)|].
  exists newPlan. repeat split; assumption.
Defined.

(** X6. A user is shown exactly the stored plans that carry that
    user's id; and saving a plan of someone else does not change what
    the user is shown, as long as none of the user's plans has the id
    saved. *)
Theorem X6_getPlansForUser_isolation :
  forall (userId : string) (store : PlanStore),
    (forall q, q ∈ getPlansForUser userId store
               <-> q ∈ store /\ plan_userId q = userId) /\
    (forall p,
        plan_userId p <> userId ->
        findPlan (plan_id p) (getPlansForUser userId store) = None ->
        getPlansForUser userId (savePlan p store) = getPlansForUser userId store).
Proof.
  intros userId store. split.
  - intros q. unfold getPlansForUser.
    by rewrite !list_elem_of_In, filter_In, String.eqb_eq.
  - intros p Huser. unfold getPlansForUser, findPlan.
    apply String.eqb_neq in Huser.
    induction store as [|q store IH]; simpl; [by rewrite Huser|].
    destruct (String.eqb_spec (plan_id q) (plan_id p)) as [Hid|Hid]; simpl.
    + rewrite Huser.
      destruct (String.eqb (plan_userId q) userId); simpl; [|reflexivity].
      apply String.eqb_eq in Hid. by rewrite Hid.
    + destruct (String.eqb (plan_userId q) userId); simpl; [|exact IH].
      apply String.eqb_neq in Hid. rewrite Hid. intros H. by rewrite IH.
Qed.

Lemma X6_witness :
  plan_userId otherPlan <> "user-123" /\
  findPlan (plan_id otherPlan) (getPlansForUser "user-123" [acmePlan]) = None /\
  getPlansForUser "user-123" (savePlan otherPlan [acmePlan]) = [acmePlan].
Proof.
  destruct (X6_getPlansForUser_isolation "user-123" [acmePlan]) as [_ Hsave].
  split; [discriminate|]. split; [reflexivity|].
  rewrite (Hsave otherPlan); [reflexivity|discriminate|reflexivity].
Defined.

(** ** Plan list *)

(** X7. Confirming a deletion removes the plan from the local store
    and from the list shown, leaves every other plan where it was,
    closes the dialog, and clears the selection exactly when the
    deleted plan was the selected one; with no deletion pending
    nothing happens. *)
Theorem X7_confirmDelete :
  forall (selectedPlanId : option string) (store : PlanStore) (st : SidebarState),
    (sb_planToDelete st = None ->
     confirmDelete selectedPlanId store st = (st, store, false)) /\
    (forall id name,
        sb_planToDelete st = Some (id, name) ->
        exists st' store' cleared,
          confirmDelete selectedPlanId store st = (st', store', cleared) /\
          (forall q, q ∈ sb_plans st' <-> q ∈ sb_plans st /\ plan_id q <> id) /\
          findPlan id store' = None /\
          (forall id', id' <> id -> findPlan id' store' = findPlan id' store) /\
          sb_planToDelete st' = None /\
          sb_activeMenuId st' = sb_activeMenuId st /\
          (cleared = true <-> selectedPlanId = Some id)).
Proof.
  intros selectedPlanId store st. unfold confirmDelete. split.
  - by intros ->.
  - intros id name ->. eexists _, _, _. split; [reflexivity|]. simpl.
    split; [|split; [|split; [|split; [|split]]]]; try reflexivity.
    + intros q. by rewrite !list_elem_of_In, filter_In, negb_true_iff, String.eqb_neq.
    + by rewrite findPlan_deletePlan, String.eqb_refl.
    + intros id' Hne. rewrite findPlan_deletePlan.
      apply String.eqb_neq in Hne. by rewrite Hne.
    + unfold isSelected. destruct selectedPlanId as [s|]; [|done].
      rewrite String.eqb_eq. split; [by intros ->|by intros [= ->]].
Qed.

Lemma X7_witness :
  sb_planToDelete (mkSidebarState smallStore None (Some ("p1", "Acme")))
    = Some ("p1", "Acme") /\
  confirmDelete (Some "p1") smallStore
    (mkSidebarState smallStore None (Some ("p1", "Acme")))
  = (mkSidebarState [otherPlan] None None, [otherPlan], true).
Proof.
  destruct (X7_confirmDelete (Some "p1") smallStore
              (mkSidebarState smallStore None (Some ("p1", "Acme")))) as [_ Hdel].
  destruct (Hdel "p1" "Acme" eq_refl) as (st' & store' & cleared & Hrun & _).
  split; [reflexivity|]. rewrite Hrun.
  vm_compute in Hrun. by injection Hrun as <- <- <-.
Defined.

(** ** The send cycle, continued *)

Lemma mintConversationId_truthy env : str_truthy (mintConversationId env) = true.
Proof. reflexivity. Qed.

(** X9. A dispatched request names the session one way only: with a
    plan id bound it carries that id and no conversation id; without
    one it carries a non-empty conversation id, the one of the render
    or, when that is empty, one minted on the spot and stored in the
    state. *)
Theorem X9_request_names_the_session :
  forall (cl : Render) (env : Env) (overrideMessage : option string)
         (isHidden : bool) (st st1 : ChatState) (req : SendRequest),
    handleSendMessage_begin cl env overrideMessage isHidden st = Some (st1, req) ->
    req_planId req = r_selectedPlanId cl /\
    (planIdBound (r_selectedPlanId cl) = true -> req_conversationId req = None) /\
    (planIdBound (r_selectedPlanId cl) = false ->
     exists c,
       req_conversationId req = Some c /\ str_truthy c = true /\
       (str_truthy (st_tempConversationId (r_state cl)) = true ->
        c = st_tempConversationId (r_state cl)) /\
       (str_truthy (st_tempConversationId (r_state cl)) = false ->
        c = mintConversationId env /\ st_tempConversationId st1 = c)).
Proof.
  intros cl env overrideMessage isHidden st st1 req.
  unfold handleSendMessage_begin, planIdBound.
  destruct (r_currentUser cl) as [u|]; [|discriminate].
  destruct (negb (trim_truthy _)); [discriminate|].
  intros [= <- <-]. simpl.
  destruct (optstr_truthy (r_selectedPlanId cl)); simpl.
  - split; [reflexivity|]. split; [reflexivity|discriminate].
  - split; [reflexivity|]. split; [discriminate|]. intros _.
    destruct (str_truthy (st_tempConversationId (r_state cl))) eqn:Htemp; simpl.
    + eexists. split; [reflexivity|]. split; [exact Htemp|]. split; [done|discriminate].
    + eexists. split; [reflexivity|]. split; [apply mintConversationId_truthy|].
      split; [discriminate|]. intros _. split; [reflexivity|].
      by destruct isHidden.
Qed.

Lemma X9_witness :
  exists st1 req,
    handleSendMessage_begin unboundRender env1 None false unboundState = Some (st1, req) /\
    req_planId req = None /\
    req_conversationId req = Some "new-1700000000000-k3j9x2m1a" /\
    st_tempConversationId st1 = "new-1700000000000-k3j9x2m1a".
Proof.
  destruct (handleSendMessage_begin unboundRender env1 None false unboundState)
    as [[st1 req]|] eqn:Hbegin; [|discriminate].
  destruct (X9_request_names_the_session unboundRender env1 None false
              unboundState st1 req Hbegin) as (Hplan & _ & Hunbound).
  destruct (Hunbound eq_refl) as (c & Hconv & _ & _ & Hmint).
  destruct (Hmint eq_refl) as [-> Hstored].
  exists st1, req. split; [reflexivity|]. split; [exact Hplan|].
  split; [exact Hconv|exact Hstored].
Defined.

(** X10. A visible send captures the pending attachments in the
    request and clears them, empties the input, drops the progress
    display, records the start time, and turns a proposed plan into
    the active one before clearing the proposal (without a proposal
    the active plan stays). *)
Theorem X10_visible_send_bookkeeping :
  forall (cl : Render) (env : Env) (overrideMessage : option string)
         (st st1 : ChatState) (req : SendRequest),
    handleSendMessage_begin cl env overrideMessage false st = Some (st1, req) ->
    req_fileIds req = map file_id (st_attachedFiles (r_state cl)) /\
    req_message req = messageContent cl overrideMessage /\
    st_attachedFiles st1 = [] /\
    st_inputValue st1 = "" /\
    st_researchProgress st1 = None /\
    st_latestProgressRef st1 = None /\
    st_researchStartTime st1 = env_now env /\
    st_isResearching st1 = true /\
    st_proposedPlan st1 = None /\
    st_activeResearchPlan st1
    = js_or (st_proposedPlan (r_state cl)) (st_activeResearchPlan st).
Proof.
  intros cl env overrideMessage st st1 req.
  unfold handleSendMessage_begin.
  destruct (r_currentUser cl) as [u|]; [|discriminate].
  destruct (negb (trim_truthy _)); [discriminate|].
  intros [= <- <-]. unfold optimisticUpdate.
  destruct (negb _ && negb _), (st_proposedPlan (r_state cl)); simpl; by repeat split.
Qed.

Lemma X10_witness :
  exists st1 req,
    handleSendMessage_begin unboundRender env1 None false unboundState = Some (st1, req) /\
    req_fileIds req = ["1"] /\
    st_attachedFiles st1 = [] /\
    st_proposedPlan st1 = None /\
    st_activeResearchPlan st1 = Some [mkResearchTask "Find revenue" None].
Proof.
  destruct (handleSendMessage_begin unboundRender env1 None false unboundState)
    as [[st1 req]|] eqn:Hbegin; [|discriminate].
  destruct (X10_visible_send_bookkeeping unboundRender env1 None
              unboundState st1 req Hbegin)
    as (Hids & _ & Hfiles & _ & _ & _ & _ & _ & Hprop & Hactive).
  exists st1, req. split; [reflexivity|]. by repeat split.
Defined.

(** X11. A hidden send writes the research status and, when it mints
    a conversation id, that id; the transcript, the input, the pending
    attachments, the proposal, the active plan, the progress display
    and the start time are left as they are. *)
Theorem X11_hidden_send_frame :
  forall (cl : Render) (env : Env) (overrideMessage : option string)
         (st st1 : ChatState) (req : SendRequest),
    handleSendMessage_begin cl env overrideMessage true st = Some (st1, req) ->
    st_isResearching st1 = true /\
    st_messages st1 = st_messages st /\
    st_inputValue st1 = st_inputValue st /\
    st_attachedFiles st1 = st_attachedFiles st /\
    st_proposedPlan st1 = st_proposedPlan st /\
    st_activeResearchPlan st1 = st_activeResearchPlan st /\
    st_researchProgress st1 = st_researchProgress st /\
    st_latestProgressRef st1 = st_latestProgressRef st /\
    st_researchStartTime st1 = st_researchStartTime st /\
    st_currentPlan st1 = st_currentPlan st /\
    (st_tempConversationId st1 = st_tempConversationId st \/
     st_tempConversationId st1 = mintConversationId env).
Proof.
  intros cl env overrideMessage st st1 req.
  unfold handleSendMessage_begin.
  destruct (r_currentUser cl) as [u|]; [|discriminate].
  destruct (negb (trim_truthy _)); [discriminate|].
  intros [= <- <-].
  destruct (negb _ && negb _); simpl; repeat split; (by left) || (by right).
Qed.

Lemma X11_witness :
  exists st1 req,
    handleSendMessage_begin boundRender env2 (Some CONTINUE_RESEARCH) true boundState
    = Some (st1, req) /\
    st_messages st1 = [local_m1] /\
    st_inputValue st1 = "hello".
Proof.
  destruct (handleSendMessage_begin boundRender env2 (Some CONTINUE_RESEARCH) true
              boundState) as [[st1 req]|] eqn:Hbegin; [|discriminate].
  destruct (X11_hidden_send_frame boundRender env2 (Some CONTINUE_RESEARCH)
              boundState st1 req Hbegin) as (_ & Hmsgs & Hinput & _).
  exists st1, req. by repeat split.
Defined.

Lemma elem_of_planEffects cl updatedPlan e :
  e ∈ planEffects cl updatedPlan ->
  match e with
  | ScheduleContinuation _ _ | Dispatch _ => False
  | _ => True
  end.
Proof.
  unfold planEffects. destruct updatedPlan as [p|]; [|by intros H; apply elem_of_nil in H].
  destruct (r_onPlanUpdated cl),
    (negb (optstr_truthy (r_selectedPlanId cl)) && str_truthy (plan_id p)),
    (r_onPlanCreated cl); simpl;
    rewrite ?elem_of_cons, ?elem_of_nil; intros H;
    repeat destruct H as [H|H]; by subst.
Qed.

(** X12. After a resolved dispatch the research status is what the
    response reports: researching exactly when the status field is
    [researching]. A continuation is scheduled in that case and in no
    other, after 100 ms, for the handler of the same render, as the
    last effect. The proposal and the progress display are replaced
    when the response carries new ones and kept otherwise. *)
Theorem X12_status_drives_continuation :
  forall (cl : Render) (env' : Env) (response : SendResponse)
         (st1 st2 : ChatState) (effects : list Effect),
    handleSendMessage_success cl env' response st1 = Some (st2, effects) ->
    st_isResearching st2 = isResearchingStatus (resp_researchStatus response) /\
    (forall delay closure,
        ScheduleContinuation delay closure ∈ effects
        <-> isResearchingStatus (resp_researchStatus response) = true
            /\ delay = 100 /\ closure = cl) /\
    (isResearchingStatus (resp_researchStatus response) = true ->
     last effects = Some (ScheduleContinuation 100 cl)) /\
    st_proposedPlan st2 = js_or (resp_researchPlan response) (st_proposedPlan st1) /\
    st_researchProgress st2 = js_or (resp_progress response) (st_researchProgress st1).
Proof.
  intros cl env' response st1 st2 effects Hsucc.
  destruct (success_inv _ _ _ _ _ _ Hsucc) as (-> & Hres & Hprop & Hprog & _).
  split; [exact Hres|]. split; [|split; [|by split]].
  - intros delay closure. rewrite elem_of_app. unfold statusEffects. split.
    + intros [Hin|Hin]; [by apply elem_of_planEffects in Hin|].
      destruct (isResearchingStatus _).
      * apply list_elem_of_singleton in Hin. by injection Hin as -> ->.
      * destruct (r_onPlanUpdated cl);
          [apply list_elem_of_singleton in Hin; discriminate Hin
          |by apply elem_of_nil in Hin].
    + intros (-> & -> & ->). right. left.
  - intros Hstatus. unfold statusEffects. rewrite Hstatus. apply last_snoc.
Qed.

Lemma X12_witness :
  exists st2 effects,
    handleSendMessage_success unboundRender env2 createdResponse unboundState
    = Some (st2, effects) /\
    st_isResearching st2 = true /\
    last effects = Some (ScheduleContinuation 100 unboundRender).
Proof.
  destruct (handleSendMessage_success unboundRender env2 createdResponse unboundState)
    as [[st2 effects]|] eqn:Hsucc; [|discriminate].
  destruct (X12_status_drives_continuation unboundRender env2 createdResponse
              unboundState st2 effects Hsucc) as (Hres & _ & Hlast & _).
  exists st2, effects. split; [reflexivity|]. split; [exact Hres|].
  exact (Hlast eq_refl).
Defined.

Lemma elem_of_statusEffects cl status e :
  e ∈ statusEffects cl status ->
  match e with
  | ScheduleContinuation _ _ | PlanUpdated => True
  | _ => False
  end.
Proof.
  unfold statusEffects.
  destruct (isResearchingStatus status); [|destruct (r_onPlanUpdated cl)];
    rewrite ?elem_of_cons, ?elem_of_nil; intros H;
    repeat destruct H as [H|H]; by subst.
Qed.

(** X13. When the response carries a document it becomes the current
    plan and is saved to the local store. The session is rebound to
    it (the creation callback is called with its id, or the page is
    reloaded when there is no callback) exactly when no plan id was
    bound and the document has an id. Without a document the current
    plan stays and none of this happens. *)
Theorem X13_updated_plan_rebinds_unbound_session :
  forall (cl : Render) (env' : Env) (response : SendResponse)
         (st1 st2 : ChatState) (effects : list Effect),
    handleSendMessage_success cl env' response st1 = Some (st2, effects) ->
    (forall p,
        resp_updatedPlan response = Some p ->
        st_currentPlan st2 = Some p /\
        SavePlan p ∈ effects /\
        (forall id,
            PlanCreated id ∈ effects
            <-> id = plan_id p /\ planIdBound (r_selectedPlanId cl) = false
                /\ str_truthy (plan_id p) = true /\ r_onPlanCreated cl = true) /\
        (Reload ∈ effects
         <-> planIdBound (r_selectedPlanId cl) = false
             /\ str_truthy (plan_id p) = true /\ r_onPlanCreated cl = false)) /\
    (resp_updatedPlan response = None ->
     st_currentPlan st2 = st_currentPlan st1 /\
     forall e, e ∈ effects ->
               match e with
               | SavePlan _ | PlanCreated _ | Reload => False
               | _ => True
               end).
Proof.
  intros cl env' response st1 st2 effects Hsucc.
  destruct (success_inv _ _ _ _ _ _ Hsucc) as (-> & _ & _ & _ & _ & Hplan & _).
  split.
  - intros p Hp. rewrite Hp in *. split; [exact Hplan|].
    assert (Hstatus : forall e, e ∈ statusEffects cl (resp_researchStatus response) ->
                                match e with
                                | ScheduleContinuation _ _ | PlanUpdated => True
                                | _ => False
                                end) by (intros e; apply elem_of_statusEffects).
    unfold planEffects, planIdBound. split; [|split].
    + apply elem_of_app. left. left.
    + intros id. rewrite elem_of_app. split.
      * intros [Hin|Hin]; [|by apply Hstatus in Hin].
        destruct (r_onPlanUpdated cl), (optstr_truthy (r_selectedPlanId cl)),
          (str_truthy (plan_id p)), (r_onPlanCreated cl); simpl in Hin;
          rewrite ?elem_of_cons, ?elem_of_nil in Hin;
          repeat destruct Hin as [Hin|Hin]; try discriminate Hin; try done;
          by injection Hin as ->.
      * intros (-> & -> & -> & ->). left. simpl.
        destruct (r_onPlanUpdated cl); repeat ((by left) || right).
    + rewrite elem_of_app. split.
      * intros [Hin|Hin]; [|by apply Hstatus in Hin].
        destruct (r_onPlanUpdated cl), (optstr_truthy (r_selectedPlanId cl)),
          (str_truthy (plan_id p)), (r_onPlanCreated cl); simpl in Hin;
          rewrite ?elem_of_cons, ?elem_of_nil in Hin;
          repeat destruct Hin as [Hin|Hin]; try discriminate Hin; done.
      * intros (-> & -> & ->). left. simpl.
        destruct (r_onPlanUpdated cl); repeat ((by left) || right).
  - intros Hnone. rewrite Hnone in *. split; [exact Hplan|].
    intros e He. simpl in He. apply elem_of_statusEffects in He. by destruct e.
Qed.

Lemma X13_witness :
  resp_updatedPlan createdResponse = Some acmePlan /\
  exists st2 effects,
    handleSendMessage_success unboundRender env2 createdResponse unboundState
    = Some (st2, effects) /\
    st_currentPlan st2 = Some acmePlan /\
    PlanCreated "p1" ∈ effects.
Proof.
  split; [reflexivity|].
  destruct (handleSendMessage_success unboundRender env2 createdResponse unboundState)
    as [[st2 effects]|] eqn:Hsucc; [|discriminate].
  destruct (X13_updated_plan_rebinds_unbound_session unboundRender env2
              createdResponse unboundState st2 effects Hsucc) as [Hsome _].
  destruct (Hsome acmePlan eq_refl) as (Hplan & _ & Hcreated & _).
  exists st2, effects. split; [reflexivity|]. split; [exact Hplan|].
  apply Hcreated. by repeat split.
Defined.

(** X14. When research has just ended (the render was researching,
    the response reports another status, a progress record is at hand)
    the last message of the transcript, if it is an assistant message,
    takes that record together with the time elapsed since the
    recorded start, in seconds; a last user message is left alone, and
    so is every message before the last. *)
Theorem X14_completion_marker_on_last_message :
  forall (cl : Render) (env' : Env) (response : SendResponse) (st1 : ChatState)
         (fp : ResearchProgress) (init : list ChatMessage) (m : ChatMessage),
    completionDue cl response st1 = Some fp ->
    st_messages (reconcile (resp_assistantMessages response) st1) = init ++ [m] ->
    exists st2 effects,
      handleSendMessage_success cl env' response st1 = Some (st2, effects) /\
      st_messages st2
      = init ++ [match msg_role m with
                 | assistant =>
                   withResearchProgress
                     (Some (mkResearchProgress
                              (rp_current_step fp) (rp_total_steps fp)
                              (rp_label fp) (rp_visual fp) (rp_tasks fp)
                              (Some (Qmake (env_now env'
                                            - st_researchStartTime (r_state cl))
                                           1000))))
                     m
                 | user => m
                 end].
Proof.
  intros cl env' response st1 fp init m Hdue Hmsgs.
  destruct (handleSendMessage_success cl env' response st1)
    as [[st2 effects]|] eqn:Hsucc.
  - exists st2, effects. split; [reflexivity|].
    destruct (success_inv _ _ _ _ _ _ Hsucc) as (_ & _ & _ & _ & _ & _ & Hmarker).
    rewrite Hdue, Hmsgs, attachCompletion_snoc in Hmarker.
    by injection Hmarker as <-.
  - apply success_None in Hsucc as [_ Hempty].
    rewrite Hmsgs in Hempty. by destruct init.
Qed.

Lemma X14_witness :
  completionDue researchingRender doneResponse researchingState = Some stepProgress /\
  exists st2 effects,
    handleSendMessage_success researchingRender env2 doneResponse researchingState
    = Some (st2, effects) /\
    st_messages st2
    = [userMessage env1 "Research Acme";
       withResearchProgress
         (Some (mkResearchProgress 3 3 "Done" "" None (Some (Qmake 900 1000))))
         auth_m1].
Proof.
  split; [reflexivity|].
  exact (X14_completion_marker_on_last_message researchingRender env2 doneResponse
           researchingState stepProgress [userMessage env1 "Research Acme"] auth_m1
           eq_refl eq_refl).
Defined.

(** X15. The completion updater reads the role of the last message
    without checking that there is one: when the marker is due and the
    transcript is empty (as it is between a switch of the session and
    the arrival of its history) the updater throws, and that is the
    only way the resolved path fails. *)
Theorem X15_completion_on_empty_transcript_throws :
  forall (cl : Render) (env' : Env) (response : SendResponse) (st1 : ChatState),
    handleSendMessage_success cl env' response st1 = None
    <-> (exists fp, completionDue cl response st1 = Some fp)
        /\ st_messages (reconcile (resp_assistantMessages response) st1) = [].
Proof. intros cl env' response st1. apply success_None. Qed.

Lemma X15_witness :
  handleSendMessage_success researchingRender env2 doneResponse
    (resetSession researchingState) = None.
Proof.
  apply X15_completion_on_empty_transcript_throws.
  split; [by exists stepProgress|reflexivity].
Defined.

(** ** Session (re)initialisation, continued *)

(** X16. Whatever the new binding and however the history fetch
    ends, a switch leaves the session idle with no progress, proposal
    or active plan; it does not touch the input text, the pending
    attachments or the mention state. For a bound plan whose history
    has messages the transcript is that history, with no welcome
    message, the available files are the ones the service lists, the
    ephemeral conversation id is cleared and the current plan is the
    one found in the user's local plans. *)
Theorem X16_switch_resets_research_state :
  forall (selectedPlanId : option string) (currentUser : option User)
         (store : PlanStore) (env env' : Env) (outcome : HistoryOutcome)
         (st : ChatState),
    let st' := switchBinding selectedPlanId currentUser store env env' outcome st in
    st_isResearching st' = false /\
    st_researchProgress st' = None /\
    st_proposedPlan st' = None /\
    st_activeResearchPlan st' = None /\
    st_latestProgressRef st' = None /\
    st_inputValue st' = st_inputValue st /\
    st_attachedFiles st' = st_attachedFiles st /\
    st_mentionQuery st' = st_mentionQuery st /\
    st_mentionIndex st' = st_mentionIndex st /\
    (forall planId u data,
        selectedPlanId = Some planId -> planIdBound selectedPlanId = true ->
        currentUser = Some u ->
        outcome = HistoryLoaded data -> hist_messages data <> [] ->
        st_messages st' = hist_messages data /\
        st_availableFiles st' = default [] (hist_attachedFiles data) /\
        st_tempConversationId st' = "" /\
        st_currentPlan st' = findPlan planId (getPlansForUser (user_id u) store)).
Proof.
  intros selectedPlanId currentUser store env env' outcome st st'. subst st'.
  unfold switchBinding, bindingEffect_begin, planIdBound.
  destruct selectedPlanId as [planId|], currentUser as [u|]; simpl;
    try destruct (str_truthy planId) eqn:Hbound; simpl.
  all: try (repeat split; (discriminate || done)).
  destruct outcome as [[[|m ms] files]|]; simpl; repeat split; by simplify_eq/=.
Qed.

Lemma X16_witness :
  let st' := switchBinding (Some "p1") (Some alice) [acmePlan] env1 env2 p1History
               unboundState in
  st_messages st' = [userMessage env1 "Research Acme"; auth_m1] /\
  st_availableFiles st' = [reportPdf] /\
  st_proposedPlan st' = None /\
  st_attachedFiles st' = [reportPdf] /\
  st_inputValue st' = "Research Acme".
Proof.
  intros st'.
  destruct (X16_switch_resets_research_state (Some "p1") (Some alice) [acmePlan]
              env1 env2 p1History unboundState)
    as (_ & _ & Hprop & _ & _ & Hinput & Hfiles & _ & _ & Hbound).
  destruct (Hbound "p1" alice
              (mkChatHistory [userMessage env1 "Research Acme"; auth_m1]
                 (Some [reportPdf]))
              eq_refl eq_refl eq_refl eq_refl) as (Hmsgs & Havail & _); [discriminate|].
  by repeat split.
Defined.

(** ** Mention and attachment resolver, continued *)

Section LastIndexOf.

Implicit Types (c : ascii) (s a b : string) (i found : Z).

Lemma string_cons_app (x : ascii) a b : String x a +:+ b = String x (a +:+ b).
Proof. reflexivity. Qed.

Lemma lastIndexOf_from_absent c s i found :
  hasChar c s = false -> lastIndexOf_from c s i found = found.
Proof.
  revert i found. induction s as [|x s IH]; intros i found; simpl; [done|].
  intros H. apply orb_false_elim in H as [Hx Hs]. rewrite Hx. by apply IH.
Qed.

Lemma lastIndexOf_from_found c s i found :
  lastIndexOf_from c s i found = found
  \/ exists n, lastIndexOf_from c s i found = i + Z.of_nat n
               /\ String.get n s = Some c.
Proof.
  revert i found. induction s as [|x s IH]; intros i found; simpl; [by left|].
  destruct (IH (i + 1) (if Ascii.eqb x c then i else found)) as [Hr|(n & Hr & Hn)].
  - rewrite Hr. destruct (Ascii.eqb_spec x c) as [->|_]; [|by left].
    right. exists 0%nat. split; [lia|reflexivity].
  - right. exists (S n). split; [lia|exact Hn].
Qed.

Lemma lastIndexOf_from_last c a b i found :
  hasChar c b = false ->
  lastIndexOf_from c (a +:+ String c b) i found = i + str_len a.
Proof.
  intros Hb. revert i found. induction a as [|x a IH]; intros i found.
  - change (lastIndexOf_from c b (i + 1) (if Ascii.eqb c c then i else found)
            = i + 0).
    rewrite Ascii.eqb_refl, lastIndexOf_from_absent by exact Hb. lia.
  - rewrite string_cons_app. simpl. rewrite IH. unfold str_len. simpl. lia.
Qed.

Lemma prefix_empty s : String.prefix "" s = true.
Proof. by destruct s. Qed.

Lemma js_includes_char c s : js_includes (String c EmptyString) s = hasChar c s.
Proof.
  induction s as [|x s IH]; simpl; [reflexivity|].
  rewrite IH. destruct (ascii_dec c x) as [->|Hne].
  - by rewrite prefix_empty, Ascii.eqb_refl.
  - destruct (Ascii.eqb_spec x c); [congruence|reflexivity].
Qed.

(** [(a + b).substring(a.length, (a + b).length)] is [b]. *)
Lemma js_substring_suffix_end a b :
  js_substring (a +:+ b) (str_len a) (Some (str_len (a +:+ b))) = b.
Proof.
  unfold js_substring, clampIndex, str_len. rewrite string_length_app.
  set (la := String.length a). set (lb := String.length b).
  replace (Z.max 0 (Z.min (Z.of_nat la) (Z.of_nat (la + lb))))
    with (Z.of_nat la) by lia.
  replace (Z.max 0 (Z.min (Z.of_nat (la + lb)) (Z.of_nat (la + lb))))
    with (Z.of_nat (la + lb)) by lia.
  replace (Z.min (Z.of_nat la) (Z.of_nat (la + lb))) with (Z.of_nat la) by lia.
  replace (Z.max (Z.of_nat la) (Z.of_nat (la + lb)) - Z.of_nat la)
    with (Z.of_nat lb) by lia.
  rewrite !Nat2Z.id. subst la lb. rewrite substring_skip. apply substring_all.
Qed.

End LastIndexOf.

(** X17. After any change of the input the mention state is
    consistent: either closed (no query, index -1) or open with the
    index of the last [@] of the text, which lies before the caret,
    and the query the text between that [@] and the caret, free of
    spaces. A text without [@] always closes it. Nothing but the
    input and the mention state is written: the state afterwards is
    the state before with these three cells set. *)
Theorem X17_input_change_keeps_mention_state_consistent :
  forall (val : string) (selectionStart : Z) (st : ChatState),
    let st' := handleInputChange val selectionStart st in
    st_inputValue st' = val /\
    (st_mentionQuery st' = None /\ st_mentionIndex st' = -1
     \/ exists query,
         st_mentionQuery st' = Some query /\
         st_mentionIndex st' = js_lastIndexOf "@" val /\
         0 <= st_mentionIndex st' < selectionStart /\
         String.get (Z.to_nat (st_mentionIndex st')) val = Some "@"%char /\
         query = js_substring val (st_mentionIndex st' + 1) (Some selectionStart) /\
         hasChar " " query = false) /\
    (hasChar "@" val = false -> st_mentionQuery st' = None) /\
    st_messages st' = st_messages st /\
    st_attachedFiles st' = st_attachedFiles st /\
    st_availableFiles st' = st_availableFiles st /\
    st_isResearching st' = st_isResearching st /\
    st' = setMentionIndex (st_mentionIndex st')
            (setMentionQuery (st_mentionQuery st') (setInputValue val st)).
Proof.
  intros val selectionStart st st'.
  assert (Hframe : st' = setMentionIndex (st_mentionIndex st')
                           (setMentionQuery (st_mentionQuery st')
                              (setInputValue val st))).
  { subst st'. unfold handleInputChange.
    by destruct (if js_lastIndexOf "@" val =? -1 then _ else _) as [[query lastAt]|]. }
  cut (st_inputValue st' = val /\
       (st_mentionQuery st' = None /\ st_mentionIndex st' = -1
        \/ exists query,
            st_mentionQuery st' = Some query /\
            st_mentionIndex st' = js_lastIndexOf "@" val /\
            0 <= st_mentionIndex st' < selectionStart /\
            String.get (Z.to_nat (st_mentionIndex st')) val = Some "@"%char /\
            query = js_substring val (st_mentionIndex st' + 1) (Some selectionStart) /\
            hasChar " " query = false) /\
       (hasChar "@" val = false -> st_mentionQuery st' = None) /\
       st_messages st' = st_messages st /\
       st_attachedFiles st' = st_attachedFiles st /\
       st_availableFiles st' = st_availableFiles st /\
       st_isResearching st' = st_isResearching st).
  { intros (H1 & H2 & H3 & H4 & H5 & H6 & H7).
    repeat (split; [assumption|]). exact Hframe. }
  clear Hframe.
  subst st'. unfold handleInputChange.
  assert (Habsent : hasChar "@" val = false -> js_lastIndexOf "@" val = -1)
    by apply lastIndexOf_from_absent.
  destruct (js_lastIndexOf "@" val =? -1) eqn:Hat.
  { simpl. repeat split; by left. }
  apply Z.eqb_neq in Hat.
  destruct (selectionStart >? js_lastIndexOf "@" val) eqn:Hcaret;
    [|simpl; repeat split; (by left) || (intros H; by apply Habsent in H)].
  destruct (js_includes " " (js_substring val (js_lastIndexOf "@" val + 1)
                               (Some selectionStart))) eqn:Hspace;
    [simpl; repeat split; (by left) || (intros H; by apply Habsent in H)|].
  simpl. split; [reflexivity|]. split; [|repeat split; intros H; by apply Habsent in H].
  right. eexists. split; [reflexivity|]. split; [reflexivity|].
  apply Z.gtb_lt in Hcaret.
  destruct (lastIndexOf_from_found "@" val 0 (-1)) as [Hr|(n & Hr & Hn)];
    [by unfold js_lastIndexOf in Hat|].
  fold (js_lastIndexOf "@"%char val) in Hr.
  split; [lia|]. split; [|split; [reflexivity|]].
  - rewrite Hr. replace (Z.to_nat (0 + Z.of_nat n)) with n by lia. exact Hn.
  - by rewrite <- js_includes_char.
Qed.

Lemma string_app_nil_r (s : string) : s +:+ "" = s.
Proof.
  induction s as [|x s IH]; [reflexivity|].
  rewrite string_cons_app. by rewrite IH.
Qed.

(** A selection while the token [@query] is open at the end of [pre]. *)
Lemma handleMentionSelect_open st file (pre query post : string) :
  st_inputValue st = pre +:+ "@" +:+ query +:+ post ->
  st_mentionIndex st = str_len pre ->
  st_mentionQuery st = Some query ->
  st_inputValue (handleMentionSelect file st)
  = pre +:+ "@" +:+ fileDisplayName "file" file +:+ " " +:+ post /\
  st_mentionQuery (handleMentionSelect file st) = None /\
  st_mentionIndex (handleMentionSelect file st) = -1 /\
  st_attachedFiles (handleMentionSelect file st)
  = (if existsb (fun f => sameFileId f file) (st_attachedFiles st)
     then st_attachedFiles st
     else st_attachedFiles st ++ [file]).
Proof.
  intros Hinput Hindex Hquery.
  assert (Hopen : (st_mentionIndex st =? -1) = false).
  { apply Z.eqb_neq. rewrite Hindex. unfold str_len. lia. }
  assert (Hbefore : js_substring (st_inputValue st) 0 (Some (st_mentionIndex st)) = pre).
  { rewrite Hinput, Hindex. apply js_substring_prefix. }
  assert (Hafter : js_substring (st_inputValue st)
                     (st_mentionIndex st + str_len query + 1) None = post).
  { rewrite Hinput, Hindex.
    replace (pre +:+ "@" +:+ query +:+ post)
      with ((pre +:+ "@" +:+ query) +:+ post)
      by (rewrite !string_app_assoc; reflexivity).
    replace (str_len pre + str_len query + 1) with (str_len (pre +:+ "@" +:+ query)).
    - apply js_substring_suffix.
    - unfold str_len. rewrite !string_length_app. simpl. lia. }
  unfold handleMentionSelect. rewrite Hopen, Hquery, Hbefore, Hafter.
  by destruct (existsb _ (st_attachedFiles st)).
Qed.

(** X18. Typing a text that ends in [@] followed by a query without
    [@] or space, caret at the end, opens the token at that [@] with
    that query; selecting a file then replaces the query by the file
    name and a space, closes the token, and a second click on the
    same suggestion changes nothing. *)
Theorem X18_type_then_select :
  forall (st : ChatState) (file : AttachedFile) (pre query : string),
    hasChar "@" query = false ->
    hasChar " " query = false ->
    let val := pre +:+ "@" +:+ query in
    let typed := handleInputChange val (str_len val) st in
    let chosen := handleMentionSelect file typed in
    st_mentionIndex typed = str_len pre /\
    st_mentionQuery typed = Some query /\
    st_inputValue chosen = pre +:+ "@" +:+ fileDisplayName "file" file +:+ " " /\
    st_mentionQuery chosen = None /\
    st_mentionIndex chosen = -1 /\
    handleMentionSelect file chosen = chosen.
Proof.
  intros st file pre query Hat Hspace val typed chosen.
  assert (Hlast : js_lastIndexOf "@" val = str_len pre).
  { unfold js_lastIndexOf. subst val.
    change (pre +:+ "@" +:+ query) with (pre +:+ String "@" query).
    rewrite (lastIndexOf_from_last "@" pre query 0 (-1) Hat). lia. }
  assert (Hlen : str_len val = str_len pre + 1 + str_len query).
  { subst val. unfold str_len. rewrite !string_length_app. simpl. lia. }
  assert (Hquery : js_substring val (str_len pre + 1) (Some (str_len val)) = query).
  { subst val.
    replace (pre +:+ "@" +:+ query) with ((pre +:+ "@") +:+ query)
      by (by rewrite string_app_assoc).
    replace (str_len pre + 1) with (str_len (pre +:+ "@"))
      by (unfold str_len; rewrite string_length_app; simpl; lia).
    apply js_substring_suffix_end. }
  assert (Htyped : typed
                   = setMentionIndex (str_len pre)
                       (setMentionQuery (Some query) (setInputValue val st))).
  { subst typed. unfold handleInputChange. rewrite Hlast, Hquery.
    replace (str_len pre =? -1) with false
      by (symmetry; apply Z.eqb_neq; unfold str_len; lia).
    replace (str_len val >? str_len pre) with true
      by (symmetry; apply Z.gtb_lt; unfold str_len in *; lia).
    by rewrite js_includes_char, Hspace. }
  assert (Hinput : st_inputValue typed = pre +:+ "@" +:+ query +:+ "")
    by (rewrite Htyped, string_app_nil_r; reflexivity).
  assert (Hindex : st_mentionIndex typed = str_len pre) by (by rewrite Htyped).
  assert (Hq : st_mentionQuery typed = Some query) by (by rewrite Htyped).
  destruct (handleMentionSelect_open typed file pre query "" Hinput Hindex Hq)
    as (Hvalue & Hclosed & Hidx & _).
  subst chosen. split; [exact Hindex|]. split; [exact Hq|].
  split; [by rewrite Hvalue, string_app_nil_r|]. split; [exact Hclosed|].
  split; [exact Hidx|].
  unfold handleMentionSelect at 1. by rewrite Hidx.
Qed.

Lemma X18_witness :
  hasChar "@" "NOT" = false /\ hasChar " " "NOT" = false /\
  st_inputValue
    (handleMentionSelect notesTxt
       (handleInputChange "compare @report.pdf with @NOT" 29 mentionState))
  = "compare @report.pdf with @notes.txt ".
Proof.
  split; [reflexivity|]. split; [reflexivity|].
  destruct (X18_type_then_select mentionState notesTxt "compare @report.pdf with "
              "NOT" eq_refl eq_refl) as (_ & _ & Hvalue & _).
  exact Hvalue.
Defined.

(** X19. Detaching a file removes every pending attachment with its
    id and nothing else, keeps the order of the rest, is idempotent,
    and undoes the attachment made by a mention selection of a file
    that was not attached before. *)
Theorem X19_removeFile_detaches :
  forall (fileId : string) (st : ChatState),
    let st' := removeFile fileId st in
    (forall f, f ∈ st_attachedFiles st'
               <-> f ∈ st_attachedFiles st /\ file_id f <> fileId) /\
    sublist (st_attachedFiles st') (st_attachedFiles st) /\
    removeFile fileId st' = st' /\
    st_inputValue st' = st_inputValue st /\
    st_messages st' = st_messages st /\
    (forall file,
        file_id file = fileId ->
        st_mentionIndex st <> -1 ->
        (forall f, f ∈ st_attachedFiles st -> file_id f <> fileId) ->
        st_attachedFiles (removeFile fileId (handleMentionSelect file st))
        = st_attachedFiles st).
Proof.
  intros fileId st st'. subst st'. unfold removeFile. simpl.
  assert (Hkeep : forall l : list AttachedFile,
             (forall f, f ∈ l -> file_id f <> fileId) ->
             List.filter (fun f => negb (String.eqb (file_id f) fileId)) l = l).
  { induction l as [|f l IH]; simpl; intros Hl; [reflexivity|].
    destruct (String.eqb_spec (file_id f) fileId) as [Heq|Hne]; simpl.
    - exfalso. by apply (Hl f); [left|].
    - rewrite IH; [reflexivity|]. intros g Hg. apply Hl. by right. }
  split; [|split; [|split; [|split; [|split]]]]; try reflexivity.
  - intros f. by rewrite !list_elem_of_In, filter_In, negb_true_iff, String.eqb_neq.
  - induction (st_attachedFiles st) as [|f l IH]; simpl; [constructor|].
    destruct (negb _); by constructor.
  - unfold setAttachedFiles. simpl. f_equal. apply Hkeep.
    intros f Hf. apply list_elem_of_In, filter_In in Hf as [_ Hf].
    by apply negb_true_iff, String.eqb_neq in Hf.
  - intros file Hid Hopen Hfresh. unfold handleMentionSelect.
    apply Z.eqb_neq in Hopen. rewrite Hopen.
    destruct (existsb (fun f => sameFileId f file) (st_attachedFiles st)) eqn:Hex.
    + apply existsb_exists in Hex as (f & Hin & Hsame).
      apply String.eqb_eq in Hsame. exfalso.
      apply (Hfresh f); [by apply list_elem_of_In|congruence].
    + simpl. rewrite List.filter_app. simpl. rewrite Hid, String.eqb_refl. simpl.
      rewrite app_nil_r. by apply Hkeep.
Qed.

Lemma X19_witness :
  let typed := handleInputChange "see @rep" 8 mentionState in
  file_id reportPdf = "1" /\
  st_mentionIndex typed <> -1 /\
  st_attachedFiles (handleMentionSelect reportPdf typed) = [reportPdf] /\
  st_attachedFiles (removeFile "1" (handleMentionSelect reportPdf typed)) = [].
Proof.
  intros typed.
  destruct (X19_removeFile_detaches "1" typed) as (_ & _ & _ & _ & _ & Hundo).
  split; [reflexivity|]. split; [discriminate|]. split; [reflexivity|].
  apply (Hundo reportPdf); [reflexivity|discriminate|].
  intros f Hf. by apply elem_of_nil in Hf.
Defined.

Section AllFiles.

Implicit Types (acc av att extra : list AttachedFile) (f g : AttachedFile).

Lemma allFiles_spec att :
  forall acc,
    exists extra,
      allFiles acc att = acc ++ extra /\
      sublist extra att /\
      (forall f, f ∈ extra -> forall a, a ∈ acc -> file_id a <> file_id f) /\
      (forall f, f ∈ att -> exists g, g ∈ acc ++ extra /\ file_id g = file_id f) /\
      (NoDup (map file_id acc) -> NoDup (map file_id (acc ++ extra))).
Proof.
  unfold allFiles. induction att as [|f att IH]; intros acc; simpl.
  - exists []. rewrite app_nil_r. split; [reflexivity|]. split; [constructor|].
    split; [intros f Hf; by apply elem_of_nil in Hf|].
    split; [intros f Hf; by apply elem_of_nil in Hf|done].
  - destruct (existsb (fun af => sameFileId af f) acc) eqn:Hex.
    + destruct (IH acc) as (extra & Heq & Hsub & Hfresh & Hcover & Hnd).
      exists extra. split; [exact Heq|]. split; [by apply sublist_cons|].
      split; [exact Hfresh|]. split; [|exact Hnd].
      intros g Hg. apply elem_of_cons in Hg as [->|Hg]; [|by apply Hcover].
      apply existsb_exists in Hex as (a & Ha & Hsame).
      exists a. split; [apply elem_of_app; left; by apply list_elem_of_In|].
      by apply String.eqb_eq.
    + destruct (IH (acc ++ [f])) as (extra & Heq & Hsub & Hfresh & Hcover & Hnd).
      assert (Hf : forall a, a ∈ acc -> file_id a <> file_id f).
      { intros a Ha Hid. apply not_true_iff_false in Hex. apply Hex, existsb_exists.
        exists a. split; [by apply list_elem_of_In|by apply String.eqb_eq]. }
      exists (f :: extra). rewrite Heq, <- app_assoc. simpl.
      split; [reflexivity|]. split; [by apply sublist_skip|].
      split; [|split].
      * intros g Hg a Ha. apply elem_of_cons in Hg as [->|Hg]; [by apply Hf|].
        apply (Hfresh g Hg). apply elem_of_app. by left.
      * intros g Hg. apply elem_of_cons in Hg as [->|Hg].
        -- exists f. split; [|reflexivity]. apply elem_of_app. right. left.
        -- destruct (Hcover g Hg) as (h & Hh & Hid). exists h.
           split; [|exact Hid]. by rewrite <- app_assoc in Hh.
      * intros Hacc. rewrite <- app_assoc in Hnd. apply Hnd.
        rewrite map_app. apply NoDup_app. split; [exact Hacc|].
        split; [|apply NoDup_singleton].
        intros id Hid Hin. apply list_elem_of_singleton in Hin as ->.
        apply list_elem_of_In, in_map_iff in Hid as (a & Ha & Hin).
        by apply (Hf a); [apply list_elem_of_In|].
Qed.

End AllFiles.

(** X20. The files offered for a mention are the available files, in
    their order, followed by those pending attachments whose id is not
    among them, each id once: every pending attachment is represented
    by a file with its id, and ids that are distinct among the
    available files are distinct in the whole list. *)
Theorem X20_allFiles_merges_without_duplicates :
  forall (availableFiles attachedFiles : list AttachedFile),
    exists extra,
      allFiles availableFiles attachedFiles = availableFiles ++ extra /\
      sublist extra attachedFiles /\
      (forall f, f ∈ extra ->
                 forall a, a ∈ availableFiles -> file_id a <> file_id f) /\
      (forall f, f ∈ attachedFiles ->
                 exists g, g ∈ allFiles availableFiles attachedFiles
                           /\ file_id g = file_id f) /\
      (NoDup (map file_id availableFiles) ->
       NoDup (map file_id (allFiles availableFiles attachedFiles))).
Proof.
  intros availableFiles attachedFiles.
  destruct (allFiles_spec attachedFiles availableFiles)
    as (extra & Heq & Hsub & Hfresh & Hcover & Hnd).
  exists extra. rewrite Heq. by repeat split.
Qed.

Section CaseFolding.

Implicit Types (a b s : string).

Lemma ascii_toLowerCase_idem (c : ascii) :
  ascii_toLowerCase (ascii_toLowerCase c) = ascii_toLowerCase c.
Proof. destruct c as [[] [] [] [] [] [] [] []]; reflexivity. Qed.

Lemma js_toLowerCase_idem s : js_toLowerCase (js_toLowerCase s) = js_toLowerCase s.
Proof.
  induction s as [|c s IH]; simpl; [reflexivity|].
  by rewrite ascii_toLowerCase_idem, IH.
Qed.

Lemma prefix_toLowerCase a b :
  String.prefix a b = true ->
  String.prefix (js_toLowerCase a) (js_toLowerCase b) = true.
Proof.
  revert b. induction a as [|x a IH]; intros b; simpl; [intros _; apply prefix_empty|].
  destruct b as [|y b]; simpl; [discriminate|].
  destruct (ascii_dec x y) as [->|Hne]; [|discriminate].
  intros H. destruct (ascii_dec _ _); [by apply IH|done].
Qed.

(** A name that contains the text contains it whatever the case. *)
Lemma js_includes_toLowerCase a b :
  js_includes a b = true ->
  js_includes (js_toLowerCase a) (js_toLowerCase b) = true.
Proof.
  induction b as [|y b IH]; simpl.
  - rewrite !orb_false_r. apply (prefix_toLowerCase a "").
  - intros H. apply orb_true_iff in H as [H|H]; apply orb_true_iff.
    + left. apply (prefix_toLowerCase a (String y b) H).
    + right. by apply IH.
Qed.

Lemma js_includes_empty s : js_includes "" s = true.
Proof. destruct s; simpl; by rewrite ?prefix_empty. Qed.

(** The converse: what the folded name contains is the folding of
    something the name contains. *)
Lemma prefix_of_toLowerCase a b :
  String.prefix a (js_toLowerCase b) = true ->
  exists other, String.prefix other b = true /\ js_toLowerCase other = a.
Proof.
  revert b. induction a as [|x a IH]; intros b; simpl.
  - intros _. exists "". split; [apply prefix_empty|reflexivity].
  - destruct b as [|y b]; simpl; [discriminate|].
    destruct (ascii_dec x (ascii_toLowerCase y)) as [->|Hne]; [|discriminate].
    intros H. destruct (IH b H) as (other & Hpre & Hlow).
    exists (String y other). simpl. split; [|by rewrite Hlow].
    by destruct (ascii_dec y y).
Qed.

Lemma js_includes_of_toLowerCase a b :
  js_includes a (js_toLowerCase b) = true ->
  exists other, js_includes other b = true /\ js_toLowerCase other = a.
Proof.
  induction b as [|y b IH]; simpl.
  - rewrite orb_false_r. intros H.
    destruct (prefix_of_toLowerCase a "" H) as (other & Hpre & Hlow).
    exists other. split; [|exact Hlow]. destruct other; simpl in *; by rewrite ?Hpre.
  - intros H. apply orb_true_iff in H as [H|H].
    + destruct (prefix_of_toLowerCase a (String y b) H) as (other & Hpre & Hlow).
      exists other. split; [|exact Hlow].
      destruct other as [|z other]; [by rewrite js_includes_empty|].
      simpl in *. by rewrite Hpre.
    + destruct (IH H) as (other & Hinc & Hlow).
      exists other. split; [|exact Hlow].
      destruct other as [|z other]; [by rewrite js_includes_empty|].
      simpl in *. rewrite Hinc. by rewrite orb_true_r.
Qed.

End CaseFolding.

(** X21. Every file offered for a mention is an available file or a
    pending attachment. With a query open, a file of the merged list
    is offered exactly when its name contains a text that is the query
    up to case: the query and the name are both folded to lower case
    before the search, so the file [Budget.PDF] is offered for the query
    [pdf] and the file [report.pdf] for the query [PDF]. In particular
    a file whose name contains the query as written is offered, and
    queries that differ in case only give the same offers. The empty
    query offers every file, and with no query open nothing is
    offered. *)
Theorem X21_mention_candidates :
  forall (st : ChatState),
    let files := allFiles (st_availableFiles st) (st_attachedFiles st) in
    (forall f, f ∈ mentionCandidates st ->
               f ∈ files /\ (f ∈ st_availableFiles st \/ f ∈ st_attachedFiles st)) /\
    (forall query f,
        st_mentionQuery st = Some query -> f ∈ files ->
        js_includes query (fileDisplayName "" f) = true ->
        f ∈ mentionCandidates st) /\
    (forall query,
        st_mentionQuery st = Some query ->
        mentionCandidates st
        = mentionCandidates (setMentionQuery (Some (js_toLowerCase query)) st)) /\
    (st_mentionQuery st = Some "" -> mentionCandidates st = files) /\
    (st_mentionQuery st = None -> mentionCandidates st = []) /\
    (forall query f,
        st_mentionQuery st = Some query ->
        (f ∈ mentionCandidates st
         <-> f ∈ files /\
             exists other,
               js_toLowerCase other = js_toLowerCase query /\
               js_includes other (fileDisplayName "" f) = true)).
Proof.
  intros st files. subst files. unfold mentionCandidates.
  split; [|split; [|split; [|split; [|split]]]].
  - intros f Hf. destruct (st_mentionQuery st) as [query|];
      [|by apply elem_of_nil in Hf].
    apply list_elem_of_In, filter_In in Hf as [Hin _].
    apply list_elem_of_In in Hin. split; [exact Hin|].
    destruct (allFiles_spec (st_attachedFiles st) (st_availableFiles st))
      as (extra & Heq & Hsub & _).
    rewrite Heq in Hin.
    apply elem_of_app in Hin as [Hin|Hin]; [by left|right].
    exact (elem_of_sublist _ _ _ Hin Hsub).
  - intros query f -> Hin Hmatch. apply list_elem_of_In, filter_In.
    split; [by apply list_elem_of_In|]. by apply js_includes_toLowerCase.
  - intros query ->. simpl. by rewrite js_toLowerCase_idem.
  - intros ->. change (js_toLowerCase "") with "".
    generalize (allFiles (st_availableFiles st) (st_attachedFiles st)). intros l.
    induction l as [|f l IH]; simpl; [reflexivity|].
    by rewrite js_includes_empty, IH.
  - by intros ->.
  - intros query f ->. rewrite list_elem_of_In, filter_In, <- list_elem_of_In.
    split; intros [Hin Hmatch]; (split; [exact Hin|]).
    + destruct (js_includes_of_toLowerCase _ _ Hmatch) as (other & Hinc & Hlow).
      by exists other.
    + destruct Hmatch as (other & Hlow & Hinc).
      rewrite <- Hlow. by apply js_includes_toLowerCase.
Qed.

Lemma X21_witness :
  let st := setMentionQuery (Some "PDF") mentionState in
  let st2 := setMentionQuery (Some "pdf")
               (setAvailableFiles [budgetPdf; notesTxt] emptyChatState) in
  st_mentionQuery st = Some "PDF" /\
  js_includes "pdf" (fileDisplayName "" reportPdf) = true /\
  mentionCandidates st = [reportPdf] /\
  js_includes "pdf" (fileDisplayName "" budgetPdf) = false /\
  budgetPdf ∈ mentionCandidates st2 /\
  ~ notesTxt ∈ mentionCandidates st2.
Proof.
  intros st st2.
  destruct (X21_mention_candidates st) as (_ & _ & Hcase & _).
  destruct (X21_mention_candidates st2) as (_ & _ & _ & _ & _ & Hfold).
  split; [reflexivity|]. split; [reflexivity|].
  split; [rewrite (Hcase "PDF" eq_refl); reflexivity|].
  split; [reflexivity|]. split.
  - apply (Hfold "pdf" budgetPdf eq_refl). split; [by left|].
    exists "PDF". by split.
  - intros Hin. apply (Hfold "pdf" notesTxt eq_refl) in Hin as [_ (other & Hlow & Hinc)].
    apply js_includes_toLowerCase in Hinc. rewrite Hlow in Hinc. discriminate Hinc.
Defined.

(** X22. An upload of several files attaches them one by one, in
    order, behind the attachments already pending; the first failure
    ends the run: the files uploaded before it stay attached and the
    files after it are not uploaded. Nothing else is written. *)
Theorem X22_uploadFiles_stops_at_first_failure :
  forall (results : list UploadResult) (st : ChatState),
    st_attachedFiles (uploadFiles results st)
    = st_attachedFiles st ++ uploadedFiles results /\
    st_messages (uploadFiles results st) = st_messages st /\
    st_inputValue (uploadFiles results st) = st_inputValue st /\
    (forall (done : list (string * string)) (rest : list UploadResult),
        let files := map (fun r => mkAttachedFile (fst r) (snd r) None) done in
        let oks := map (fun r => Uploaded (fst r) (snd r)) done in
        uploadedFiles oks = files /\
        uploadedFiles (oks ++ UploadFailed :: rest) = files).
Proof.
  intros results st. split; [|split; [|split]].
  - revert st. induction results as [|[id filename|] rest IH]; intros st; simpl.
    + by rewrite app_nil_r.
    + rewrite IH. simpl. by rewrite <- app_assoc.
    + by rewrite app_nil_r.
  - revert st. induction results as [|[id filename|] rest IH]; intros st; simpl;
      [reflexivity|by rewrite IH|reflexivity].
  - revert st. induction results as [|[id filename|] rest IH]; intros st; simpl;
      [reflexivity|by rewrite IH|reflexivity].
  - intros done rest files oks. subst files oks.
    induction done as [|[id filename] done [IH1 IH2]]; simpl; [done|].
    by rewrite IH1, IH2.
Qed.

(** X23. The progress display is ordered: with a progress record the
    tasks before the current step are completed, the task at the
    current step is the only one in progress and every task after it
    is pending; before the first record arrives the first task is the
    one in progress and the others are pending. *)
Theorem X23_task_statuses_are_ordered :
  forall (progress : option ResearchProgress) (n : nat),
    (forall i : nat, (i < n)%nat ->
       taskStatuses progress n !! i = Some (taskStatus progress (Z.of_nat i))) /\
    (forall i j : Z,
        0 <= i < j ->
        (taskStatus progress j = completed -> taskStatus progress i = completed) /\
        (taskStatus progress i = pending -> taskStatus progress j = pending) /\
        (taskStatus progress i = current -> taskStatus progress j = pending)) /\
    (forall p i,
        progress = Some p -> 0 <= i ->
        (taskStatus progress i = current <-> i = rp_current_step p - 1) /\
        (taskStatus progress i = completed <-> i < rp_current_step p - 1)) /\
    (forall i, progress = None -> 0 <= i ->
               (taskStatus progress i = current <-> i = 0)).
Proof.
  intros progress n. split; [|split; [|split]].
  - intros i Hi. unfold taskStatuses. rewrite map_lookup.
    by rewrite lookup_seq_lt.
  - intros i j Hij. unfold taskStatus. destruct progress as [p|].
    + destruct (Z.ltb_spec i (rp_current_step p - 1)),
               (Z.ltb_spec j (rp_current_step p - 1)),
               (Z.eqb_spec i (rp_current_step p - 1)),
               (Z.eqb_spec j (rp_current_step p - 1));
        repeat split; intros; try done; lia.
    + destruct (Z.eqb_spec i 0), (Z.eqb_spec j 0);
        repeat split; intros; try done; lia.
  - intros p i -> Hi. unfold taskStatus.
    destruct (Z.ltb_spec i (rp_current_step p - 1)),
             (Z.eqb_spec i (rp_current_step p - 1));
      repeat split; intros; try done; lia.
  - intros i -> Hi. unfold taskStatus.
    destruct (Z.eqb_spec i 0); split; intros; try done.
Qed.

Lemma X23_witness :
  taskStatuses (Some (mkResearchProgress 2 4 "Step 2" "" None None)) 4
  = [completed; current; pending; pending] /\
  taskStatuses None 3 = [current; pending; pending].
Proof.
  destruct (X23_task_statuses_are_ordered
              (Some (mkResearchProgress 2 4 "Step 2" "" None None)) 4) as [Hlookup _].
  pose proof (Hlookup 1%nat ltac:(lia)) as H1.
  split; reflexivity.
Defined.

(** ** View pointer, continued *)

Lemma Z_geb_below (a b : Z) : a < b -> (a >=? b) = false.
Proof. intros H. rewrite Z.geb_leb. apply Z.leb_gt. lia. Qed.

Lemma Z_geb_above (a b : Z) : a >= b -> (a >=? b) = true.
Proof. intros H. rewrite Z.geb_leb. apply Z.leb_le. lia. Qed.

Lemma find_version_exists (v : Z) (l : list AccountPlan) :
  v ∈ map plan_version l ->
  exists s, List.find (fun h => plan_version h =? v) l = Some s.
Proof.
  intros Hv. destruct (List.find _ l) as [s|] eqn:Hfind; [by exists s|].
  apply list_elem_of_In, in_map_iff in Hv as (h & Hh & Hin).
  apply (find_none _ _ Hfind) in Hin. simpl in Hin.
  apply Z.eqb_neq in Hin. congruence.
Qed.

(** X24. Selecting a version that the history holds and that is below
    the live version stores it as the pointer, and the view then
    shows a snapshot of exactly that version: the first one in the
    history that has it. *)
Theorem X24_select_history_version_displays_snapshot :
  forall (st : CanvasState) (plan : AccountPlan) (v : Z),
    cv_plan st = Some plan ->
    v <> -1 ->
    v < plan_version plan ->
    v ∈ map plan_version (default [] (plan_history plan)) ->
    let st' := historyNavigationEffect (selectVersion v st) in
    cv_historyIndex st' = v /\
    cv_showVersionPanel st' = false /\
    cv_plan st' = Some plan /\
    exists snapshot,
      cv_displayPlan st' = Some snapshot /\
      plan_version snapshot = v /\
      List.find (fun h => plan_version h =? v) (default [] (plan_history plan))
      = Some snapshot.
Proof.
  intros st plan v Hplan Hsentinel Hbelow Hlisted st'. subst st'.
  destruct (find_version_exists _ _ Hlisted) as (snapshot & Hfind).
  unfold selectVersion, historyNavigationEffect. rewrite Hplan.
  replace (v =? plan_version plan) with false by (symmetry; apply Z.eqb_neq; lia).
  simpl. rewrite Hplan.
  replace (v =? -1) with false by (symmetry; by apply Z.eqb_neq).
  rewrite (Z_geb_below _ _ Hbelow).
  simpl. destruct (plan_history plan) as [[|h hs]|]; try discriminate Hfind.
  change (List.find (fun h' => plan_version h' =? v) (h :: hs) = Some snapshot)
    in Hfind.
  pose proof Hfind as Hstep. simpl in Hstep.
  rewrite Hstep. split; [reflexivity|]. split; [reflexivity|]. split; [exact Hplan|].
  exists snapshot. split; [reflexivity|]. split; [|exact Hfind].
  apply find_some in Hfind as [_ Hv]. by apply Z.eqb_eq.
Qed.

Lemma X24_witness :
  cv_plan (mkCanvasState (Some versionedPlan) (Some versionedPlan) false None (-1) true)
    = Some versionedPlan /\
  cv_displayPlan
    (historyNavigationEffect
       (selectVersion 3
          (mkCanvasState (Some versionedPlan) (Some versionedPlan) false None (-1) true)))
  = Some (snapshotOf 3 "2025-01-03T00:00:00.000Z").
Proof.
  split; [reflexivity|].
  destruct (X24_select_history_version_displays_snapshot
              (mkCanvasState (Some versionedPlan) (Some versionedPlan) false None (-1) true)
              versionedPlan 3 eq_refl) as (_ & _ & _ & snapshot & Hshown & _ & Hfind);
    [discriminate|reflexivity| |].
  - right. left.
  - rewrite Hshown. by injection Hfind as <-.
Defined.

(** X25. The navigation effect writes the displayed document and
    nothing else. It shows the live document when the pointer is the
    sentinel or at least the live version, and also when the history
    has snapshots but none at the pointer's version. When the pointer
    is below the live version and the history is missing or empty, it
    leaves the displayed document as it was. *)
Theorem X25_history_navigation_fallbacks :
  forall (st : CanvasState),
    let st' := historyNavigationEffect st in
    st' = setDisplayPlan (cv_displayPlan st') st /\
    (cv_plan st = None -> st' = st) /\
    (forall plan,
        cv_plan st = Some plan ->
        (cv_historyIndex st = -1 \/ cv_historyIndex st >= plan_version plan ->
         cv_displayPlan st' = Some plan) /\
        (cv_historyIndex st <> -1 -> cv_historyIndex st < plan_version plan ->
         (forall history,
             plan_history plan = Some history -> history <> [] ->
             (forall h, h ∈ history -> plan_version h <> cv_historyIndex st) ->
             cv_displayPlan st' = Some plan) /\
         (plan_history plan = None \/ plan_history plan = Some [] -> st' = st))).
Proof.
  intros st st'. subst st'. unfold historyNavigationEffect.
  split; [|split].
  - destruct (cv_plan st) as [plan|]; [|by destruct st].
    destruct ((cv_historyIndex st =? -1) || (cv_historyIndex st >=? plan_version plan));
      [reflexivity|].
    destruct (plan_history plan) as [[|h hs]|]; try by destruct st.
    by destruct (List.find _ (h :: hs)).
  - by intros ->.
  - intros plan ->. split.
    + intros Hcur.
      replace ((cv_historyIndex st =? -1) || (cv_historyIndex st >=? plan_version plan))
        with true; [reflexivity|].
      symmetry. apply orb_true_iff. destruct Hcur as [Hc|Hc];
        [left; by apply Z.eqb_eq|right; by apply Z_geb_above].
    + intros Hsentinel Hbelow.
      replace ((cv_historyIndex st =? -1) || (cv_historyIndex st >=? plan_version plan))
        with false.
      2:{ symmetry. apply orb_false_iff. split;
            [by apply Z.eqb_neq|by apply Z_geb_below]. }
      split.
      * intros history -> Hne Hnone. destruct history as [|h hs]; [done|].
        destruct (List.find _ (h :: hs)) as [s|] eqn:Hfind; [|reflexivity].
        apply find_some in Hfind as [Hin Hv]. apply Z.eqb_eq in Hv.
        exfalso. by apply (Hnone s); [apply list_elem_of_In|].
      * by intros [-> | ->].
Qed.

Lemma X25_witness :
  let st := mkCanvasState (Some acmePlan) (Some editedPlan) false None 3 false in
  cv_plan st = Some acmePlan /\ cv_historyIndex st <> -1 /\
  cv_historyIndex st < plan_version acmePlan /\
  plan_history acmePlan = None /\
  cv_displayPlan (historyNavigationEffect st) = Some editedPlan.
Proof.
  intros st.
  destruct (X25_history_navigation_fallbacks st) as (_ & _ & Hplan).
  destruct (Hplan acmePlan eq_refl) as [_ Hhist].
  destruct Hhist as [_ Hstale]; [discriminate|reflexivity|].
  rewrite (Hstale (or_introl eq_refl)). by repeat split.
Defined.

(** ** Editing, continued *)

Lemma updateSectionContent_only_buffer index newContent st :
  updateSectionContent index newContent st
  = setEditState (cv_editState (updateSectionContent index newContent st)) st.
Proof.
  unfold updateSectionContent. destruct (cv_editState st) eqn:E; [reflexivity|].
  destruct st. simpl in *. by subst.
Qed.

Lemma applyEdits_only_buffer edits st :
  applyEdits edits st = setEditState (cv_editState (applyEdits edits st)) st.
Proof.
  unfold applyEdits. revert st. induction edits as [|[index c] edits IH]; intros st.
  - by destruct st.
  - simpl. rewrite (IH (updateSectionContent index c st)).
    unfold setEditState. simpl.
    by rewrite (updateSectionContent_only_buffer index c st).
Qed.

(** X26. Edits go to the buffer only: after any run of section edits
    the live document, the displayed document, the view pointer and
    the edit flag are what they were, and canceling gives the state
    that canceling at once would have given, out of edit mode and
    without a buffer. Without a buffer the edits do nothing. *)
Theorem X26_edits_stay_in_the_buffer :
  forall (edits : list (nat * Content)) (st : CanvasState),
    let st' := applyEdits edits st in
    cv_plan st' = cv_plan st /\
    cv_displayPlan st' = cv_displayPlan st /\
    cv_historyIndex st' = cv_historyIndex st /\
    cv_isEditing st' = cv_isEditing st /\
    handleCancelEdit st' = handleCancelEdit st /\
    cv_editState (handleCancelEdit st') = None /\
    cv_isEditing (handleCancelEdit st') = false /\
    (cv_editState st = None -> st' = st).
Proof.
  intros edits st st'. subst st'. rewrite applyEdits_only_buffer.
  repeat split. intros Hnone. rewrite <- applyEdits_only_buffer.
  unfold applyEdits. induction edits as [|[index c] edits IH]; simpl; [reflexivity|].
  unfold updateSectionContent at 2. by rewrite Hnone.
Qed.

Lemma findPlan_savePlan_same (p : AccountPlan) (store : PlanStore) :
  findPlan (plan_id p) (savePlan p store) = Some p.
Proof.
  unfold findPlan. induction store as [|q store IH]; simpl.
  - by rewrite String.eqb_refl.
  - destruct (String.eqb (plan_id q) (plan_id p)) eqn:E; simpl.
    + by rewrite String.eqb_refl.
    + by rewrite E.
Qed.

(** X27. An edit followed by a commit makes the edit live: the live
    and displayed document is the buffer with the new content at the
    edited index (title kept) and every other section and the id and
    version as in the buffer; that document is what is sent to the
    service, under the id of the plan, and after a successful save it
    is what the local store holds under its id. *)
Theorem X27_edit_then_commit :
  forall (outcome : PersistOutcome) (store : PlanStore) (st : CanvasState)
         (editState plan : AccountPlan) (index : nat) (newContent : Content),
    cv_editState st = Some editState ->
    cv_plan st = Some plan ->
    let r := handleSaveEdit outcome store (updateSectionContent index newContent st) in
    exists live,
      cv_plan (sr_state r) = Some live /\
      cv_displayPlan (sr_state r) = Some live /\
      cv_isEditing (sr_state r) = false /\
      sr_request r = Some (plan_id plan, live) /\
      js_array_get (plan_sections live) index
      = Some (withContent newContent (js_array_get (plan_sections editState) index)) /\
      (forall j, j <> index ->
                 js_array_get (plan_sections live) j
                 = js_array_get (plan_sections editState) j) /\
      plan_id live = plan_id editState /\
      plan_version live = plan_version editState /\
      (outcome = Persisted -> findPlan (plan_id live) (sr_store r) = Some live) /\
      (outcome = PersistFailed -> sr_store r = store).
Proof.
  intros outcome store st editState plan index newContent Hedit Hplan r. subst r.
  unfold updateSectionContent, handleSaveEdit. rewrite Hedit. simpl. rewrite Hplan.
  eexists. destruct outcome; simpl;
    (split; [reflexivity|]); (split; [reflexivity|]); (split; [reflexivity|]);
    (split; [reflexivity|]); (split; [apply js_array_get_set_same|]);
    (split; [intros j Hj; by apply js_array_get_set_other|]);
    (split; [reflexivity|]); (split; [reflexivity|]);
    (split; [intros H|intros H]); try discriminate H; try reflexivity.
  apply (findPlan_savePlan_same
           (withSections
              (js_array_set index
                 (withContent newContent (js_array_get (plan_sections editState) index))
                 (plan_sections editState)) editState)).
Qed.

Lemma X27_witness :
  cv_editState editingState = Some editedPlan /\
  cv_plan editingState = Some acmePlan /\
  exists live,
    cv_plan (sr_state (handleSaveEdit Persisted [acmePlan]
                         (updateSectionContent 1 (CText "None known.") editingState)))
    = Some live /\
    js_array_get (plan_sections live) 1
    = Some (mkPlanSection (Some "Risks") (CText "None known.")).
Proof.
  split; [reflexivity|]. split; [reflexivity|].
  destruct (X27_edit_then_commit Persisted [acmePlan] editingState editedPlan acmePlan
              1 (CText "None known.") eq_refl eq_refl)
    as (live & Hlive & _ & _ & _ & Hsection & _).
  exists live. split; [exact Hlive|exact Hsection].
Defined.

(** ** Content editor *)

Section ListItems.

Implicit Types (content : list Content) (i s : nat).

Lemma filter_index_below content s (k : nat) :
  (k < s)%nat ->
  map snd (List.filter (fun e => negb (fst e =? k)%nat)
             (combine (seq s (length content)) content))
  = content.
Proof.
  revert s. induction content as [|c content IH]; intros s Hk; simpl; [reflexivity|].
  destruct (Nat.eqb_spec s k) as [->|_]; [lia|]. simpl.
  rewrite IH by lia. reflexivity.
Qed.

Lemma filter_index_delete content s i :
  map snd (List.filter (fun e => negb (fst e =? s + i)%nat)
             (combine (seq s (length content)) content))
  = delete i content.
Proof.
  revert s i. induction content as [|c content IH]; intros s i; simpl;
    [by destruct i|].
  destruct i as [|i].
  - rewrite Nat.add_0_r, Nat.eqb_refl. simpl. apply filter_index_below. lia.
  - destruct (Nat.eqb_spec s (s + S i)) as [Heq|_]; [lia|]. simpl.
    replace (s + S i)%nat with (S s + i)%nat by lia. by rewrite IH.
Qed.

End ListItems.

(** X28. Removing the item at an index of a list drops that item and
    keeps the others in order (an index past the end removes
    nothing); adding appends the item "New Item" and leaves the
    earlier items where they are; removing the item just added gives
    the list back. *)
Theorem X28_list_item_add_and_remove :
  forall (content : list Content) (i : nat),
    removeListItem i content = take i content ++ drop (S i) content /\
    ((i < length content)%nat ->
     S (length (removeListItem i content)) = length content) /\
    ((length content <= i)%nat -> removeListItem i content = content) /\
    (forall j, (j < i)%nat -> removeListItem i content !! j = content !! j) /\
    (forall j, (i <= j)%nat -> removeListItem i content !! j = content !! (S j)) /\
    (forall j, (j < length content)%nat ->
               addListItem content !! j = content !! j) /\
    addListItem content !! length content = Some (CText "New Item") /\
    removeListItem (length content) (addListItem content) = content.
Proof.
  intros content i.
  assert (Hdel : forall (l : list Content) k, removeListItem k l = delete k l)
    by (intros l k; apply (filter_index_delete l 0 k)).
  rewrite !Hdel. split; [|split; [|split; [|split; [|split; [|split; [|split]]]]]].
  - revert i. induction content as [|c content IH]; intros [|i]; simpl; try done.
    by rewrite IH.
  - intros Hi. rewrite length_delete; [lia|]. by apply lookup_lt_is_Some.
  - intros Hi. revert i Hi.
    induction content as [|c content IH]; intros [|i] Hi; simpl in *; try done; [lia|].
    rewrite IH; [done|lia].
  - intros j Hj. by apply list_lookup_delete_lt.
  - intros j Hj. by apply list_lookup_delete_ge.
  - intros j Hj. unfold addListItem. by apply lookup_app_l.
  - unfold addListItem. rewrite lookup_app_r by lia.
    by rewrite Nat.sub_diag.
  - unfold addListItem. clear.
    induction content as [|c content IH]; simpl; [reflexivity|]. by rewrite IH.
Qed.

Lemma X28_witness :
  (1 < length [CText "a"; CText "b"; CText "c"])%nat /\
  removeListItem 1 [CText "a"; CText "b"; CText "c"] = [CText "a"; CText "c"] /\
  removeListItem 5 [CText "a"; CText "b"; CText "c"] = [CText "a"; CText "b"; CText "c"].
Proof.
  destruct (X28_list_item_add_and_remove [CText "a"; CText "b"; CText "c"] 1)
    as (Hremove & _).
  destruct (X28_list_item_add_and_remove [CText "a"; CText "b"; CText "c"] 5)
    as (_ & _ & Hpast & _).
  split; [simpl; lia|]. split; [by rewrite Hremove|].
  apply Hpast. simpl. lia.
Defined.


